(** * A copy-on-write B+tree page codec, its splitter and insert, and the
      durable file writer: a shallow embedding of the Go sources and the
      properties of the design document checked against it.

    The Go code works on byte slices that share backing arrays, stops the
    process with [log.Fatal] on contract violations and panics on slice
    bounds.  The embedding keeps all three: a heap of backing arrays,
    slices as (array, offset, length, capacity) views, and a state monad
    whose outcome records how a call ended. *)

From stdpp Require Import base list gmap strings pretty.
From Stdlib Require Import ZArith Lia.

Local Open Scope Z_scope.

(** ** Outcomes and the heap monad *)

(** How a Go call ends: it returns, [log.Fatal] exits the process, the
    runtime panics, or the model's loop budget is exhausted. *)
Inductive outcome (A : Type) : Type :=
  | Ok (a : A)
  | Fatal (msg : string)
  | Panic (msg : string)
  | OutOfFuel.
Arguments Ok {A} a.
Arguments Fatal {A} msg.
Arguments Panic {A} msg.
Arguments OutOfFuel {A}.

(** The heap is the list of backing arrays allocated so far; a byte is a
    [Z] in [0, 256). *)
Abbreviation Heap := (list (list Z)).

Definition M (A : Type) : Type := Heap → Heap * outcome A.

Definition ret {A} (a : A) : M A := fun h => (h, Ok a).

Definition bind {A B} (m : M A) (f : A → M B) : M B := fun h =>
  match m h with
  | (h', Ok a) => f a h'
  | (h', Fatal s) => (h', Fatal s)
  | (h', Panic s) => (h', Panic s)
  | (h', OutOfFuel) => (h', OutOfFuel)
  end.

Definition log_Fatal {A} (msg : string) : M A := fun h => (h, Fatal msg).
Definition panic {A} (msg : string) : M A := fun h => (h, Panic msg).
Definition out_of_fuel {A} : M A := fun h => (h, OutOfFuel).

Global Instance M_ret : MRet M := @ret.
Global Instance M_bind : MBind M := fun A B f m => bind m f.

(** ** Machine integers *)

Definition u16 (x : Z) : Z := x `mod` 65536.
Definition u64 (x : Z) : Z := x `mod` 18446744073709551616.
Definition byte (x : Z) : Z := x `mod` 256.

(** ** Slices *)

Record Slice : Type := mkSlice {
  base : nat;   (* index of the backing array in the heap *)
  off : nat;    (* first element of the view *)
  len : nat;
  cap : nat
}.

(** The nil slice. *)
Definition nil_slice : Slice := mkSlice 0 0 0 0.

Definition go_len (s : Slice) : Z := Z.of_nat (len s).

(** [s[lo:]] *)
Definition sl_from (s : Slice) (lo : Z) : M Slice :=
  if bool_decide (0 ≤ lo ≤ Z.of_nat (len s)) then
    ret (mkSlice (base s) (off s + Z.to_nat lo)
                 (len s - Z.to_nat lo) (cap s - Z.to_nat lo))
  else panic "slice bounds out of range".

(** [s[:hi]] *)
Definition sl_to (s : Slice) (hi : Z) : M Slice :=
  if bool_decide (0 ≤ hi ≤ Z.of_nat (cap s)) then
    ret (mkSlice (base s) (off s) (Z.to_nat hi) (cap s))
  else panic "slice bounds out of range".

(** [s[lo:hi]] *)
Definition sl_range (s : Slice) (lo hi : Z) : M Slice :=
  if bool_decide (0 ≤ lo ≤ hi ∧ hi ≤ Z.of_nat (cap s)) then
    ret (mkSlice (base s) (off s + Z.to_nat lo)
                 (Z.to_nat hi - Z.to_nat lo) (cap s - Z.to_nat lo))
  else panic "slice bounds out of range".

(** Overwrite [xs] into [arr] from position [p] on. *)
Definition splice (arr : list Z) (p : nat) (xs : list Z) : list Z :=
  take p arr ++ xs ++ drop (p + length xs) arr.

(** [n] bytes of the view [s] from its index [i] on, and the heap after
    storing [xs] there. *)
Definition rd (h : Heap) (s : Slice) (i n : nat) : list Z :=
  match h !! base s with
  | Some arr => take n (drop (off s + i) arr)
  | None => []
  end.

Definition wr (h : Heap) (s : Slice) (i : nat) (xs : list Z) : Heap :=
  alter (fun arr => splice arr (off s + i) xs) (base s) h.

(** The bytes a slice shows. *)
Definition view (h : Heap) (s : Slice) : list Z := rd h s 0 (len s).

(** [make([]byte, n)] *)
Definition make (n : nat) : M Slice := fun h =>
  (h ++ [replicate n 0], Ok (mkSlice (length h) 0 n n)).

(** [copy(dst, src)]: the shorter length decides; overlapping is safe. *)
Definition copy (dst src : Slice) : M Z := fun h =>
  let n := Nat.min (len dst) (len src) in
  (wr h dst 0 (rd h src 0 n), Ok (Z.of_nat n)).

(** ** encoding/binary, little endian *)

Definition LittleEndian_Uint16 (b : Slice) : M Z := fun h =>
  if bool_decide (len b < 2)%nat then (h, Panic "index out of range")
  else
    let d := rd h b 0 2 in
    (h, Ok (Z.lor (nth 0 d 0) (Z.shiftl (nth 1 d 0) 8))).

Definition LittleEndian_PutUint16 (b : Slice) (v : Z) : M unit := fun h =>
  if bool_decide (len b < 2)%nat then (h, Panic "index out of range")
  else (wr h b 0 [byte v; byte (Z.shiftr v 8)], Ok tt).

Definition LittleEndian_Uint64 (b : Slice) : M Z := fun h =>
  if bool_decide (len b < 8)%nat then (h, Panic "index out of range")
  else
    let d := rd h b 0 8 in
    (h, Ok (Z.lor (Z.lor (Z.lor (Z.lor (Z.lor (Z.lor (Z.lor
          (nth 0 d 0)
          (Z.shiftl (nth 1 d 0) 8))
          (Z.shiftl (nth 2 d 0) 16))
          (Z.shiftl (nth 3 d 0) 24))
          (Z.shiftl (nth 4 d 0) 32))
          (Z.shiftl (nth 5 d 0) 40))
          (Z.shiftl (nth 6 d 0) 48))
          (Z.shiftl (nth 7 d 0) 56))).

Definition LittleEndian_PutUint64 (b : Slice) (v : Z) : M unit := fun h =>
  if bool_decide (len b < 8)%nat then (h, Panic "index out of range")
  else (wr h b 0 [byte v; byte (Z.shiftr v 8); byte (Z.shiftr v 16);
                  byte (Z.shiftr v 24); byte (Z.shiftr v 32);
                  byte (Z.shiftr v 40); byte (Z.shiftr v 48);
                  byte (Z.shiftr v 56)], Ok tt).

(** ** package bytes *)

(** Lexicographic comparison of byte strings: -1, 0 or 1. *)
Fixpoint compare_bytes (a b : list Z) : Z :=
  match a, b with
  | [], [] => 0
  | [], _ :: _ => -1
  | _ :: _, [] => 1
  | x :: a', y :: b' =>
      if bool_decide (x < y) then -1
      else if bool_decide (y < x) then 1
      else compare_bytes a' b'
  end.

Definition bytes_Compare (a b : Slice) : M Z := fun h =>
  (h, Ok (compare_bytes (view h a) (view h b))).

Definition bytes_Equal (a b : Slice) : M bool := fun h =>
  (h, Ok (bool_decide (view h a = view h b))).

(** [if !(cond) { log.Fatal(msg) }] *)
Definition require (cond : bool) (msg : string) : M unit :=
  if cond then ret tt else log_Fatal msg.

(** ** The page codec *)

Definition HEADER : Z := 4.
Definition BTREE_PAGE_SIZE : Z := 4096.
Definition BTREE_MAX_KEY_SIZE : Z := 1000.
Definition BTREE_MAX_VAL_SIZE : Z := 3000.

Definition BNODE_NODE : Z := 1.
Definition BNODE_LEAF : Z := 2.

(** | type | nkeys |  pointers  |   offsets  | key-values | unused |
    |  2B  |   2B  | nkeys * 8B | nkeys * 2B |     ...    |        |
    with each key-value as | klen 2B | vlen 2B | key | val |. *)
Definition BNode : Type := Slice.

Definition btype (node : BNode) : M Z :=
  s ← sl_range node 0 2; LittleEndian_Uint16 s.

Definition nkeys (node : BNode) : M Z :=
  s ← sl_range node 2 4; LittleEndian_Uint16 s.

Definition setHeader (node : BNode) (btype nkeys : Z) : M unit :=
  s ← sl_range node 0 2; LittleEndian_PutUint16 s btype;;
  s ← sl_range node 2 4; LittleEndian_PutUint16 s nkeys.

Definition getPtr (node : BNode) (idx : Z) : M Z :=
  n ← nkeys node;
  require (bool_decide (idx < n)) "fatal error";;
  let pos := u16 (HEADER + 8 * idx) in
  s ← sl_from node pos; LittleEndian_Uint64 s.

Definition setPtr (node : BNode) (idx : Z) (val : Z) : M unit :=
  n ← nkeys node;
  require (bool_decide (idx < n)) "fatal error";;
  let pos := u16 (HEADER + 8 * idx) in
  s ← sl_from node pos; LittleEndian_PutUint64 s val.

Definition offsetPos (node : BNode) (idx : Z) : M Z :=
  ok ← (if bool_decide (1 ≤ idx) then
          n ← nkeys node; ret (bool_decide (idx ≤ n))
        else ret false);
  require ok "invalid node index";;
  n ← nkeys node;
  ret (u16 (HEADER + 8 * n + 2 * (idx - 1))).

Definition getOffset (node : BNode) (idx : Z) : M Z :=
  if bool_decide (idx = 0) then ret 0
  else p ← offsetPos node idx; s ← sl_from node p; LittleEndian_Uint16 s.

Definition setOffset (node : BNode) (idx : Z) (offset : Z) : M unit :=
  p ← offsetPos node idx; s ← sl_from node p; LittleEndian_PutUint16 s offset.

Definition kvPos (node : BNode) (idx : Z) : M Z :=
  n ← nkeys node;
  require (bool_decide (idx ≤ n)) "invalid index node index";;
  n1 ← nkeys node; n2 ← nkeys node; o ← getOffset node idx;
  ret (u16 (HEADER + 8 * n1 + 2 * n2 + o)).

Definition getKey (node : BNode) (idx : Z) : M Slice :=
  n ← nkeys node;
  require (bool_decide (idx < n)) "invalid node index";;
  pos ← kvPos node idx;
  s ← sl_from node pos; klen ← LittleEndian_Uint16 s;
  s ← sl_from node (u16 (pos + 4)); sl_to s klen.

Definition getVal (node : BNode) (idx : Z) : M Slice :=
  n ← nkeys node;
  require (bool_decide (idx < n)) "invalid node index";;
  pos ← kvPos node idx;
  s ← sl_from node pos; klen ← LittleEndian_Uint16 s;
  s ← sl_from node (u16 (pos + 2)); vlen ← LittleEndian_Uint16 s;
  s ← sl_from node (u16 (pos + 4 + klen)); sl_to s vlen.

Definition nbytes (node : BNode) : M Z :=
  n ← nkeys node; kvPos node n.

(** The scan of [nodeLookupLE]: [i] is the loop variable, [todo] counts the
    iterations that are left before [i] reaches [nkeys]. *)
Fixpoint nodeLookupLE_scan (node : BNode) (key : Slice) (nkeys i : Z)
    (todo : nat) : M Z :=
  if bool_decide (i < nkeys) then
    match todo with
    | O => out_of_fuel
    | S todo' =>
        k ← getKey node i;
        cmp ← bytes_Compare k key;
        if bool_decide (cmp = 0) then ret i
        else if bool_decide (cmp > 0) then ret (u16 (i - 1))
        else nodeLookupLE_scan node key nkeys (u16 (i + 1)) todo'
    end
  else ret (u16 (i - 1)).

Definition nodeLookupLE (node : BNode) (key : Slice) : M Z :=
  nkeys ← nkeys node;
  nodeLookupLE_scan node key nkeys 0 (Z.to_nat nkeys).

Definition nodeAppendKV (new : BNode) (idx : Z) (ptr : Z) (key val : Slice)
    : M unit :=
  setPtr new idx ptr;;
  pos ← kvPos new idx;
  s ← sl_from new pos; LittleEndian_PutUint16 s (u16 (go_len key));;
  s ← sl_from new (u16 (pos + 2)); LittleEndian_PutUint16 s (u16 (go_len val));;
  s ← sl_from new (u16 (pos + 4)); copy s key;;
  s ← sl_from new (u16 (pos + 4 + u16 (go_len key))); copy s val;;
  o ← getOffset new idx;
  setOffset new (u16 (idx + 1)) (u16 (o + 4 + u16 (go_len key + go_len val))).

(** [for i := uint16(0); i < n; i++]: [todo] is [n - i]. *)
Fixpoint nodeAppendRange_loop (new old : BNode) (dstNew srcOld n i : Z)
    (todo : nat) : M unit :=
  if bool_decide (i < n) then
    match todo with
    | O => out_of_fuel
    | S todo' =>
        let dst := u16 (dstNew + i) in
        let src := u16 (srcOld + i) in
        p ← getPtr old src; k ← getKey old src; v ← getVal old src;
        nodeAppendKV new dst p k v;;
        nodeAppendRange_loop new old dstNew srcOld n (u16 (i + 1)) todo'
    end
  else ret tt.

Definition nodeAppendRange (new old : BNode) (dstNew srcOld n : Z) : M unit :=
  nodeAppendRange_loop new old dstNew srcOld n 0 (Z.to_nat n).

Definition leafInsert (new old : BNode) (idx : Z) (key val : Slice) : M unit :=
  n ← nkeys old; setHeader new BNODE_LEAF (u16 (n + 1));;
  nodeAppendRange new old 0 0 idx;;
  nodeAppendKV new idx 0 key val;;
  n ← nkeys old;
  nodeAppendRange new old (u16 (idx + 1)) idx (u16 (n - idx)).

Definition leafUpdate (new old : BNode) (idx : Z) (key val : Slice) : M unit :=
  n ← nkeys old; setHeader new BNODE_LEAF n;;
  nodeAppendRange new old 0 0 idx;;
  nodeAppendKV new idx 0 key val;;
  n ← nkeys old;
  nodeAppendRange new old (u16 (idx + 1)) (u16 (idx + 1)) (u16 (n - (idx + 1))).

(** ** The node splitter *)

(** [left_bytes] and [right_bytes], the closures of [nodeSplit2], with the
    captured [nleft] as an argument. *)
Definition left_bytes (old : BNode) (nleft : Z) : M Z :=
  o ← getOffset old nleft;
  ret (u16 (4 + 8 * nleft + 2 * nleft + o)).

Definition right_bytes (old : BNode) (nleft : Z) : M Z :=
  nb ← nbytes old; lb ← left_bytes old nleft;
  ret (u16 (nb - lb + 4)).

(** [for left_bytes() > BTREE_PAGE_SIZE { nleft-- }] *)
Fixpoint fit_left (fuel : nat) (old : BNode) (nleft : Z) : M Z :=
  lb ← left_bytes old nleft;
  if bool_decide (lb > BTREE_PAGE_SIZE) then
    match fuel with
    | O => out_of_fuel
    | S fuel' => fit_left fuel' old (u16 (nleft - 1))
    end
  else ret nleft.

(** [for right_bytes() > BTREE_PAGE_SIZE { nleft++ }] *)
Fixpoint fit_right (fuel : nat) (old : BNode) (nleft : Z) : M Z :=
  rb ← right_bytes old nleft;
  if bool_decide (rb > BTREE_PAGE_SIZE) then
    match fuel with
    | O => out_of_fuel
    | S fuel' => fit_right fuel' old (u16 (nleft + 1))
    end
  else ret nleft.

Definition nodeSplit2 (fuel : nat) (left right old : BNode) : M unit :=
  n ← nkeys old;
  (if bool_decide (n < 2)
   then log_Fatal "Cannot split a node with less than 2 keys" else ret tt);;
  n ← nkeys old;
  let nleft := n `div` 2 in
  nleft ← fit_left fuel old nleft;
  (if bool_decide (nleft < 1)
   then log_Fatal "something went wrong splitting node" else ret tt);;
  nleft ← fit_right fuel old nleft;
  n ← nkeys old;
  (if bool_decide (nleft > n)
   then log_Fatal "something went wrong splitting node" else ret tt);;
  n ← nkeys old;
  let nright := u16 (n - nleft) in
  t ← btype old; setHeader left t nleft;;
  t ← btype old; setHeader right t nright;;
  nodeAppendRange left old 0 0 nleft;;
  nodeAppendRange right old 0 nleft nright;;
  rb ← nbytes right;
  require (bool_decide (rb ≤ BTREE_PAGE_SIZE)) "the left half is too big".

(** The result array [[3]BNode] is a list of three slices, the unused
    places holding the nil slice. *)
Definition nodeSplit3 (fuel : nat) (old : BNode) : M (Z * list BNode) :=
  nb ← nbytes old;
  if bool_decide (nb ≤ BTREE_PAGE_SIZE) then
    old ← sl_to old BTREE_PAGE_SIZE;
    ret (1, [old; nil_slice; nil_slice])
  else
    left ← make (Z.to_nat (2 * BTREE_PAGE_SIZE));
    right ← make (Z.to_nat (2 * BTREE_PAGE_SIZE));
    nodeSplit2 fuel left right old;;
    lb ← nbytes left;
    if bool_decide (lb ≤ BTREE_PAGE_SIZE) then
      left ← sl_to left BTREE_PAGE_SIZE;
      ret (2, [left; right; nil_slice])
    else
      leftleft ← make (Z.to_nat BTREE_PAGE_SIZE);
      middle ← make (Z.to_nat BTREE_PAGE_SIZE);
      nodeSplit2 fuel leftleft middle left;;
      llb ← nbytes leftleft;
      require (bool_decide (llb ≤ BTREE_PAGE_SIZE))
        "something went wrong splitting node";;
      ret (3, [leftleft; middle; right]).

(** ** The tree mutator *)

Record BTree : Type := mkBTree {
  root : Z;                 (* root pointer (a nonzero page number) *)
  get : Z → M Slice;        (* read data from a page number *)
  new : Slice → M Z;        (* allocate a new page number with data *)
  del : Z → M unit          (* deallocate a page number *)
}.

Definition BTree_new (tree : BTree) : Slice → M Z := new tree.

(** [for i, node := range kids] *)
Fixpoint nodeReplaceKidN_kids (tree : BTree) (new : BNode) (idx : Z)
    (i : Z) (kids : list BNode) : M unit :=
  match kids with
  | [] => ret tt
  | node :: kids' =>
      p ← BTree_new tree node; k ← getKey node 0;
      nodeAppendKV new (u16 (idx + u16 i)) p k nil_slice;;
      nodeReplaceKidN_kids tree new idx (i + 1) kids'
  end.

Definition nodeReplaceKidN (tree : BTree) (new old : BNode) (idx : Z)
    (kids : list BNode) : M unit :=
  let inc := u16 (Z.of_nat (length kids)) in
  n ← nkeys old; setHeader new BNODE_NODE (u16 (n + inc - 1));;
  nodeAppendRange new old 0 0 idx;;
  nodeReplaceKidN_kids tree new idx 0 kids;;
  n ← nkeys old;
  nodeAppendRange new old (u16 (idx + inc)) (u16 (idx + 1)) (u16 (n - (idx + 1))).

(** [fuel] bounds the depth of the recursion and the loops of the split. *)
Fixpoint treeInsert (fuel : nat) (tree : BTree) (node : BNode)
    (key val : Slice) : M BNode :=
  match fuel with
  | O => out_of_fuel
  | S fuel' =>
      (* the extra size allows it to exceed 1 page temporarily. *)
      new ← make (Z.to_nat (2 * BTREE_PAGE_SIZE));
      (* where to insert the key? *)
      idx ← nodeLookupLE new key;
      t ← btype node;
      if bool_decide (t = BNODE_LEAF) then
        k ← getKey node idx; same ← bytes_Equal key k;
        (if same : bool then leafUpdate new node idx key val
         else leafInsert node node idx key val);;
        ret new
      else if bool_decide (t = BNODE_NODE) then
        kptr ← getPtr node idx;
        knode ← treeInsert fuel' tree node key val;
        '(nsplit, split) ← nodeSplit3 fuel knode;
        tree.(del) kptr;;
        nodeReplaceKidN tree new node idx (take (Z.to_nat nsplit) split);;
        ret new
      else panic "bad node!"
  end.

(** The [BNODE_LEAF] case of [treeInsert], the two buffers and the index
    as arguments. *)
Definition treeInsert_leaf (new node : BNode) (idx : Z) (key val : Slice)
    : M unit :=
  k ← getKey node idx; same ← bytes_Equal key k;
  if same : bool then leafUpdate new node idx key val
  else leafInsert node node idx key val.

(** * Specification vocabulary *)

Definition is_byte (b : Z) : Prop := 0 ≤ b < 256.

Global Instance is_byte_dec b : Decision (is_byte b).
Proof. unfold is_byte. apply _. Defined.

(** Every cell of every backing array holds a byte. *)
Definition bytes_ok (h : Heap) : Prop := Forall (Forall is_byte) h.

(** The words that two and eight bytes spell, least significant first. *)
Definition le16 (d : list Z) : Z :=
  Z.lor (nth 0 d 0) (Z.shiftl (nth 1 d 0) 8).

Definition le64 (d : list Z) : Z :=
  Z.lor (Z.lor (Z.lor (Z.lor (Z.lor (Z.lor (Z.lor
    (nth 0 d 0)
    (Z.shiftl (nth 1 d 0) 8))
    (Z.shiftl (nth 2 d 0) 16))
    (Z.shiftl (nth 3 d 0) 24))
    (Z.shiftl (nth 4 d 0) 32))
    (Z.shiftl (nth 5 d 0) 40))
    (Z.shiftl (nth 6 d 0) 48))
    (Z.shiftl (nth 7 d 0) 56).

(** ** Sample pages *)

(** A page holding [content] and zeros up to the page size. *)
Definition page_of (content : list Z) : list Z :=
  content ++ replicate (Z.to_nat BTREE_PAGE_SIZE - length content) 0.

(** The leaf with the single entry "a" -> "1". *)
Definition leaf_a_bytes : list Z :=
  [2; 0; 1; 0;  0; 0; 0; 0; 0; 0; 0; 0;  6; 0;  1; 0; 1; 0; 97; 49].

(** The leaf with the entries "a" -> "1" and "c" -> "3". *)
Definition leaf_ac_bytes : list Z :=
  [2; 0; 2; 0;  0; 0; 0; 0; 0; 0; 0; 0;  0; 0; 0; 0; 0; 0; 0; 0;
   6; 0; 12; 0;  1; 0; 1; 0; 97; 49;  1; 0; 1; 0; 99; 51].

(** The internal node with the single entry "" -> page 5. *)
Definition inner_bytes : list Z :=
  [1; 0; 1; 0;  5; 0; 0; 0; 0; 0; 0; 0;  4; 0;  0; 0; 0; 0].

(** The leaf without entries. *)
Definition leaf_empty_bytes : list Z := [2; 0; 0; 0].

(** A heap with these four pages, the key "b", the value "2", the key "a",
    the value "1" and the key "0" in buffers of their own. *)
Definition sample_heap : Heap :=
  [page_of leaf_a_bytes; page_of leaf_ac_bytes; page_of inner_bytes;
   page_of leaf_empty_bytes; [98]; [50]; [97]; [49]; [48]].

Definition page_at (b : nat) : BNode :=
  mkSlice b 0 (Z.to_nat BTREE_PAGE_SIZE) (Z.to_nat BTREE_PAGE_SIZE).

Definition leaf_a : BNode := page_at 0.
Definition leaf_ac : BNode := page_at 1.
Definition inner_node : BNode := page_at 2.
Definition leaf_empty : BNode := page_at 3.
Definition key_b : Slice := mkSlice 4 0 1 1.
Definition val_2 : Slice := mkSlice 5 0 1 1.
Definition key_a : Slice := mkSlice 6 0 1 1.
Definition val_1 : Slice := mkSlice 7 0 1 1.
Definition key_0 : Slice := mkSlice 8 0 1 1.

(** A page store that is never to be called. *)
Definition no_store : BTree :=
  mkBTree 1 (fun _ => panic "get called") (fun _ => panic "new called")
          (fun _ => panic "del called").

(** The bytes a slice shows, read without a change to the heap. *)
Definition bytes_of (s : Slice) : M (list Z) := fun h => (h, Ok (view h s)).

(** The keys of the first [n] entries of a node, as byte strings. *)
Fixpoint keys_from (node : BNode) (i : Z) (n : nat) : M (list (list Z)) :=
  match n with
  | O => mret []
  | S n' =>
      k ← getKey node i; kb ← bytes_of k;
      ks ← keys_from node (i + 1) n';
      mret (kb :: ks)
  end.

Definition keys_of (node : BNode) : M (list (list Z)) :=
  n ← nkeys node; keys_from node 0 (Z.to_nat n).

(** * Pages as lists of entries *)

(** [n] elements of [l] from position [p] on. *)
Definition sub (l : list Z) (p n : nat) : list Z := take n (drop p l).

Record entry : Type := mkEntry {
  e_ptr : Z;
  e_key : list Z;
  e_val : list Z
}.

(** The bytes of one key-value: | klen | vlen | key | val |. *)
Definition kv_size (e : entry) : nat := 4 + length (e_key e) + length (e_val e).

Definition kv_total (es : list entry) : nat := sum_list_with kv_size es.

Definition enc16 (v : Z) : list Z := [byte v; byte (Z.shiftr v 8)].

Definition enc64 (v : Z) : list Z :=
  [byte v; byte (Z.shiftr v 8); byte (Z.shiftr v 16); byte (Z.shiftr v 24);
   byte (Z.shiftr v 32); byte (Z.shiftr v 40); byte (Z.shiftr v 48);
   byte (Z.shiftr v 56)].

Definition kv_bytes (e : entry) : list Z :=
  enc16 (Z.of_nat (length (e_key e))) ++ enc16 (Z.of_nat (length (e_val e)))
  ++ e_key e ++ e_val e.

(** The encoded size of a node with [n] slots holding the entries [es]. *)
Definition node_size (n : nat) (es : list entry) : nat :=
  4 + 10 * n + kv_total es.

(** The bytes [v] hold a node of type [t] with [n] slots of which the first
    [length es] are filled with [es]; the other slots and the bytes behind
    the last key-value are free. *)
Definition node_img (v : list Z) (t : Z) (n : nat) (es : list entry) : Prop :=
  sub v 0 2 = enc16 t
  ∧ sub v 2 2 = enc16 (Z.of_nat n)
  ∧ (length es ≤ n)%nat
  ∧ (∀ i e, es !! i = Some e → sub v (4 + 8 * i) 8 = enc64 (e_ptr e))
  ∧ (∀ i, (i < length es)%nat →
       sub v (4 + 8 * n + 2 * i) 2 = enc16 (Z.of_nat (kv_total (take (S i) es))))
  ∧ (∀ i e, es !! i = Some e →
       sub v (4 + 10 * n + kv_total (take i es)) (kv_size e) = kv_bytes e)
  ∧ (node_size n es ≤ length v)%nat.

(** A slice lies within an allocated backing array. *)
Definition valid (h : Heap) (s : Slice) : Prop :=
  ∃ arr, h !! base s = Some arr
         ∧ (off s + cap s ≤ length arr)%nat ∧ (len s ≤ cap s)%nat.

(** Two heaps differ at most in the contents of the backing array [b]. *)
Definition same_but (b : nat) (h h' : Heap) : Prop :=
  length h' = length h
  ∧ (∀ b', b' ≠ b → h' !! b' = h !! b')
  ∧ (∀ arr, h !! b = Some arr →
       ∃ arr', h' !! b = Some arr' ∧ length arr' = length arr).

(** The fields within their Go types and the size limits of the tree. *)
Definition entry_ok (e : entry) : Prop :=
  0 ≤ e_ptr e < 18446744073709551616
  ∧ Z.of_nat (length (e_key e)) ≤ BTREE_MAX_KEY_SIZE
  ∧ Z.of_nat (length (e_val e)) ≤ BTREE_MAX_VAL_SIZE.

(** The heap after storing [xs] at index [p] of the slice [s]. *)
Definition poke (h : Heap) (s : Slice) (p : nat) (xs : list Z) : Heap :=
  wr h (mkSlice (base s) (off s + p) (len s - p) (cap s - p)) 0 xs.

(** The slice [nd] of the heap [h] holds a node of type [t] with [n] slots
    and the entries [es], within the reach of 16-bit positions. *)
Definition holds (h : Heap) (nd : BNode) (t : Z) (n : nat) (es : list entry)
    : Prop :=
  valid h nd ∧ Z.of_nat (len nd) < 65536 ∧ 0 ≤ t < 65536
  ∧ node_img (view h nd) t n es ∧ Forall entry_ok es.

(** The [l] bytes from position [p] on lie in the free part of a node with
    [n] slots, [k] of them filled with key-values of [total] bytes. *)
Definition free_at (n k total p l : nat) : Prop :=
  (4 + 8 * k ≤ p ∧ p + l ≤ 4 + 8 * n)%nat
  ∨ (4 + 8 * n + 2 * k ≤ p ∧ p + l ≤ 4 + 10 * n)%nat
  ∨ (4 + 10 * n + total ≤ p)%nat.

(** ** Building a node from entries *)

(** An entry to store: the child pointer and the slices of key and value. *)
Abbreviation item := (Z * Slice * Slice)%type.

(** [nodeAppendKV] for each entry in order, from index [idx] on. *)
Fixpoint append_entries (node : BNode) (idx : Z) (es : list item) : M unit :=
  match es with
  | [] => mret tt
  | (p, k, v) :: es' =>
      nodeAppendKV node (u16 idx) p k v;;
      append_entries node (idx + 1) es'
  end.

(** [setHeader] and the appends on a new buffer of twice the page size. *)
Definition build_node (t : Z) (es : list item) : M BNode :=
  node ← make (Z.to_nat (2 * BTREE_PAGE_SIZE));
  setHeader node t (Z.of_nat (length es));;
  append_entries node 0 es;;
  mret node.

(** The entry an item stands for in the heap [h]. *)
Definition entry_of (h : Heap) (x : item) : entry :=
  mkEntry x.1.1 (view h x.1.2) (view h x.2).

(** The slices of an item lie in the heap and its fields are in range. *)
Definition item_ok (h : Heap) (x : item) : Prop :=
  valid h x.1.2 ∧ valid h x.2 ∧ entry_ok (entry_of h x).

(** Two sample items on the sample heap: "a" -> "1" with pointer 5 and
    "b" -> "2" with pointer 7. *)
Definition sample_items : list item := [(5, key_a, val_1); (7, key_b, val_2)].

(** ** The split point *)

(** What [left_bytes] and [right_bytes] give for [nleft = k] on a node
    with the entries [es]. *)
Definition lbytes (es : list entry) (k : nat) : nat :=
  node_size k (take k es).

Definition rbytes (es : list entry) (k : nat) : nat :=
  node_size (length es - k) (drop k es).

(** The two loops of [nodeSplit2] on these sizes. *)
Fixpoint fit_left_n (es : list entry) (k : nat) : nat :=
  if bool_decide (Z.of_nat (lbytes es k) > BTREE_PAGE_SIZE) then
    match k with
    | O => O
    | S k' => fit_left_n es k'
    end
  else k.

Fixpoint fit_right_n (todo : nat) (es : list entry) (k : nat) : nat :=
  if bool_decide (Z.of_nat (rbytes es k) > BTREE_PAGE_SIZE) then
    match todo with
    | O => k
    | S todo' => fit_right_n todo' es (S k)
    end
  else k.

Definition split_point (es : list entry) : nat :=
  let k := fit_left_n es (length es / 2) in
  fit_right_n (length es - k) es k.

(** [nodeSplit2] on a node built from [es], the two result buffers made
    as [nodeSplit3] makes them; the key counts of the halves and their
    sizes are returned for inspection. *)
Definition split2_built (fuel : nat) (t : Z) (es : list item)
    : M (Z * Z * Z * Z) :=
  old ← build_node t es;
  left ← make (Z.to_nat (2 * BTREE_PAGE_SIZE));
  right ← make (Z.to_nat (2 * BTREE_PAGE_SIZE));
  nodeSplit2 fuel left right old;;
  nl ← nkeys left; nr ← nkeys right;
  lb ← nbytes left; rb ← nbytes right;
  mret (nl, nr, lb, rb).

(** ** Splitting a built node in up to three *)

(** The sizes and key sequences of the nodes a split returned. *)
Fixpoint describe (nodes : list BNode) : M (list (Z * list (list Z))) :=
  match nodes with
  | [] => mret []
  | nd :: rest =>
      b ← nbytes nd; ks ← keys_of nd; r ← describe rest;
      mret ((b, ks) :: r)
  end.

(** [nodeSplit3] on a node built from [es]; the count, the three places
    of the result and the description of the nodes in use are returned. *)
Definition split3_built (fuel : nat) (t : Z) (es : list item)
    : M (Z * list BNode * list (Z * list (list Z))) :=
  old ← build_node t es;
  '(nsplit, split) ← nodeSplit3 fuel old;
  d ← describe (take (Z.to_nat nsplit) split);
  mret (nsplit, split, d).

(** The keys "a", "b", "c", "d" and two values of 1078 and 2985 zero
    bytes, and the four entries a, b, c, d with these values in turn: an
    encoded size of 8190 bytes. *)
Definition wide_heap : Heap :=
  [[97]; [98]; [99]; [100]; replicate 1078 0; replicate 2985 0].

Definition wide_items : list item :=
  [(0, mkSlice 0 0 1 1, mkSlice 4 0 1078 1078);
   (0, mkSlice 1 0 1 1, mkSlice 5 0 2985 2985);
   (0, mkSlice 2 0 1 1, mkSlice 4 0 1078 1078);
   (0, mkSlice 3 0 1 1, mkSlice 5 0 2985 2985)].

(** The node [nd] holds exactly the entries [p], and these fit a page. *)
Definition page_holds (h : Heap) (t : Z) (nd : BNode) (p : list entry)
    : Prop :=
  holds h nd t (length p) p
  ∧ Z.of_nat (node_size (length p) p) ≤ BTREE_PAGE_SIZE.

(** What the design document says of [split3] on a node built from [es],
    for nodes of an encoded size of at most [bound]: up to the page size
    the node comes back alone and unchanged, above it two or three nodes
    come back; each node returned fits a page, and the keys of the nodes
    returned, in order, are the keys of [es]. *)
Definition split3_result (bound : Z) (fuel : nat) (h : Heap) (t : Z)
    (es : list item) : Prop :=
  let size := Z.of_nat (node_size (length es) (entry_of h <$> es)) in
  size ≤ bound →
  ∃ h' nsplit split d,
    split3_built fuel t es h = (h', Ok (nsplit, split, d))
    ∧ Forall (λ x, x.1 ≤ BTREE_PAGE_SIZE) d
    ∧ concat (snd <$> d) = (λ x : item, view h x.1.2) <$> es
    ∧ (BTREE_PAGE_SIZE < size → nsplit = 2 ∨ nsplit = 3)
    ∧ (size ≤ BTREE_PAGE_SIZE →
       nsplit = 1
       ∧ ∃ old, build_node t es h = (h', Ok old)
                ∧ split = [mkSlice (base old) (off old)
                             (Z.to_nat BTREE_PAGE_SIZE) (cap old);
                           nil_slice; nil_slice]).

(** ** The floor index on key sequences *)

(** The scan of [nodeLookupLE] over the keys from index [i] on. *)
Fixpoint floor_scan (keys : list (list Z)) (kb : list Z) (i : nat) : Z :=
  match keys with
  | [] => u16 (Z.of_nat i - 1)
  | k :: rest =>
      if bool_decide (compare_bytes k kb = 0) then Z.of_nat i
      else if bool_decide (compare_bytes k kb > 0) then u16 (Z.of_nat i - 1)
      else floor_scan rest kb (S i)
  end.

(** Keys in strictly ascending order. *)
Definition ascending (keys : list (list Z)) : Prop :=
  ∀ i j a b, (i < j)%nat → keys !! i = Some a → keys !! j = Some b →
             compare_bytes a b < 0.

(** * The durable writer *)

(** The file system is the map from paths to file contents, with the list
    of the calls made to it, latest first. *)
Inductive syscall : Type :=
  | SysOpen (p : string)
  | SysWrite (p : string)
  | SysSync (p : string)
  | SysClose (p : string)
  | SysRemove (p : string)
  | SysRename (src dst : string).

Record Disk : Type := mkDisk {
  files : gmap string (list Z);
  calls : list syscall
}.

(** The errors of the four calls whose result [SaveData2] looks at. *)
Inductive error : Type :=
  | ErrExist      (* O_EXCL: the file is there already *)
  | ErrOpen
  | ErrWrite
  | ErrSync
  | ErrRename.

(** What the environment does during one call: the number [rand.Int()]
    returns and which of the calls fail; a failing write may leave the
    first [n] bytes in the file, a failing removal leaves the file. *)
Record Env : Type := mkEnv {
  rand_Int : Z;
  open_fails : bool;
  write_fails : option nat;
  sync_fails : bool;
  rename_fails : bool;
  remove_fails : bool
}.

(** [os.OpenFile(name, os.O_WRONLY|os.O_CREATE|os.O_EXCL, perm)]: the file
    handle is the name of the new, empty file. *)
Definition os_OpenFile_excl (env : Env) (name : string) (d : Disk)
    : Disk * (string + error) :=
  let d := mkDisk (files d) (SysOpen name :: calls d) in
  match files d !! name with
  | Some _ => (d, inr ErrExist)
  | None =>
      if open_fails env then (d, inr ErrOpen)
      else (mkDisk (<[name := []]> (files d)) (calls d), inl name)
  end.

(** [fp.Write(data)] on a file opened for writing at offset 0. *)
Definition File_Write (env : Env) (fp : string) (data : list Z) (d : Disk)
    : Disk * option error :=
  let d := mkDisk (files d) (SysWrite fp :: calls d) in
  match write_fails env with
  | Some n => (mkDisk (<[fp := take n data]> (files d)) (calls d), Some ErrWrite)
  | None => (mkDisk (<[fp := data]> (files d)) (calls d), None)
  end.

(** [fp.Sync()] *)
Definition File_Sync (env : Env) (fp : string) (d : Disk)
    : Disk * option error :=
  let d := mkDisk (files d) (SysSync fp :: calls d) in
  if sync_fails env then (d, Some ErrSync) else (d, None).

(** [fp.Close()]; its result is dropped by the caller. *)
Definition File_Close (fp : string) (d : Disk) : Disk :=
  mkDisk (files d) (SysClose fp :: calls d).

(** [os.Remove(name)]; it may fail, and its result is dropped by the
    caller. *)
Definition os_Remove (env : Env) (name : string) (d : Disk) : Disk :=
  let d := mkDisk (files d) (SysRemove name :: calls d) in
  if remove_fails env then d
  else mkDisk (delete name (files d)) (calls d).

(** [os.Rename(src, dst)]: all or nothing. *)
Definition os_Rename (env : Env) (src dst : string) (d : Disk)
    : Disk * option error :=
  let d := mkDisk (files d) (SysRename src dst :: calls d) in
  if rename_fails env then (d, Some ErrRename)
  else
    match files d !! src with
    | Some c => (mkDisk (<[dst := c]> (delete src (files d))) (calls d), None)
    | None => (d, Some ErrRename)
    end.

(** [fmt.Sprintf("%s.tmp.%d", path, rand.Int())] *)
Definition tmp_name (env : Env) (path : string) : string :=
  path +:+ ".tmp." +:+ pretty (rand_Int env).

(** The deferred function of [SaveData2]; [err] is the captured variable
    as it stands when the function returns. *)
Definition SaveData2_deferred (env : Env) (fp tmp : string)
    (err : option error) (d : Disk) : Disk :=
  let d := File_Close fp d in
  match err with
  | Some _ => os_Remove env tmp d
  | None => d
  end.

Definition SaveData2 (env : Env) (path : string) (data : list Z) (d : Disk)
    : Disk * option error :=
  let tmp := tmp_name env path in
  match os_OpenFile_excl env tmp d with
  | (d, inr err) => (d, Some err)
  | (d, inl fp) =>
      (* from here on the deferred function runs at every return *)
      match File_Write env fp data d with
      | (d, Some err) => (SaveData2_deferred env fp tmp (Some err) d, Some err)
      | (d, None) =>
          match File_Sync env fp d with
          | (d, Some err) => (SaveData2_deferred env fp tmp (Some err) d, Some err)
          | (d, None) =>
              (* [return os.Rename(tmp, path)] sets the result, not [err] *)
              let '(d, res) := os_Rename env tmp path d in
              (SaveData2_deferred env fp tmp None d, res)
          end
      end
  end.

(** The calls a run of [SaveData2] adds to the list. *)
Definition new_calls (d d' : Disk) : list syscall :=
  take (length (calls d') - length (calls d)) (calls d').

(** The claim on failures before the rename, as the design document words
    it: the call succeeds and the target holds the new data, or it reports
    an error, and if the error is not that of the rename the target is as
    before and no file of the call is left at the temporary path, which
    holds what it held before the call. *)
Definition atomic_write_claim (env : Env) (path : string) (data : list Z)
    (d : Disk) : Prop :=
  match SaveData2 env path data d with
  | (d', None) => files d' !! path = Some data
  | (d', Some e) =>
      e ≠ ErrRename →
      files d' !! path = files d !! path
      ∧ files d' !! tmp_name env path = files d !! tmp_name env path
  end.

(** A disk with the target "db" only, and environments in which
    [rand.Int()] returns 7 and no call fails, the sync fails, the rename
    fails, the write fails after one byte, and the write fails after one
    byte and the removal fails too. *)
Definition plain_disk : Disk := mkDisk (<["db" := [1; 2; 3]]> ∅) [].
Definition calm_env : Env := mkEnv 7 false None false false false.
Definition sync_fail_env : Env := mkEnv 7 false None true false false.
Definition rename_fail_env : Env := mkEnv 7 false None false true false.
Definition write_fail_env : Env := mkEnv 7 false (Some 1%nat) false false false.
Definition stuck_env : Env := mkEnv 7 false (Some 1%nat) false false true.

(** The claim as the code has it.  The target is as before after every
    error.  After a failing write or sync the temporary file is closed
    and its removal is tried: if the removal succeeds the files are as
    before the call, if it fails, which the code does not look at, the
    temporary file stays with what was written.  After a failing open
    no file is created and none is removed. *)
Definition atomic_write_amended (env : Env) (path : string) (data : list Z)
    (d : Disk) : Prop :=
  let tmp := tmp_name env path in
  match SaveData2 env path data d with
  | (d', None) => files d' !! path = Some data
  | (d', Some e) =>
      (files d' !! path = files d !! path) ∧
      ((e = ErrWrite ∨ e = ErrSync) →
         SysRemove tmp ∈ new_calls d d'
         ∧ (remove_fails env = false → files d' = files d)
         ∧ (remove_fails env = true →
            ∃ n, files d' = <[tmp := take n data]> (files d))) ∧
      ((e = ErrExist ∨ e = ErrOpen) →
         files d' = files d ∧ new_calls d d' = [SysOpen tmp])
  end.

(** * Decoding a whole node *)

(** The entries of a node as its accessors show them, from index [i] on:
    the pointer, the bytes of the key and the bytes of the value. *)
Fixpoint entries_from (node : BNode) (i : Z) (n : nat) : M (list entry) :=
  match n with
  | O => mret []
  | S n' =>
      p ← getPtr node i;
      k ← getKey node i; kb ← bytes_of k;
      v ← getVal node i; vb ← bytes_of v;
      r ← entries_from node (i + 1) n';
      mret (mkEntry p kb vb :: r)
  end.

Definition entries_of (node : BNode) : M (list entry) :=
  n ← nkeys node; entries_from node 0 (Z.to_nat n).

(** ** The start-up check *)

(** [func init()] of the main file. *)
Definition init : M unit :=
  let node1max := HEADER + 8 + 2 + 4 + BTREE_MAX_KEY_SIZE in
  require (bool_decide (node1max ≤ BTREE_PAGE_SIZE)) "fatal error".

(** ** The writer in place *)

(** [os.OpenFile(name, os.O_WRONLY|os.O_CREATE|os.O_TRUNC, perm)]: the file
    is created if it is not there and emptied if it is. *)
Definition os_OpenFile_trunc (env : Env) (name : string) (d : Disk)
    : Disk * (string + error) :=
  let d := mkDisk (files d) (SysOpen name :: calls d) in
  if open_fails env then (d, inr ErrOpen)
  else (mkDisk (<[name := []]> (files d)) (calls d), inl name).

Definition SaveData1 (env : Env) (path : string) (data : list Z) (d : Disk)
    : Disk * option error :=
  match os_OpenFile_trunc env path d with
  | (d, inr err) => (d, Some err)
  | (d, inl fp) =>
      (* [defer fp.Close()] *)
      match File_Write env fp data d with
      | (d, Some err) => (File_Close fp d, Some err)
      | (d, None) =>
          let '(d, res) := File_Sync env fp d in
          (File_Close fp d, res)
      end
  end.

(** A page store whose allocator hands out the page number 9 and touches
    no buffer. *)
Definition const_store : BTree :=
  mkBTree 1 (fun _ => panic "get called") (fun _ => mret 9)
          (fun _ => mret tt).

(** ** Building several nodes *)

(** [build_node] for each list of items in turn. *)
Fixpoint build_nodes (t : Z) (ess : list (list item)) : M (list BNode) :=
  match ess with
  | [] => mret []
  | es :: rest =>
      nd ← build_node t es; nds ← build_nodes t rest; mret (nd :: nds)
  end.

(** The first key of a list of entries; empty if there is none. *)
Definition first_key (es : list entry) : list Z :=
  match es with
  | e :: _ => e_key e
  | [] => []
  end.
(** * Properties *)

(** ** The monad *)

Lemma bind_unfold {A B} (m : M A) (f : A → M B) h :
  (m ≫= f) h = match m h with
               | (h', Ok a) => f a h'
               | (h', Fatal s) => (h', Fatal s)
               | (h', Panic s) => (h', Panic s)
               | (h', OutOfFuel) => (h', OutOfFuel)
               end.
Proof. reflexivity. Qed.

Lemma bind_ok {A B} (m : M A) (f : A → M B) h h' a :
  m h = (h', Ok a) → (m ≫= f) h = f a h'.
Proof. intros E. rewrite bind_unfold, E. reflexivity. Qed.

Lemma bind_fatal {A B} (m : M A) (f : A → M B) h h' s :
  m h = (h', Fatal s) → (m ≫= f) h = (h', Fatal s).
Proof. intros E. rewrite bind_unfold, E. reflexivity. Qed.

Lemma bind_panic {A B} (m : M A) (f : A → M B) h h' s :
  m h = (h', Panic s) → (m ≫= f) h = (h', Panic s).
Proof. intros E. rewrite bind_unfold, E. reflexivity. Qed.

Lemma ret_unfold {A} (a : A) h : (mret a : M A) h = (h, Ok a).
Proof. reflexivity. Qed.

(** ** Bytes and little-endian words *)

Lemma lor_shiftl_add a b k :
  0 ≤ k → 0 ≤ a < 2 ^ k → 0 ≤ b → Z.lor a (Z.shiftl b k) = a + b * 2 ^ k.
Proof.
  intros Hk Ha Hb.
  rewrite <- Z.add_lor_land, Z.shiftl_mul_pow2 by lia.
  assert (Z.land a (b * 2 ^ k) = 0) as ->; [|lia].
  apply Z.bits_inj'. intros n Hn.
  rewrite Z.land_spec, Z.bits_0.
  destruct (decide (n < k)).
  - rewrite Z.mul_pow2_bits_low by lia. apply andb_false_r.
  - destruct (decide (a = 0)) as [->|].
    + rewrite Z.bits_0. reflexivity.
    + rewrite (Z.bits_above_log2 a n); [reflexivity|lia|].
      apply Z.lt_le_trans with k; [|lia].
      apply Z.log2_lt_pow2; lia.
Qed.

Lemma le16_bytes a b :
  is_byte a → is_byte b → Z.lor a (Z.shiftl b 8) = a + 256 * b.
Proof.
  unfold is_byte. intros. rewrite lor_shiftl_add; lia.
Qed.

Lemma rd_bytes h s i n : bytes_ok h → Forall is_byte (rd h s i n).
Proof.
  intros Hh. unfold rd. destruct (h !! base s) as [arr|] eqn:E; [|constructor].
  apply Forall_take, Forall_drop.
  eapply (proj1 (Forall_lookup _ _)) in Hh; eauto.
Qed.

Lemma nth_byte (d : list Z) i : Forall is_byte d → is_byte (nth i d 0).
Proof.
  intros Hd. destruct (decide (i < length d)%nat) as [Hi|Hi].
  - rewrite Forall_forall in Hd. apply Hd, list_elem_of_In, nth_In, Hi.
  - rewrite nth_overflow by lia. unfold is_byte; lia.
Qed.

Lemma Uint16_ok h b :
  (2 ≤ len b)%nat → LittleEndian_Uint16 b h = (h, Ok (le16 (rd h b 0 2))).
Proof.
  intros. unfold LittleEndian_Uint16. rewrite bool_decide_eq_false_2 by lia.
  reflexivity.
Qed.

Lemma Uint64_ok h b :
  (8 ≤ len b)%nat → LittleEndian_Uint64 b h = (h, Ok (le64 (rd h b 0 8))).
Proof.
  intros. unfold LittleEndian_Uint64. rewrite bool_decide_eq_false_2 by lia.
  reflexivity.
Qed.

Lemma le16_range d : Forall is_byte d → 0 ≤ le16 d < 65536.
Proof.
  intros Hd. unfold le16.
  pose proof (nth_byte _ 0 Hd) as H0. pose proof (nth_byte _ 1 Hd) as H1.
  rewrite le16_bytes by done. unfold is_byte in *. lia.
Qed.

(** ** Headers read from arbitrary pages *)

Lemma nkeys_unfold h node :
  nkeys node h =
  if bool_decide (4 ≤ cap node)%nat
  then (h, Ok (le16 (rd h (mkSlice (base node) (off node + 2) 2 (cap node - 2)) 0 2)))
  else (h, Panic "slice bounds out of range").
Proof.
  unfold nkeys, sl_range. rewrite bind_unfold.
  repeat case_bool_decide; try lia; cbn; [|done].
  rewrite Uint16_ok by (cbn; lia). reflexivity.
Qed.

Lemma btype_unfold h node :
  btype node h =
  if bool_decide (2 ≤ cap node)%nat
  then (h, Ok (le16 (rd h (mkSlice (base node) (off node + 0) 2 (cap node - 0)) 0 2)))
  else (h, Panic "slice bounds out of range").
Proof.
  unfold btype, sl_range. rewrite bind_unfold.
  repeat case_bool_decide; try lia; cbn; [|done].
  rewrite Uint16_ok by (cbn; lia). reflexivity.
Qed.

Lemma nkeys_range h node h' r :
  bytes_ok h → nkeys node h = (h', r) →
  h' = h ∧ ((r = Panic "slice bounds out of range" ∧ (cap node < 4)%nat)
            ∨ ∃ n, r = Ok n ∧ 0 ≤ n < 65536).
Proof.
  intros Hh. rewrite nkeys_unfold. case_bool_decide; intros [= <- <-].
  - split; [done|]. right. eexists; split; [done|].
    apply le16_range, rd_bytes, Hh.
  - split; [done|]. left. split; [done|lia].
Qed.

(** ** A freshly made buffer *)

Lemma rd_fresh h n s i k :
  base s = length h →
  rd (h ++ [replicate n 0]) s i k = replicate (k `min` (n - (off s + i))) 0.
Proof.
  intros Hb. unfold rd. rewrite Hb, list_lookup_middle by done.
  rewrite drop_replicate, take_replicate. reflexivity.
Qed.

Lemma nth_zeros m i : nth i (replicate m 0) 0 = 0.
Proof.
  revert i. induction m as [|m IH]; intros [|i]; cbn; auto.
Qed.

Lemma le16_zeros m : le16 (replicate m 0) = 0.
Proof. unfold le16. rewrite !nth_zeros. reflexivity. Qed.

Lemma nkeys_fresh h n s :
  base s = length h → (4 ≤ cap s)%nat →
  nkeys s (h ++ [replicate n 0]) = (h ++ [replicate n 0], Ok 0).
Proof.
  intros Hb Hc. rewrite nkeys_unfold, bool_decide_eq_true_2 by done.
  rewrite rd_fresh by done. rewrite le16_zeros. reflexivity.
Qed.

(** On a buffer full of zeros the scan finds no key and its index wraps
    around. *)
Lemma nodeLookupLE_fresh h n s key :
  base s = length h → (4 ≤ cap s)%nat →
  nodeLookupLE s key (h ++ [replicate n 0]) = (h ++ [replicate n 0], Ok 65535).
Proof.
  intros Hb Hc. unfold nodeLookupLE.
  erewrite bind_ok by (apply nkeys_fresh; done).
  reflexivity.
Qed.

Lemma make_unfold n h :
  make n h = (h ++ [replicate n 0], Ok (mkSlice (length h) 0 n n)).
Proof. reflexivity. Qed.

Lemma rd_app_l h e s i n :
  (base s < length h)%nat → rd (h ++ e) s i n = rd h s i n.
Proof. intros. unfold rd. rewrite lookup_app_l by done. reflexivity. Qed.

Lemma view_app_l h e s :
  (base s < length h)%nat → view (h ++ e) s = view h s.
Proof. apply rd_app_l. Qed.

Lemma btype_app_l h e node :
  (base node < length h)%nat →
  snd (btype node (h ++ e)) = snd (btype node h).
Proof.
  intros. rewrite !btype_unfold. case_bool_decide; [|done].
  cbn. rewrite rd_app_l by done. reflexivity.
Qed.

(** How [treeInsert] ends: the working buffer is the only change to the
    heap, and the call stops at the first access with the index found on
    that empty buffer. *)
Lemma treeInsert_stops fuel tree node key val h :
  bytes_ok h →
  let h1 := h ++ [replicate (Z.to_nat (2 * BTREE_PAGE_SIZE)) 0] in
  ∃ r, treeInsert (S fuel) tree node key val h = (h1, r)
     ∧ ((r = Panic "slice bounds out of range" ∧ (cap node < 4)%nat)
        ∨ (r = Fatal "invalid node index"
           ∧ snd (btype node h1) = Ok BNODE_LEAF)
        ∨ (r = Fatal "fatal error"
           ∧ snd (btype node h1) = Ok BNODE_NODE)
        ∨ (r = Panic "bad node!"
           ∧ ∃ t, snd (btype node h1) = Ok t ∧ t ≠ BNODE_LEAF ∧ t ≠ BNODE_NODE)).
Proof.
  intros Hh. cbn [treeInsert].
  assert (4 ≤ Z.to_nat (2 * BTREE_PAGE_SIZE))%nat as HN
    by (unfold BTREE_PAGE_SIZE; lia).
  revert HN. generalize (Z.to_nat (2 * BTREE_PAGE_SIZE)) as N. intros N HN.
  rewrite (bind_ok _ _ _ _ _ (make_unfold _ _)).
  set (h1 := h ++ [replicate N 0]).
  assert (bytes_ok h1) as Hh1.
  { apply Forall_app; split; [done|]. repeat constructor.
    apply Forall_replicate. unfold is_byte; lia. }
  erewrite bind_ok by (apply nodeLookupLE_fresh; [done|exact HN]).
  change (h ++ [replicate N 0]) with h1.
  rewrite bind_unfold.
  destruct (btype node h1) as [h2 rt] eqn:Et.
  rewrite btype_unfold in Et.
  destruct (decide (2 ≤ cap node)%nat) as [Hc2|Hc2];
    [rewrite bool_decide_eq_true_2 in Et by done
    |rewrite bool_decide_eq_false_2 in Et by done];
    injection Et as <- <-; [|eexists; split; [done|left; split; [done|lia]]].
  cbn [snd]. set (t := le16 _).
  destruct (decide (t = BNODE_LEAF)) as [Hleaf|Hleaf].
  - (* leaf: [node.getKey(idx)] *)
    rewrite bool_decide_eq_true_2 by done.
    unfold getKey. rewrite 2!bind_unfold.
    destruct (nkeys node h1) as [h2 r] eqn:En.
    apply nkeys_range in En as [-> [[-> ?]|(n & -> & Hn)]]; [eauto 12| |done].
    unfold require. rewrite bool_decide_eq_false_2 by lia.
    rewrite bind_unfold. cbn. rewrite Hleaf. eauto 12.
  - rewrite bool_decide_eq_false_2 by done.
    destruct (decide (t = BNODE_NODE)) as [Hnode|Hnode].
    + (* internal: [node.getPtr(idx)] *)
      rewrite bool_decide_eq_true_2 by done.
      unfold getPtr. rewrite 2!bind_unfold.
      destruct (nkeys node h1) as [h2 r] eqn:En.
      apply nkeys_range in En as [-> [[-> ?]|(n & -> & Hn)]]; [eauto 12| |done].
      unfold require. rewrite bool_decide_eq_false_2 by lia.
      rewrite bind_unfold. cbn. rewrite Hnode. eauto 12.
    + rewrite bool_decide_eq_false_2 by done. eauto 12.
Qed.

Lemma treeInsert_heap fuel tree node key val h :
  bytes_ok h → ∃ extra, fst (treeInsert fuel tree node key val h) = h ++ extra.
Proof.
  intros Hh. destruct fuel as [|fuel].
  - exists []. cbn. by rewrite app_nil_r.
  - destruct (treeInsert_stops fuel tree node key val h Hh) as (r & -> & _).
    eauto.
Qed.

(** ** The sample heap *)

Lemma page_of_bytes content :
  Forall is_byte content → Forall is_byte (page_of content).
Proof.
  intros H. apply Forall_app; split; [done|].
  apply Forall_replicate. unfold is_byte; lia.
Qed.

Lemma small_bytes (l : list Z) :
  forallb (λ b, bool_decide (is_byte b)) l = true → Forall is_byte l.
Proof.
  rewrite forallb_forall, Forall_forall. intros H x Hx.
  apply list_elem_of_In, H in Hx. by apply bool_decide_eq_true_1 in Hx.
Qed.

Lemma sample_heap_bytes : bytes_ok sample_heap.
Proof.
  unfold bytes_ok, sample_heap.
  do 4 (apply Forall_cons; split;
        [apply page_of_bytes, small_bytes; reflexivity|]).
  do 5 (apply Forall_cons; split; [apply small_bytes; reflexivity|]).
  by apply Forall_nil.
Qed.

(** ** The tree mutator *)

(** C1 (the code departs from the claim): on every leaf page [treeInsert]
    takes the insertion index from the empty working buffer instead of the
    input node, so the index is 65535 and the key access stops the process
    with [log.Fatal]; no leaf with the new entry is returned. *)
Theorem treeInsert_leaf_fatal fuel tree node key val h :
  bytes_ok h → (base node < length h)%nat → (4 ≤ cap node)%nat →
  snd (btype node h) = Ok BNODE_LEAF →
  treeInsert (S fuel) tree node key val h
  = (h ++ [replicate (Z.to_nat (2 * BTREE_PAGE_SIZE)) 0],
     Fatal "invalid node index").
Proof.
  intros Hh Hb Hc Ht.
  destruct (treeInsert_stops fuel tree node key val h Hh) as (r & -> & Hr).
  rewrite btype_app_l, Ht in Hr by done. f_equal.
  destruct Hr as [[_ ?]|[[-> _]|[[_ [=]]|[_ (t & [= <-] & ? & _)]]]];
    [lia|done|done].
Qed.

Lemma treeInsert_leaf_fatal_witness :
  bytes_ok sample_heap ∧ (base leaf_a < length sample_heap)%nat ∧
  (4 ≤ cap leaf_a)%nat ∧ snd (btype leaf_a sample_heap) = Ok BNODE_LEAF ∧
  treeInsert 1 no_store leaf_a key_b val_2 sample_heap
  = (sample_heap ++ [replicate (Z.to_nat (2 * BTREE_PAGE_SIZE)) 0],
     Fatal "invalid node index").
Proof.
  assert (bytes_ok sample_heap) as H1 by exact sample_heap_bytes.
  assert (base leaf_a < length sample_heap)%nat as H2 by (cbn; lia).
  assert (4 ≤ cap leaf_a)%nat as H3 by (unfold leaf_a, page_at, cap, BTREE_PAGE_SIZE; lia).
  assert (snd (btype leaf_a sample_heap) = Ok BNODE_LEAF) as H4
    by (vm_compute; reflexivity).
  exact (conj H1 (conj H2 (conj H3 (conj H4
    (treeInsert_leaf_fatal 0 no_store leaf_a key_b val_2 sample_heap
       H1 H2 H3 H4))))).
Defined.

(** C2 (the code departs from the claim): on every internal page
    [treeInsert] looks up the child with the index found on the empty
    working buffer, 65535, so [getPtr] stops the process with [log.Fatal]
    before any page is read, split, freed or allocated, whatever the page
    store does; written after that point, the recursion is on the current
    node and [tree.get] is not called at all. *)
Theorem treeInsert_internal_fatal fuel tree node key val h :
  bytes_ok h → (base node < length h)%nat → (4 ≤ cap node)%nat →
  snd (btype node h) = Ok BNODE_NODE →
  treeInsert (S fuel) tree node key val h
  = (h ++ [replicate (Z.to_nat (2 * BTREE_PAGE_SIZE)) 0],
     Fatal "fatal error").
Proof.
  intros Hh Hb Hc Ht.
  destruct (treeInsert_stops fuel tree node key val h Hh) as (r & -> & Hr).
  rewrite btype_app_l, Ht in Hr by done. f_equal.
  destruct Hr as [[_ ?]|[[_ [=]]|[[-> _]|[_ (t & [= <-] & _ & ?)]]]];
    [lia|done|done].
Qed.

Lemma treeInsert_internal_fatal_witness :
  bytes_ok sample_heap ∧ (base inner_node < length sample_heap)%nat ∧
  (4 ≤ cap inner_node)%nat ∧
  snd (btype inner_node sample_heap) = Ok BNODE_NODE ∧
  treeInsert 1 no_store inner_node key_b val_2 sample_heap
  = (sample_heap ++ [replicate (Z.to_nat (2 * BTREE_PAGE_SIZE)) 0],
     Fatal "fatal error").
Proof.
  assert (bytes_ok sample_heap) as H1 by exact sample_heap_bytes.
  assert (base inner_node < length sample_heap)%nat as H2 by (cbn; lia).
  assert (4 ≤ cap inner_node)%nat as H3
    by (unfold inner_node, page_at, cap, BTREE_PAGE_SIZE; lia).
  assert (snd (btype inner_node sample_heap) = Ok BNODE_NODE) as H4
    by (vm_compute; reflexivity).
  exact (conj H1 (conj H2 (conj H3 (conj H4
    (treeInsert_internal_fatal 0 no_store inner_node key_b val_2 sample_heap
       H1 H2 H3 H4))))).
Defined.

(** A call of [treeInsert] ends before its first write into a node, so
    the backing array of the input node holds the same bytes afterwards
    as before; the only change to the heap is the new working buffer. *)
Lemma treeInsert_input_unchanged fuel tree node key val h :
  bytes_ok h → (base node < length h)%nat →
  fst (treeInsert fuel tree node key val h) !! base node = h !! base node
  ∧ view (fst (treeInsert fuel tree node key val h)) node = view h node.
Proof.
  intros Hh Hb.
  destruct (treeInsert_heap fuel tree node key val h Hh) as [extra ->].
  split; [by apply lookup_app_l|by apply view_app_l].
Qed.

(** C4 (the code departs from the claim): the first operation of the
    sequence "a", "c", "b" on an empty leaf already ends in [log.Fatal], so
    no tree results; and the leaf step itself, given the floor index of
    "b" in the sorted leaf "a", "c", stores "b" at that index, before "a". *)
Theorem insert_sequence_breaks :
  snd (treeInsert 2 no_store leaf_empty key_a val_1 sample_heap)
  = Fatal "invalid node index"
  ∧ snd (keys_of leaf_ac sample_heap) = Ok [[97]; [99]]
  ∧ snd ((new ← make (Z.to_nat (2 * BTREE_PAGE_SIZE));
          idx ← nodeLookupLE leaf_ac key_b;
          leafInsert new leaf_ac idx key_b val_2;;
          keys_of new) sample_heap)
    = Ok [[98]; [97]; [99]].
Proof.
  split; [|split; vm_compute; reflexivity].
  destruct (treeInsert_stops 1 no_store leaf_empty key_a val_1 sample_heap
              sample_heap_bytes) as (r & -> & Hr).
  rewrite btype_app_l in Hr by (cbn; lia).
  assert (snd (btype leaf_empty sample_heap) = Ok BNODE_LEAF) as Ht
    by (vm_compute; reflexivity).
  rewrite Ht in Hr. cbn [snd].
  assert (4 ≤ cap leaf_empty)%nat
    by (unfold leaf_empty, page_at, cap, BTREE_PAGE_SIZE; lia).
  destruct Hr as [[_ ?]|[[-> _]|[[_ [=]]|[_ (t & [= <-] & ? & _)]]]];
    [lia|done|done].
Qed.

(** The leaf step as [treeInsert] writes it, both buffers being the input
    node: run on its own on the leaf "a" with the index 0, it overwrites
    the header of the input (the key count becomes 2) and then runs out
    of slots.  ([treeInsert] stops before it gets there.) *)
Lemma leafInsert_on_itself_overwrites :
  take 4 (view sample_heap leaf_a) = [2; 0; 1; 0]
  ∧ snd (leafInsert leaf_a leaf_a 0 key_b val_2 sample_heap)
    = Fatal "fatal error"
  ∧ take 4 (view (fst (leafInsert leaf_a leaf_a 0 key_b val_2 sample_heap))
              leaf_a) = [2; 0; 2; 0].
Proof. repeat split; vm_compute; reflexivity. Qed.

(** The scan on the sample leaf "a" with the key "0", which is below "a". *)
Lemma nodeLookupLE_wraps_on_sample :
  snd (keys_of leaf_a sample_heap) = Ok [[97]]
  ∧ view sample_heap key_0 = [48]
  ∧ snd (nodeLookupLE leaf_a key_0 sample_heap) = Ok 65535.
Proof. vm_compute. auto. Qed.

(** ** Windows of a list and overwriting *)

Lemma sub_length l p n : (p + n ≤ length l)%nat → length (sub l p n) = n.
Proof. intros. unfold sub. rewrite length_take, length_drop. lia. Qed.

Lemma splice_length arr p xs :
  (p + length xs ≤ length arr)%nat → length (splice arr p xs) = length arr.
Proof.
  intros. unfold splice.
  rewrite !length_app, length_take, length_drop. lia.
Qed.

Lemma sub_splice_same arr p xs :
  (p + length xs ≤ length arr)%nat → sub (splice arr p xs) p (length xs) = xs.
Proof.
  intros. unfold sub, splice.
  rewrite drop_app_length'; [|rewrite length_take; lia].
  by rewrite take_app_length.
Qed.

Lemma sub_splice_before arr p xs q n :
  (q + n ≤ p)%nat → (p ≤ length arr)%nat →
  sub (splice arr p xs) q n = sub arr q n.
Proof.
  intros. unfold sub, splice.
  rewrite drop_app_le by (rewrite length_take; lia).
  rewrite take_app_le by (rewrite length_drop, length_take; lia).
  rewrite (take_drop_commute (take p arr)), take_take.
  rewrite Nat.min_l by lia. by rewrite <- take_drop_commute.
Qed.

Lemma sub_splice_after arr p xs q n :
  (p + length xs ≤ q)%nat → (p + length xs ≤ length arr)%nat →
  sub (splice arr p xs) q n = sub arr q n.
Proof.
  intros. unfold sub, splice. f_equal.
  rewrite app_assoc.
  rewrite drop_app_ge by (rewrite length_app, length_take; lia).
  rewrite length_app, length_take, drop_drop. f_equal. lia.
Qed.

Lemma sub_app l p n m :
  sub l p (n + m) = sub l p n ++ sub l (p + n) m.
Proof.
  unfold sub. rewrite <- drop_drop. by rewrite take_take_drop.
Qed.

Lemma sub_sub l p n q m :
  (q + m ≤ n)%nat → sub (sub l p n) q m = sub l (p + q) m.
Proof.
  intros. unfold sub.
  rewrite (take_drop_commute (take n _)), take_take, Nat.min_l by lia.
  rewrite <- take_drop_commute, drop_drop. done.
Qed.

Lemma sub_0_all l n : (length l ≤ n)%nat → sub l 0 n = l.
Proof. intros. unfold sub. rewrite drop_0. by apply take_ge. Qed.

Lemma sub_nil l p : sub l p 0 = [].
Proof. done. Qed.

Lemma lookup_sub l p n i :
  sub l p n !! i = if decide (i < n)%nat then l !! (p + i)%nat else None.
Proof.
  unfold sub. case_decide.
  - by rewrite lookup_take_lt, lookup_drop by done.
  - by rewrite lookup_take_ge by lia.
Qed.

Lemma lookup_splice arr p xs i :
  (p + length xs ≤ length arr)%nat →
  splice arr p xs !! i =
    if decide (i < p)%nat then arr !! i
    else if decide (i < p + length xs)%nat then xs !! (i - p)%nat
    else arr !! i.
Proof.
  intros. unfold splice. repeat case_decide.
  - rewrite lookup_app_l by (rewrite length_take; lia).
    by rewrite lookup_take_lt.
  - rewrite lookup_app_r by (rewrite length_take; lia).
    rewrite length_take, Nat.min_l by lia.
    by rewrite lookup_app_l by lia.
  - rewrite lookup_app_r by (rewrite length_take; lia).
    rewrite length_take, Nat.min_l by lia.
    rewrite lookup_app_r by lia. rewrite lookup_drop. f_equal. lia.
Qed.

Lemma sub_splice_within arr o n p xs :
  (p + length xs ≤ n)%nat → (o + n ≤ length arr)%nat →
  sub (splice arr (o + p) xs) o n = splice (sub arr o n) p xs.
Proof.
  intros. apply list_eq. intros i.
  rewrite lookup_sub, !lookup_splice, !lookup_sub
    by (try rewrite sub_length; lia).
  repeat case_decide; try lia; try done.
  f_equal. lia.
Qed.

(** ** Reading and writing through slices *)

Lemma view_sub h s arr :
  h !! base s = Some arr → view h s = sub arr (off s) (len s).
Proof. intros E. unfold view, rd. rewrite E, Nat.add_0_r. done. Qed.

Lemma view_length h s : valid h s → length (view h s) = len s.
Proof.
  intros (arr & E & ? & ?). rewrite (view_sub _ _ _ E).
  apply sub_length. lia.
Qed.

Lemma rd_sub h nd pos n l c :
  valid h nd → (pos + n ≤ len nd)%nat →
  rd h (mkSlice (base nd) (off nd + pos) l c) 0 n = sub (view h nd) pos n.
Proof.
  intros (arr & E & ? & ?) ?. rewrite (view_sub _ _ _ E).
  unfold rd. cbn. rewrite E, Nat.add_0_r.
  by rewrite sub_sub.
Qed.

Lemma view_wr h nd pos xs l c :
  valid h nd → (pos + length xs ≤ len nd)%nat →
  view (wr h (mkSlice (base nd) (off nd + pos) l c) 0 xs) nd
  = splice (view h nd) pos xs.
Proof.
  intros (arr & E & ? & ?) ?. rewrite (view_sub _ _ _ E).
  unfold view, rd, wr. cbn.
  rewrite list_lookup_alter_eq, E. cbn. rewrite !Nat.add_0_r.
  apply sub_splice_within; lia.
Qed.

Lemma same_but_refl b h : same_but b h h.
Proof. repeat split; eauto. Qed.

Lemma same_but_trans b h1 h2 h3 :
  same_but b h1 h2 → same_but b h2 h3 → same_but b h1 h3.
Proof.
  intros (L1 & F1 & A1) (L2 & F2 & A2). repeat split.
  - congruence.
  - intros b' Hb. by rewrite F2, F1.
  - intros arr E. destruct (A1 _ E) as (arr1 & E1 & ?).
    destruct (A2 _ E1) as (arr2 & E2 & ?). exists arr2. split; [done|lia].
Qed.

Lemma same_but_wr h s i xs :
  valid h s → (i + length xs ≤ len s)%nat →
  same_but (base s) h (wr h s i xs).
Proof.
  intros (arr & E & ? & ?) ?. unfold wr. repeat split.
  - apply length_alter.
  - intros b' Hb. by apply list_lookup_alter_ne.
  - intros arr' E'. rewrite list_lookup_alter_eq, E'. cbn.
    eexists; split; [done|]. apply splice_length.
    assert (arr' = arr) as -> by congruence. lia.
Qed.

Lemma same_but_valid b h h' s : same_but b h h' → valid h s → valid h' s.
Proof.
  intros (L & F & A) (arr & E & ? & ?).
  destruct (decide (base s = b)) as [<-|Hne].
  - destruct (A _ E) as (arr' & E' & ?). exists arr'. split; [done|lia].
  - exists arr. rewrite F by done. done.
Qed.

Lemma same_but_rd b h h' s i n :
  same_but b h h' → base s ≠ b → rd h' s i n = rd h s i n.
Proof. intros (L & F & A) Hb. unfold rd. by rewrite F. Qed.

Lemma same_but_view b h h' s :
  same_but b h h' → base s ≠ b → view h' s = view h s.
Proof. apply same_but_rd. Qed.

(** ** Words and their bytes *)

Lemma u16_small x : 0 ≤ x < 65536 → u16 x = x.
Proof. intros. unfold u16. by apply Z.mod_small. Qed.

Lemma byte_range x : is_byte (byte x).
Proof. unfold is_byte, byte. apply Z.mod_pos_bound. lia. Qed.

Lemma le16_enc16 v : 0 ≤ v < 65536 → le16 (enc16 v) = v.
Proof.
  intros Hv. unfold le16, enc16. cbn [nth].
  rewrite le16_bytes by apply byte_range.
  unfold byte. rewrite Z.shiftr_div_pow2 by lia.
  change (2 ^ 8) with 256.
  Z.to_euclidean_division_equations. lia.
Qed.

Lemma le64_enc64 v : 0 ≤ v < 18446744073709551616 → le64 (enc64 v) = v.
Proof.
  intros Hv. unfold le64, enc64. cbn [nth].
  pose proof (byte_range v). pose proof (byte_range (Z.shiftr v 8)).
  pose proof (byte_range (Z.shiftr v 16)). pose proof (byte_range (Z.shiftr v 24)).
  pose proof (byte_range (Z.shiftr v 32)). pose proof (byte_range (Z.shiftr v 40)).
  pose proof (byte_range (Z.shiftr v 48)). pose proof (byte_range (Z.shiftr v 56)).
  unfold is_byte in *.
  repeat (rewrite lor_shiftl_add; [|lia| |lia]); try lia.
  all: unfold byte in *; rewrite !Z.shiftr_div_pow2 in * by lia.
  all: Z.to_euclidean_division_equations; lia.
Qed.

(** ** Slices of a node *)

Lemma sl_from_ok nd (p : nat) h :
  (p ≤ len nd)%nat →
  sl_from nd (Z.of_nat p) h
  = (h, Ok (mkSlice (base nd) (off nd + p) (len nd - p) (cap nd - p))).
Proof.
  intros. unfold sl_from. rewrite bool_decide_eq_true_2 by lia.
  by rewrite Nat2Z.id.
Qed.

Lemma get16_at h nd (p : nat) :
  valid h nd → (p + 2 ≤ len nd)%nat →
  (sl_from nd (Z.of_nat p) ≫= LittleEndian_Uint16) h
  = (h, Ok (le16 (sub (view h nd) p 2))).
Proof.
  intros Hv Hp. erewrite bind_ok by (apply sl_from_ok; lia).
  rewrite Uint16_ok by (cbn; lia). by rewrite rd_sub.
Qed.

Lemma get64_at h nd (p : nat) :
  valid h nd → (p + 8 ≤ len nd)%nat →
  (sl_from nd (Z.of_nat p) ≫= LittleEndian_Uint64) h
  = (h, Ok (le64 (sub (view h nd) p 8))).
Proof.
  intros Hv Hp. erewrite bind_ok by (apply sl_from_ok; lia).
  rewrite Uint64_ok by (cbn; lia). by rewrite rd_sub.
Qed.

Lemma put16_at h nd (p : nat) v :
  (p + 2 ≤ len nd)%nat →
  (sl_from nd (Z.of_nat p) ≫= λ s, LittleEndian_PutUint16 s v) h
  = (poke h nd p (enc16 v), Ok tt).
Proof.
  intros Hp. erewrite bind_ok by (apply sl_from_ok; lia).
  unfold LittleEndian_PutUint16. rewrite bool_decide_eq_false_2 by (cbn; lia).
  reflexivity.
Qed.

Lemma put64_at h nd (p : nat) v :
  (p + 8 ≤ len nd)%nat →
  (sl_from nd (Z.of_nat p) ≫= λ s, LittleEndian_PutUint64 s v) h
  = (poke h nd p (enc64 v), Ok tt).
Proof.
  intros Hp. erewrite bind_ok by (apply sl_from_ok; lia).
  unfold LittleEndian_PutUint64. rewrite bool_decide_eq_false_2 by (cbn; lia).
  reflexivity.
Qed.

Lemma copy_at h nd (p : nat) src :
  (p + len src ≤ len nd)%nat →
  (sl_from nd (Z.of_nat p) ≫= λ s, copy s src) h
  = (poke h nd p (view h src), Ok (Z.of_nat (len src))).
Proof.
  intros Hp. erewrite bind_ok by (apply sl_from_ok; lia).
  unfold copy. cbn [len]. rewrite Nat.min_r by lia. reflexivity.
Qed.

Lemma view_poke h nd p xs :
  valid h nd → (p + length xs ≤ len nd)%nat →
  view (poke h nd p xs) nd = splice (view h nd) p xs.
Proof. apply view_wr. Qed.

Lemma same_but_poke h nd p xs :
  valid h nd → (p + length xs ≤ len nd)%nat →
  same_but (base nd) h (poke h nd p xs).
Proof.
  intros (arr & E & ? & ?) ?. unfold poke.
  apply (same_but_wr h (mkSlice (base nd) (off nd + p) (len nd - p) (cap nd - p))).
  - exists arr. cbn. split; [done|lia].
  - cbn. lia.
Qed.

Lemma bind_assoc {A B C} (m : M A) (f : A → M B) (g : B → M C) h :
  ((m ≫= f) ≫= g) h = (m ≫= λ x, f x ≫= g) h.
Proof.
  rewrite !bind_unfold. destruct (m h) as [h' [a| | |]]; reflexivity.
Qed.

Lemma bind_ret {A B} (a : A) (f : A → M B) h : (mret a ≫= f) h = f a h.
Proof. reflexivity. Qed.

Lemma get16_at_bind {B} h nd (p : nat) (f : Z → M B) :
  valid h nd → (p + 2 ≤ len nd)%nat →
  (sl_from nd (Z.of_nat p) ≫= λ s, LittleEndian_Uint16 s ≫= f) h
  = f (le16 (sub (view h nd) p 2)) h.
Proof.
  intros Hv Hp. erewrite bind_ok by (apply sl_from_ok; lia).
  erewrite bind_ok by (apply Uint16_ok; cbn; lia). by rewrite rd_sub.
Qed.

(** ** Decoding a node *)

Section decode.
Context (h : Heap) (nd : BNode) (t : Z) (n : nat) (es : list entry).
Hypothesis H : holds h nd t n es.

Lemma holds_size : (node_size n es ≤ len nd)%nat.
Proof.
  destruct H as (Hv & _ & _ & Hi & _).
  destruct Hi as (_ & _ & _ & _ & _ & _ & Hs).
  by rewrite view_length in Hs.
Qed.

Lemma holds_slots : (length es ≤ n)%nat.
Proof. destruct H as (_ & _ & _ & Hi & _). apply Hi. Qed.

Lemma kv_total_take_le i : (kv_total (take i es) ≤ kv_total es)%nat.
Proof.
  unfold kv_total. rewrite <- (take_drop i es) at 2.
  rewrite sum_list_with_app. lia.
Qed.

Lemma btype_img : btype nd h = (h, Ok t).
Proof.
  pose proof holds_size as Hs. unfold node_size in Hs.
  destruct H as (Hv & Hl & Ht & Hi & _).
  pose proof Hv as (arr & _ & _ & ?).
  rewrite btype_unfold, bool_decide_eq_true_2 by lia.
  rewrite rd_sub by (done || lia).
  destruct Hi as (-> & _). by rewrite le16_enc16.
Qed.

Lemma nkeys_img : nkeys nd h = (h, Ok (Z.of_nat n)).
Proof.
  pose proof holds_size as Hs. unfold node_size in Hs.
  destruct H as (Hv & Hl & Ht & Hi & _).
  pose proof Hv as (arr & _ & _ & ?).
  rewrite nkeys_unfold, bool_decide_eq_true_2 by lia.
  rewrite rd_sub by (done || lia).
  destruct Hi as (_ & -> & _). rewrite le16_enc16 by lia. done.
Qed.

Lemma getPtr_img i e :
  es !! i = Some e → getPtr nd (Z.of_nat i) h = (h, Ok (e_ptr e)).
Proof.
  intros He. pose proof holds_size as Hs. unfold node_size in Hs.
  pose proof holds_slots as Hn. pose proof (lookup_lt_Some _ _ _ He) as Hi.
  unfold getPtr. rewrite (bind_ok _ _ _ _ _ nkeys_img).
  unfold require. rewrite bool_decide_eq_true_2 by lia.
  rewrite bind_ret.
  destruct H as (Hv & Hl & Ht & Himg & Hes).
  replace (u16 (HEADER + 8 * Z.of_nat i)) with (Z.of_nat (4 + 8 * i))
    by (unfold HEADER; rewrite u16_small; lia).
  rewrite get64_at by (done || lia).
  destruct Himg as (_ & _ & _ & Hp & _). rewrite (Hp _ _ He).
  rewrite le64_enc64; [done|].
  eapply Forall_lookup_1 in Hes; [|done]. apply Hes.
Qed.

Lemma offsetPos_img i :
  (1 ≤ i ≤ n)%nat →
  offsetPos nd (Z.of_nat i) h = (h, Ok (Z.of_nat (4 + 8 * n + 2 * (i - 1)))).
Proof.
  intros Hi. pose proof holds_size as Hs. unfold node_size in Hs.
  unfold offsetPos. rewrite bool_decide_eq_true_2 by lia.
  rewrite bind_assoc, (bind_ok _ _ _ _ _ nkeys_img), bind_ret.
  unfold require. rewrite bool_decide_eq_true_2 by lia.
  rewrite bind_ret, (bind_ok _ _ _ _ _ nkeys_img), ret_unfold.
  destruct H as (Hv & Hl & _).
  do 2 f_equal. unfold HEADER. rewrite u16_small; lia.
Qed.

Lemma getOffset_img i :
  (i ≤ length es)%nat →
  getOffset nd (Z.of_nat i) h = (h, Ok (Z.of_nat (kv_total (take i es)))).
Proof.
  intros Hi. pose proof holds_size as Hs. unfold node_size in Hs.
  pose proof holds_slots as Hn.
  unfold getOffset. destruct i as [|i].
  { rewrite bool_decide_eq_true_2 by lia. done. }
  rewrite bool_decide_eq_false_2 by lia.
  erewrite bind_ok by (apply offsetPos_img; lia).
  destruct H as (Hv & Hl & Ht & Himg & Hes).
  rewrite get16_at by (done || lia).
  destruct Himg as (_ & _ & _ & _ & Ho & _).
  replace (S i - 1)%nat with i by lia. rewrite Ho by lia.
  pose proof (kv_total_take_le (S i)).
  rewrite le16_enc16 by lia. done.
Qed.

Lemma kvPos_img i :
  (i ≤ length es)%nat →
  kvPos nd (Z.of_nat i) h = (h, Ok (Z.of_nat (node_size n (take i es)))).
Proof.
  intros Hi. pose proof holds_size as Hs. unfold node_size in Hs.
  pose proof holds_slots as Hn. pose proof (kv_total_take_le i).
  unfold kvPos. rewrite (bind_ok _ _ _ _ _ nkeys_img).
  unfold require. rewrite bool_decide_eq_true_2 by lia.
  rewrite bind_ret.
  rewrite !(bind_ok _ _ _ _ _ nkeys_img).
  rewrite (bind_ok _ _ _ _ _ (getOffset_img _ Hi)), ret_unfold.
  destruct H as (Hv & Hl & _).
  do 2 f_equal. unfold HEADER, node_size. rewrite u16_small; lia.
Qed.

Lemma nbytes_img :
  length es = n → nbytes nd h = (h, Ok (Z.of_nat (node_size n es))).
Proof.
  intros Hn. unfold nbytes. rewrite (bind_ok _ _ _ _ _ nkeys_img).
  rewrite kvPos_img by lia. by rewrite take_ge by lia.
Qed.

Lemma kv_total_take_S i e :
  es !! i = Some e →
  kv_total (take (S i) es) = (kv_total (take i es) + kv_size e)%nat.
Proof.
  intros He. rewrite (take_S_r _ _ _ He). unfold kv_total.
  rewrite sum_list_with_app. cbn. lia.
Qed.

(** The four fields of the key-value of entry [i]. *)
Lemma kv_fields i e :
  es !! i = Some e →
  let v := view h nd in
  let p := node_size n (take i es) in
  (p + kv_size e ≤ len nd)%nat
  ∧ sub v p 2 = enc16 (Z.of_nat (length (e_key e)))
  ∧ sub v (p + 2) 2 = enc16 (Z.of_nat (length (e_val e)))
  ∧ sub v (p + 4) (length (e_key e)) = e_key e
  ∧ sub v (p + 4 + length (e_key e)) (length (e_val e)) = e_val e.
Proof.
  intros He v p. pose proof holds_size as Hs.
  pose proof (kv_total_take_S _ _ He) as HS.
  pose proof (kv_total_take_le (S i)) as Hle.
  assert (p + kv_size e ≤ len nd)%nat as Hp
    by (subst p; unfold node_size in *; lia).
  split; [done|].
  destruct H as (Hv & _ & _ & Himg & _).
  destruct Himg as (_ & _ & _ & _ & _ & Hkv & _).
  specialize (Hkv _ _ He). fold v in Hkv.
  change (4 + 10 * n + kv_total (take i es))%nat with p in Hkv.
  pose proof (view_length _ _ Hv) as Hlen. fold v in Hlen.
  unfold kv_size in Hkv, Hp.
  replace (4 + length (e_key e) + length (e_val e))%nat
    with (2 + (2 + (length (e_key e) + length (e_val e))))%nat in Hkv by lia.
  rewrite !sub_app in Hkv. unfold kv_bytes in Hkv.
  apply app_inj_1 in Hkv as [E1 Hkv]; [|rewrite sub_length by lia; done].
  apply app_inj_1 in Hkv as [E2 Hkv]; [|rewrite sub_length by lia; done].
  apply app_inj_1 in Hkv as [E3 E4]; [|rewrite sub_length by lia; done].
  replace (p + 2 + 2)%nat with (p + 4)%nat in * by lia.
  done.
Qed.

Lemma getKey_img i e :
  es !! i = Some e →
  ∃ k, getKey nd (Z.of_nat i) h = (h, Ok k)
       ∧ view h k = e_key e ∧ valid h k ∧ base k = base nd
       ∧ len k = length (e_key e).
Proof.
  intros He. pose proof (lookup_lt_Some _ _ _ He) as Hi.
  pose proof holds_slots as Hn.
  destruct (kv_fields _ _ He) as (Hp & Ek & _ & Ekey & _).
  set (p := node_size n (take i es)) in *.
  pose proof H as (Hv & Hl & _ & _ & Hes).
  pose proof Hv as (arr & Harr & Hcap & Hlc).
  eapply Forall_lookup_1 in Hes as (_ & Hkl & _); [|done].
  unfold BTREE_MAX_KEY_SIZE in Hkl. unfold kv_size in Hp.
  eexists. unfold getKey. rewrite (bind_ok _ _ _ _ _ nkeys_img).
  unfold require. rewrite bool_decide_eq_true_2 by lia. rewrite bind_ret.
  erewrite bind_ok by (apply kvPos_img; lia). fold p.
  rewrite get16_at_bind by (done || lia).
  rewrite Ek, le16_enc16 by lia.
  replace (u16 (Z.of_nat p + 4)) with (Z.of_nat (p + 4))
    by (rewrite u16_small; lia).
  erewrite bind_ok by (apply sl_from_ok; lia).
  unfold sl_to. cbn [cap base off len].
  rewrite bool_decide_eq_true_2 by lia. rewrite ret_unfold, Nat2Z.id.
  split; [reflexivity|]. split; [|split; [|done]].
  - unfold view. cbn [len]. rewrite rd_sub by (done || lia). done.
  - exists arr. cbn [base off len cap]. split; [done|lia].
Qed.

Lemma getVal_img i e :
  es !! i = Some e →
  ∃ k, getVal nd (Z.of_nat i) h = (h, Ok k)
       ∧ view h k = e_val e ∧ valid h k ∧ base k = base nd
       ∧ len k = length (e_val e).
Proof.
  intros He. pose proof (lookup_lt_Some _ _ _ He) as Hi.
  pose proof holds_slots as Hn.
  destruct (kv_fields _ _ He) as (Hp & Ek & Ev & _ & Eval).
  set (p := node_size n (take i es)) in *.
  pose proof H as (Hv & Hl & _ & _ & Hes).
  pose proof Hv as (arr & Harr & Hcap & Hlc).
  eapply Forall_lookup_1 in Hes as (_ & Hkl & Hvl); [|done].
  unfold BTREE_MAX_KEY_SIZE in Hkl. unfold BTREE_MAX_VAL_SIZE in Hvl.
  unfold kv_size in Hp.
  eexists. unfold getVal. rewrite (bind_ok _ _ _ _ _ nkeys_img).
  unfold require. rewrite bool_decide_eq_true_2 by lia. rewrite bind_ret.
  erewrite bind_ok by (apply kvPos_img; lia). fold p.
  rewrite get16_at_bind by (done || lia).
  rewrite Ek, le16_enc16 by lia.
  replace (u16 (Z.of_nat p + 2)) with (Z.of_nat (p + 2))
    by (rewrite u16_small; lia).
  rewrite get16_at_bind by (done || lia).
  rewrite Ev, le16_enc16 by lia.
  replace (u16 (Z.of_nat p + 4 + Z.of_nat (length (e_key e))))
    with (Z.of_nat (p + 4 + length (e_key e)))
    by (rewrite u16_small; lia).
  erewrite bind_ok by (apply sl_from_ok; lia).
  unfold sl_to. cbn [cap base off len].
  rewrite bool_decide_eq_true_2 by lia. rewrite ret_unfold, Nat2Z.id.
  split; [reflexivity|]. split; [|split; [|done]].
  - unfold view. cbn [len]. rewrite rd_sub by (done || lia). done.
  - exists arr. cbn [base off len cap]. split; [done|lia].
Qed.
End decode.

(** ** Writing into the free part of a node *)

Lemma sub_splice_disj arr p xs q m :
  (q + m ≤ p ∨ p + length xs ≤ q)%nat → (p + length xs ≤ length arr)%nat →
  sub (splice arr p xs) q m = sub arr q m.
Proof.
  intros [?|?] ?; [apply sub_splice_before|apply sub_splice_after]; lia.
Qed.

Lemma kv_total_app es1 es2 :
  kv_total (es1 ++ es2) = (kv_total es1 + kv_total es2)%nat.
Proof. apply sum_list_with_app. Qed.

Lemma kv_total_one e : kv_total [e] = kv_size e.
Proof. unfold kv_total. cbn [sum_list_with]. lia. Qed.

Lemma kv_total_lookup es i e :
  es !! i = Some e →
  (kv_total (take i es) + kv_size e ≤ kv_total es)%nat.
Proof.
  intros He. rewrite <- (take_drop (S i) es) at 2.
  rewrite (take_S_r _ _ _ He), !kv_total_app, kv_total_one. lia.
Qed.

Lemma node_img_splice v t n es p xs :
  node_img v t n es → (p + length xs ≤ length v)%nat →
  free_at n (length es) (kv_total es) p (length xs) →
  node_img (splice v p xs) t n es.
Proof.
  intros (Ht & Hn & Hk & Hp & Ho & Hkv & Hs) Hlen Hfree.
  unfold node_size in Hs.
  pose proof (kv_total_lookup es) as Hsum.
  repeat split.
  - rewrite sub_splice_disj; [done| |done]. destruct Hfree as [|[|]]; lia.
  - rewrite sub_splice_disj; [done| |done]. destruct Hfree as [|[|]]; lia.
  - done.
  - intros i e He. pose proof (lookup_lt_Some _ _ _ He).
    rewrite sub_splice_disj; [by apply Hp| |done].
    destruct Hfree as [|[|]]; lia.
  - intros i Hi. rewrite sub_splice_disj; [by apply Ho| |done].
    destruct Hfree as [|[|]]; lia.
  - intros i e He. pose proof (lookup_lt_Some _ _ _ He).
    pose proof (Hsum _ _ He).
    rewrite sub_splice_disj; [by apply Hkv| |done].
    destruct Hfree as [|[|]]; lia.
  - unfold node_size. rewrite splice_length by done. done.
Qed.

(** One store into the free part: the node is as before, other backing
    arrays are untouched, and windows off the stored bytes read as before. *)
Lemma poke_free h nd t n es p xs :
  holds h nd t n es → (p + length xs ≤ len nd)%nat →
  free_at n (length es) (kv_total es) p (length xs) →
  let h' := poke h nd p xs in
  holds h' nd t n es ∧ same_but (base nd) h h'
  ∧ sub (view h' nd) p (length xs) = xs
  ∧ (∀ q m, (q + m ≤ p ∨ p + length xs ≤ q)%nat →
       sub (view h' nd) q m = sub (view h nd) q m).
Proof.
  intros (Hv & Hl & Ht & Himg & Hes) Hp Hfree h'.
  pose proof (same_but_poke h nd p xs Hv Hp) as Hsb.
  pose proof (view_length _ _ Hv) as Hlen.
  assert (view h' nd = splice (view h nd) p xs) as Ev by by apply view_poke.
  split.
  { split; [by eapply same_but_valid|]. do 2 (split; [done|]).
    split; [|done]. rewrite Ev. apply node_img_splice; [done|lia|done]. }
  split; [done|]. split.
  - rewrite Ev. apply sub_splice_same. lia.
  - intros q m Hd. rewrite Ev. apply sub_splice_disj; [done|lia].
Qed.

Lemma PutUint16_ok h b v :
  (2 ≤ len b)%nat →
  LittleEndian_PutUint16 b v h = (wr h b 0 (enc16 v), Ok tt).
Proof.
  intros. unfold LittleEndian_PutUint16.
  rewrite bool_decide_eq_false_2 by lia. reflexivity.
Qed.

Lemma put16_at_bind {B} h nd (p : nat) v (f : unit → M B) :
  (p + 2 ≤ len nd)%nat →
  (sl_from nd (Z.of_nat p) ≫= λ s, LittleEndian_PutUint16 s v ≫= f) h
  = f tt (poke h nd p (enc16 v)).
Proof.
  intros Hp. erewrite bind_ok by (apply sl_from_ok; lia).
  unfold LittleEndian_PutUint16. rewrite bind_unfold.
  rewrite bool_decide_eq_false_2 by (cbn; lia). reflexivity.
Qed.

Lemma copy_at_bind {B} h nd (p : nat) src (f : Z → M B) :
  (p + len src ≤ len nd)%nat →
  (sl_from nd (Z.of_nat p) ≫= λ s, copy s src ≫= f) h
  = f (Z.of_nat (len src)) (poke h nd p (view h src)).
Proof.
  intros Hp. erewrite bind_ok by (apply sl_from_ok; lia).
  unfold copy. rewrite bind_unfold. cbn [len].
  rewrite Nat.min_r by lia. reflexivity.
Qed.

Lemma setPtr_img h nd t n es i ptr :
  holds h nd t n es → (i < n)%nat →
  setPtr nd (Z.of_nat i) ptr h = (poke h nd (4 + 8 * i) (enc64 ptr), Ok tt).
Proof.
  intros H Hi. pose proof (holds_size _ _ _ _ _ H) as Hs.
  unfold node_size in Hs. pose proof H as (Hv & Hl & _).
  unfold setPtr. rewrite (bind_ok _ _ _ _ _ (nkeys_img _ _ _ _ _ H)).
  unfold require. rewrite bool_decide_eq_true_2 by lia. rewrite bind_ret.
  replace (u16 (HEADER + 8 * Z.of_nat i)) with (Z.of_nat (4 + 8 * i))
    by (unfold HEADER; rewrite u16_small; lia).
  apply put64_at. lia.
Qed.

Lemma setOffset_img h nd t n es i v :
  holds h nd t n es → (1 ≤ i ≤ n)%nat →
  setOffset nd (Z.of_nat i) v h
  = (poke h nd (4 + 8 * n + 2 * (i - 1)) (enc16 v), Ok tt).
Proof.
  intros H Hi. pose proof (holds_size _ _ _ _ _ H) as Hs.
  unfold node_size in Hs.
  unfold setOffset. erewrite bind_ok by (eapply offsetPos_img; [done|lia]).
  apply put16_at. lia.
Qed.

Ltac len_lia := unfold enc16, enc64; cbn [length]; lia.

Lemma setHeader_img h nd t n :
  valid h nd → Z.of_nat (len nd) < 65536 → 0 ≤ t < 65536 →
  (node_size n [] ≤ len nd)%nat →
  ∃ h', setHeader nd t (Z.of_nat n) h = (h', Ok tt)
        ∧ holds h' nd t n [] ∧ same_but (base nd) h h'.
Proof.
  intros Hv Hl Ht Hs. unfold node_size in Hs. cbn [kv_total sum_list_with] in Hs.
  pose proof Hv as (arr & Harr & Hcap & Hlc).
  pose proof (view_length _ _ Hv) as Hlen.
  set (h1 := poke h nd 0 (enc16 t)).
  set (h2 := poke h1 nd 2 (enc16 (Z.of_nat n))).
  assert (same_but (base nd) h h1) as S1 by (apply same_but_poke; [done|len_lia]).
  pose proof (same_but_valid _ _ _ _ S1 Hv) as Hv1.
  assert (same_but (base nd) h1 h2) as S2 by (apply same_but_poke; [done|len_lia]).
  pose proof (same_but_valid _ _ _ _ S2 Hv1) as Hv2.
  exists h2. split; [|split].
  - unfold setHeader, sl_range.
    rewrite !bool_decide_eq_true_2 by lia. rewrite bind_ret.
    erewrite bind_ok by (apply PutUint16_ok; cbn; lia).
    rewrite bind_ret, PutUint16_ok by (cbn; lia). reflexivity.
  - split; [done|]. do 2 (split; [done|]). split; [|by apply Forall_nil].
    assert (view h1 nd = splice (view h nd) 0 (enc16 t)) as E1
      by (apply view_poke; [done|len_lia]).
    assert (view h2 nd = splice (view h1 nd) 2 (enc16 (Z.of_nat n))) as E2
      by (apply view_poke; [done|len_lia]).
    pose proof (view_length _ _ Hv1) as Hlen1.
    repeat split.
    + rewrite E2, sub_splice_disj by (len_lia).
      rewrite E1. apply (sub_splice_same _ 0 (enc16 t)). len_lia.
    + rewrite E2. apply (sub_splice_same _ 2 (enc16 _)). len_lia.
    + cbn [length]; lia.
    + intros i e [=].
    + cbn [length]. lia.
    + intros i e [=].
    + unfold node_size. cbn [kv_total sum_list_with]. pose proof (view_length _ _ Hv2). lia.
  - by eapply same_but_trans.
Qed.

(** ** Appending an entry *)

Lemma node_img_snoc v t n es e :
  node_img v t n es → (length es < n)%nat →
  sub v (4 + 8 * length es) 8 = enc64 (e_ptr e) →
  sub v (4 + 8 * n + 2 * length es) 2
    = enc16 (Z.of_nat (kv_total es + kv_size e)) →
  sub v (node_size n es) (kv_size e) = kv_bytes e →
  (node_size n es + kv_size e ≤ length v)%nat →
  node_img v t n (es ++ [e]).
Proof.
  intros (Ht & Hn & Hk & Hp & Ho & Hkv & Hs) Hlt Fp Fo Fkv Hfit.
  unfold node_size in *.
  split; [done|]. split; [done|]. split; [rewrite length_app; cbn; lia|].
  split; [|split; [|split]].
  - intros i e' He. apply lookup_app_Some in He as [He|[Hi He]].
    + by apply Hp.
    + apply list_lookup_singleton_Some in He as [Hi' <-].
      replace i with (length es) by lia. done.
  - intros i Hi. rewrite length_app in Hi. cbn in Hi.
    destruct (decide (i < length es)%nat).
    + rewrite take_app_le by lia. by apply Ho.
    + replace i with (length es) by lia.
      rewrite take_app_ge by lia.
      replace (S (length es) - length es)%nat with 1%nat by lia.
      cbn [take]. by rewrite kv_total_app, kv_total_one.
  - intros i e' He. apply lookup_app_Some in He as [He|[Hi He]].
    + pose proof (lookup_lt_Some _ _ _ He).
      rewrite take_app_le by lia. by apply Hkv.
    + apply list_lookup_singleton_Some in He as [Hi' <-].
      replace i with (length es) by lia.
      by rewrite take_app_length.
  - unfold node_size. rewrite kv_total_app, kv_total_one. lia.
Qed.

Lemma nodeAppendKV_img h nd t n es ptr key val :
  holds h nd t n es → (length es < n)%nat →
  valid h key → valid h val → base key ≠ base nd → base val ≠ base nd →
  entry_ok (mkEntry ptr (view h key) (view h val)) →
  (node_size n es + kv_size (mkEntry ptr (view h key) (view h val))
   ≤ len nd)%nat →
  ∃ h', nodeAppendKV nd (Z.of_nat (length es)) ptr key val h = (h', Ok tt)
        ∧ holds h' nd t n (es ++ [mkEntry ptr (view h key) (view h val)])
        ∧ same_but (base nd) h h'.
Proof.
  intros H Hk Hvk Hvv Hbk Hbv Hok Hfit.
  pose proof (view_length _ _ Hvk) as Lk.
  pose proof (view_length _ _ Hvv) as Lv.
  set (kb := view h key) in *. set (vb := view h val) in *.
  set (e := mkEntry ptr kb vb) in *.
  destruct Hok as (Hptr & Hkl & Hvl). cbn [e_ptr e_key e_val e] in Hptr, Hkl, Hvl.
  unfold BTREE_MAX_KEY_SIZE in Hkl. unfold BTREE_MAX_VAL_SIZE in Hvl.
  unfold kv_size in Hfit. cbn [e_key e_val e] in Hfit.
  set (k := length es) in *. set (T := kv_total es).
  set (P := node_size n es) in *.
  assert (P = 4 + 10 * n + T)%nat as EP by reflexivity.
  pose proof H as (Hv & Hl & Ht & _ & Hes).
  (* the six stores *)
  destruct (poke_free h nd t n es (4 + 8 * k) (enc64 ptr) H) as (H1 & S1 & R1 & D1);
    [len_lia|left; len_lia|].
  set (h1 := poke h nd (4 + 8 * k) (enc64 ptr)) in *.
  destruct (poke_free h1 nd t n es P (enc16 (Z.of_nat (length kb))) H1)
    as (H2 & S2 & R2 & D2); [len_lia|right; right; fold T; lia|].
  set (h2 := poke h1 nd P _) in *.
  destruct (poke_free h2 nd t n es (P + 2) (enc16 (Z.of_nat (length vb))) H2)
    as (H3 & S3 & R3 & D3); [len_lia|right; right; fold T; lia|].
  set (h3 := poke h2 nd (P + 2) _) in *.
  destruct (poke_free h3 nd t n es (P + 4) kb H3)
    as (H4 & S4 & R4 & D4); [lia|right; right; fold T; lia|].
  set (h4 := poke h3 nd (P + 4) _) in *.
  destruct (poke_free h4 nd t n es (P + 4 + length kb) vb H4)
    as (H5 & S5 & R5 & D5); [lia|right; right; fold T; lia|].
  set (h5 := poke h4 nd (P + 4 + length kb) _) in *.
  destruct (poke_free h5 nd t n es (4 + 8 * n + 2 * k)
              (enc16 (Z.of_nat (T + kv_size e))) H5)
    as (H6 & S6 & R6 & D6); [len_lia|right; left; fold k; len_lia|].
  set (h6 := poke h5 nd (4 + 8 * n + 2 * k) _) in *.
  assert (same_but (base nd) h h3) as S03
    by (eapply same_but_trans; [|exact S3];
        eapply same_but_trans; [exact S1|exact S2]).
  assert (same_but (base nd) h h4) as S04 by (eapply same_but_trans; done).
  assert (same_but (base nd) h h6) as S06
    by (eapply same_but_trans; [|exact S6]; eapply same_but_trans; done).
  exists h6. split; [|split; [|exact S06]].
  - unfold nodeAppendKV.
    erewrite bind_ok by (eapply setPtr_img; [exact H|lia]). fold h1.
    erewrite bind_ok by (eapply kvPos_img; [exact H1|lia]).
    rewrite take_ge by lia. fold P.
    unfold go_len.
    rewrite !(u16_small (Z.of_nat (len key))) by lia.
    rewrite !(u16_small (Z.of_nat (len val))) by lia.
    rewrite <- !Lk, <- !Lv.
    rewrite put16_at_bind by lia. fold h2.
    replace (u16 (Z.of_nat P + 2)) with (Z.of_nat (P + 2))
      by (rewrite u16_small; lia).
    rewrite put16_at_bind by lia. fold h3.
    replace (u16 (Z.of_nat P + 4)) with (Z.of_nat (P + 4))
      by (rewrite u16_small; lia).
    rewrite copy_at_bind by lia.
    rewrite (same_but_view _ _ _ _ S03 Hbk). fold kb h4.
    replace (u16 (Z.of_nat P + 4 + Z.of_nat (length kb)))
      with (Z.of_nat (P + 4 + length kb)) by (rewrite u16_small; lia).
    rewrite copy_at_bind by lia.
    rewrite (same_but_view _ _ _ _ S04 Hbv). fold vb h5.
    erewrite bind_ok by (eapply getOffset_img; [exact H5|lia]).
    rewrite take_ge by lia. fold T.
    replace (u16 (Z.of_nat k + 1)) with (Z.of_nat (S k))
      by (rewrite u16_small; lia).
    erewrite setOffset_img by (exact H5 || lia).
    replace (S k - 1)%nat with k by lia.
    replace (u16 (Z.of_nat T + 4 + u16 (Z.of_nat (length kb) + Z.of_nat (length vb))))
      with (Z.of_nat (T + kv_size e)); [reflexivity|].
    unfold kv_size. cbn [e_key e_val e].
    rewrite (u16_small (Z.of_nat (length kb) + Z.of_nat (length vb))) by lia.
    rewrite u16_small by lia. lia.
  - destruct H6 as (Hv6 & _ & _ & Himg6 & _).
    split; [done|]. do 2 (split; [done|]).
    split.
    + pose proof (view_length _ _ Hv6) as L6.
      apply node_img_snoc; [done|done| | | |].
      * cbn [e_ptr e]. fold k.
        rewrite D6, D5, D4, D3, D2 by len_lia. exact R1.
      * fold k T. exact R6.
      * fold P. unfold kv_size, kv_bytes. cbn [e_key e_val e].
        replace (4 + length kb + length vb)%nat
          with (2 + (2 + (length kb + length vb)))%nat by lia.
        rewrite !sub_app.
        replace (P + 2 + 2)%nat with (P + 4)%nat by lia.
        f_equal; [|f_equal; [|f_equal]].
        -- rewrite D6, D5, D4, D3 by len_lia. exact R2.
        -- rewrite D6, D5, D4 by len_lia. exact R3.
        -- rewrite D6, D5 by len_lia. exact R4.
        -- rewrite D6 by len_lia. exact R5.
      * fold P. unfold kv_size. cbn [e_key e_val e]. lia.
    + apply Forall_app. split; [done|].
      apply Forall_singleton. repeat split; cbn [e_ptr e_key e_val e];
        unfold BTREE_MAX_KEY_SIZE, BTREE_MAX_VAL_SIZE; lia.
Qed.

(** ** Building a node *)

Lemma valid_base h s : valid h s → (base s < length h)%nat.
Proof. intros (arr & E & _). by eapply lookup_lt_Some. Qed.

Lemma valid_app_l h e s : valid h s → valid (h ++ e) s.
Proof.
  intros (arr & E & ?). exists arr. split; [|done].
  rewrite lookup_app_l; [done|]. by eapply lookup_lt_Some.
Qed.

Lemma entry_of_same b h h' x :
  same_but b h h' → base x.1.2 ≠ b → base x.2 ≠ b →
  entry_of h' x = entry_of h x.
Proof.
  intros S ? ?. unfold entry_of.
  by rewrite !(same_but_view _ _ _ _ S).
Qed.

Lemma item_ok_same b h h' x :
  same_but b h h' → base x.1.2 ≠ b → base x.2 ≠ b →
  item_ok h x → item_ok h' x.
Proof.
  intros S ? ? (? & ? & ?). unfold item_ok.
  rewrite (entry_of_same _ _ _ _ S) by done.
  split; [by eapply same_but_valid|]. split; [by eapply same_but_valid|done].
Qed.

Lemma append_entries_img h nd t n done es :
  holds h nd t n done →
  (length done + length es ≤ n)%nat →
  Forall (item_ok h) es →
  Forall (λ x, base x.1.2 ≠ base nd ∧ base x.2 ≠ base nd) es →
  (node_size n (done ++ (entry_of h <$> es)) ≤ len nd)%nat →
  ∃ h', append_entries nd (Z.of_nat (length done)) es h = (h', Ok tt)
        ∧ holds h' nd t n (done ++ (entry_of h <$> es))
        ∧ same_but (base nd) h h'.
Proof.
  revert h done. induction es as [|[[p k] v] es IH]; intros h done H Hn Hok Hb Hfit.
  - exists h. cbn. rewrite app_nil_r. split; [done|]. split; [done|].
    apply same_but_refl.
  - apply Forall_cons in Hok as [(Hvk & Hvv & Hek) Hok].
    apply Forall_cons in Hb as [[Hbk Hbv] Hb].
    cbn [fst snd] in *. cbn [length] in Hn.
    pose proof H as (_ & Hl & _).
    assert (node_size n done
            + kv_size (mkEntry p (view h k) (view h v)) ≤ len nd)%nat as Hfit1.
    { revert Hfit. unfold node_size. cbn [fmap list_fmap].
      rewrite kv_total_app. cbn [kv_total sum_list_with].
      unfold entry_of at 1. cbn [fst snd]. lia. }
    destruct (nodeAppendKV_img h nd t n done p k v H ltac:(lia)
                Hvk Hvv Hbk Hbv Hek Hfit1) as (h1 & E1 & H1 & S1).
    assert (Forall (item_ok h1) es) as Hok1.
    { rewrite Forall_forall in Hok, Hb |- *. intros x Hx.
      destruct (Hb x Hx). eapply item_ok_same; eauto. }
    assert (entry_of h1 <$> es = entry_of h <$> es) as Ees.
    { apply Forall_fmap_ext_1. rewrite Forall_forall in Hb |- *.
      intros x Hx. destruct (Hb x Hx). by eapply entry_of_same. }
    destruct (IH h1 (done ++ [mkEntry p (view h k) (view h v)]) H1) as (h2 & E2 & H2 & S2).
    + rewrite length_app. cbn [length]. lia.
    + done.
    + done.
    + rewrite Ees, <- app_assoc. exact Hfit.
    + exists h2. split; [|split].
      * cbn [append_entries].
        pose proof (holds_size _ _ _ _ _ H) as Hs. unfold node_size in Hs.
        rewrite u16_small by lia.
        erewrite bind_ok by exact E1.
        rewrite length_app in E2. cbn [length] in E2.
        rewrite Nat2Z.inj_add in E2. exact E2.
      * rewrite Ees, <- app_assoc in H2. exact H2.
      * by eapply same_but_trans.
Qed.

Lemma entry_of_app_l h e x :
  valid h x.1.2 → valid h x.2 → entry_of (h ++ e) x = entry_of h x.
Proof.
  intros Hk Hv. unfold entry_of.
  rewrite !view_app_l by by apply valid_base. done.
Qed.

Lemma valid_fresh h N :
  valid (h ++ [replicate N 0]) (mkSlice (length h) 0 N N).
Proof.
  exists (replicate N 0). cbn. rewrite list_lookup_middle by done.
  rewrite length_replicate. split; [done|lia].
Qed.

(** What [build_node] returns: a node on a new backing array, the arrays
    of the heap before being as they were. *)
Lemma build_node_holds h t es :
  0 ≤ t < 65536 → Forall (item_ok h) es →
  Z.of_nat (node_size (length es) (entry_of h <$> es)) ≤ 2 * BTREE_PAGE_SIZE →
  ∃ h' node,
    build_node t es h = (h', Ok node)
    ∧ holds h' node t (length es) (entry_of h <$> es)
    ∧ base node = length h ∧ length h' = S (length h)
    ∧ len node = Z.to_nat (2 * BTREE_PAGE_SIZE)
    ∧ (∀ b, b ≠ length h → h' !! b = h !! b).
Proof.
  intros Ht Hok Hfit. unfold build_node.
  assert (Z.of_nat (Z.to_nat (2 * BTREE_PAGE_SIZE)) = 8192) as HN
    by (unfold BTREE_PAGE_SIZE; lia).
  unfold BTREE_PAGE_SIZE in Hfit at 1.
  revert HN. generalize (Z.to_nat (2 * BTREE_PAGE_SIZE)) as N. intros N HN.
  rewrite (bind_ok _ _ _ _ _ (make_unfold _ _)).
  set (h0 := h ++ [replicate N 0]). set (nd := mkSlice (length h) 0 N N).
  pose proof (valid_fresh h N) as Hv0. fold h0 nd in Hv0.
  destruct (setHeader_img h0 nd t (length es) Hv0) as (h1 & E1 & H1 & S1);
    [cbn; lia|done|unfold node_size in *; cbn [len nd kv_total sum_list_with]; lia|].
  assert (Forall (λ x : item, base x.1.2 ≠ base nd ∧ base x.2 ≠ base nd) es)
    as Hb.
  { eapply Forall_impl; [exact Hok|]. intros x (Hk & Hv & _).
    apply valid_base in Hk, Hv. cbn. lia. }
  assert (entry_of h1 <$> es = entry_of h <$> es) as Ees.
  { apply Forall_fmap_ext_1. rewrite Forall_forall in Hok, Hb |- *.
    intros x Hx. destruct (Hb x Hx). destruct (Hok x Hx) as (? & ? & _).
    rewrite (entry_of_same _ _ _ _ S1) by done.
    by apply entry_of_app_l. }
  assert (Forall (item_ok h1) es) as Hok1.
  { rewrite Forall_forall in Hok, Hb |- *. intros x Hx.
    destruct (Hb x Hx). destruct (Hok x Hx) as (Hk & Hv & He).
    eapply item_ok_same; [exact S1|done|done|].
    split; [by apply valid_app_l|]. split; [by apply valid_app_l|].
    unfold h0. by rewrite entry_of_app_l. }
  destruct (append_entries_img h1 nd t (length es) [] es H1) as (h2 & E2 & H2 & S2).
  - cbn. lia.
  - done.
  - done.
  - rewrite Ees. cbn [app len nd]. lia.
  - exists h2, nd. rewrite Ees in H2. cbn [app] in H2.
    split; [|split; [done|]].
    + erewrite bind_ok by exact E1.
      cbn [length] in E2. erewrite bind_ok by exact E2. reflexivity.
    + split; [done|]. split; [|split; [done|]].
      * destruct S1 as (L1 & _), S2 as (L2 & _). rewrite L2, L1.
        subst h0. rewrite length_app. cbn. lia.
      * intros b Hb'. destruct S1 as (_ & F1 & _), S2 as (_ & F2 & _).
        cbn [base nd] in F1, F2. rewrite F2, F1 by done.
        subst h0. destruct (decide (b < length h)%nat).
        -- by rewrite lookup_app_l.
        -- rewrite !lookup_ge_None_2; [done|lia|rewrite length_app; cbn; lia].
Qed.

(** C9: a node built by [setHeader] and one [nodeAppendKV] per entry, from
    entries with pointers in 64 bits, keys of at most 1000 and values of
    at most 3000 bytes and an encoded size of at most two pages, decodes
    to these entries: the key count is their number, and [getPtr],
    [getKey] and [getVal] at each index give back the pointer, the key
    bytes and the value bytes of that entry. *)
Theorem build_node_roundtrip h t es :
  0 ≤ t < 65536 → Forall (item_ok h) es →
  Z.of_nat (node_size (length es) (entry_of h <$> es)) ≤ 2 * BTREE_PAGE_SIZE →
  ∃ h' node,
    build_node t es h = (h', Ok node)
    ∧ nkeys node h' = (h', Ok (Z.of_nat (length es)))
    ∧ ∀ i p k v, es !! i = Some (p, k, v) →
        getPtr node (Z.of_nat i) h' = (h', Ok p)
        ∧ (∃ k', getKey node (Z.of_nat i) h' = (h', Ok k')
                 ∧ view h' k' = view h k)
        ∧ (∃ v', getVal node (Z.of_nat i) h' = (h', Ok v')
                 ∧ view h' v' = view h v).
Proof.
  intros Ht Hok Hfit.
  destruct (build_node_holds h t es Ht Hok Hfit) as (h' & nd & E & H & _).
  exists h', nd. split; [done|]. split; [by eapply nkeys_img|].
  intros i p k v He.
  assert ((entry_of h <$> es) !! i = Some (mkEntry p (view h k) (view h v)))
    as He' by (rewrite list_lookup_fmap; rewrite He; reflexivity).
  split; [|split].
  - by rewrite (getPtr_img _ _ _ _ _ H _ _ He').
  - destruct (getKey_img _ _ _ _ _ H _ _ He') as (k' & Ek & Ev & _).
    eauto.
  - destruct (getVal_img _ _ _ _ _ H _ _ He') as (v' & Ek & Ev & _).
    eauto.
Qed.

Lemma sample_items_ok : Forall (item_ok sample_heap) sample_items.
Proof.
  unfold sample_items.
  repeat (apply Forall_cons; split); try by apply Forall_nil.
  all: unfold item_ok, entry_ok, valid; cbn [fst snd].
  all: repeat split;
    try (eexists; split; [reflexivity|cbn; lia]);
    try (cbn; unfold BTREE_MAX_KEY_SIZE, BTREE_MAX_VAL_SIZE; lia).
Qed.

Lemma build_node_roundtrip_witness :
  0 ≤ BNODE_LEAF < 65536 ∧ Forall (item_ok sample_heap) sample_items ∧
  Z.of_nat (node_size (length sample_items)
              (entry_of sample_heap <$> sample_items)) ≤ 2 * BTREE_PAGE_SIZE ∧
  ∃ h' node,
    build_node BNODE_LEAF sample_items sample_heap = (h', Ok node)
    ∧ nkeys node h' = (h', Ok (Z.of_nat (length sample_items)))
    ∧ ∀ i p k v, sample_items !! i = Some (p, k, v) →
        getPtr node (Z.of_nat i) h' = (h', Ok p)
        ∧ (∃ k', getKey node (Z.of_nat i) h' = (h', Ok k')
                 ∧ view h' k' = view sample_heap k)
        ∧ (∃ v', getVal node (Z.of_nat i) h' = (h', Ok v')
                 ∧ view h' v' = view sample_heap v).
Proof.
  assert (0 ≤ BNODE_LEAF < 65536) as H1 by (unfold BNODE_LEAF; lia).
  assert (Z.of_nat (node_size (length sample_items)
            (entry_of sample_heap <$> sample_items)) ≤ 2 * BTREE_PAGE_SIZE)
    as H3 by (cbn; unfold BTREE_PAGE_SIZE; lia).
  exact (conj H1 (conj sample_items_ok (conj H3
    (build_node_roundtrip sample_heap BNODE_LEAF sample_items
       H1 sample_items_ok H3)))).
Defined.

(** ** Copying a range of entries *)

Lemma holds_same_but b h h' nd t n es :
  same_but b h h' → base nd ≠ b → holds h nd t n es → holds h' nd t n es.
Proof.
  intros S Hb (Hv & Hl & Ht & Hi & He).
  split; [by eapply same_but_valid|]. do 2 (split; [done|]).
  split; [|done]. by rewrite (same_but_view _ _ _ _ S Hb).
Qed.

Lemma kv_total_take_mono es i j :
  (i ≤ j)%nat → (kv_total (take i es) ≤ kv_total (take j es))%nat.
Proof.
  intros. replace j with (i + (j - i))%nat by lia.
  rewrite <- take_take_drop, kv_total_app. lia.
Qed.

Lemma entry_eta e : mkEntry (e_ptr e) (e_key e) (e_val e) = e.
Proof. by destruct e. Qed.

Section append_range.
Context (new old : BNode) (t t' : Z) (n no : nat) (eo done : list entry).
Context (src cnt : nat).
Hypothesis Hbase : base new ≠ base old.
Hypothesis Hslots : (length done + cnt ≤ n)%nat.
Hypothesis Hsrc : (src + cnt ≤ length eo)%nat.
Hypothesis Hfit :
  (node_size n (done ++ take cnt (drop src eo)) ≤ len new)%nat.

Lemma nodeAppendRange_loop_img todo i h :
  (i + todo = cnt)%nat →
  holds h old t' no eo →
  holds h new t n (done ++ take i (drop src eo)) →
  ∃ h', nodeAppendRange_loop new old (Z.of_nat (length done))
          (Z.of_nat src) (Z.of_nat cnt) (Z.of_nat i) todo h = (h', Ok tt)
        ∧ holds h' new t n (done ++ take cnt (drop src eo))
        ∧ same_but (base new) h h'.
Proof.
  revert i h. induction todo as [|todo IH]; intros i h Hi Ho Hn.
  - replace i with cnt in * by lia. exists h. cbn [nodeAppendRange_loop].
    rewrite bool_decide_eq_false_2 by lia.
    split; [done|]. split; [done|apply same_but_refl].
  - pose proof (holds_size _ _ _ _ _ Ho) as Hso.
    pose proof (holds_slots _ _ _ _ _ Ho) as Hno.
    pose proof Ho as (_ & Hlo & _ & _ & Heo).
    pose proof Hn as (_ & Hln & _).
    unfold node_size in Hso, Hfit.
    destruct (lookup_lt_is_Some_2 eo (src + i)) as [e He]; [lia|].
    assert (take (S i) (drop src eo) = take i (drop src eo) ++ [e]) as ES
      by (apply take_S_r; by rewrite lookup_drop).
    assert (length (done ++ take i (drop src eo)) = length done + i)%nat as EL
      by (rewrite length_app, length_take, length_drop; lia).
    destruct (getKey_img _ _ _ _ _ Ho _ _ He) as (k & Ek & Vk & Hvk & Bk & _).
    destruct (getVal_img _ _ _ _ _ Ho _ _ He) as (v & Ev & Vv & Hvv & Bv & _).
    destruct (nodeAppendKV_img h new t n (done ++ take i (drop src eo))
                (e_ptr e) k v Hn) as (h1 & E1 & H1 & S1).
    + rewrite EL. lia.
    + done.
    + done.
    + congruence.
    + congruence.
    + rewrite Vk, Vv, entry_eta. by eapply Forall_lookup_1.
    + rewrite Vk, Vv, entry_eta. unfold node_size.
      pose proof (kv_total_take_mono (drop src eo) (S i) cnt ltac:(lia)) as Hm.
      rewrite ES, kv_total_app, kv_total_one in Hm.
      rewrite !kv_total_app in *. lia.
    + rewrite Vk, Vv, entry_eta, <- app_assoc, <- ES in H1.
      destruct (IH (S i) h1) as (h2 & E2 & H2 & S2);
        [lia|by eapply holds_same_but|done|].
      exists h2. split; [|split; [done|by eapply same_but_trans]].
      cbn [nodeAppendRange_loop].
      rewrite bool_decide_eq_true_2 by lia.
      replace (u16 (Z.of_nat src + Z.of_nat i)) with (Z.of_nat (src + i))
        by (rewrite u16_small; lia).
      replace (u16 (Z.of_nat (length done) + Z.of_nat i))
        with (Z.of_nat (length (done ++ take i (drop src eo)))).
      2:{ pose proof (holds_size _ _ _ _ _ Hn) as Hsn.
          unfold node_size in Hsn. rewrite EL, u16_small; lia. }
      erewrite bind_ok by (eapply getPtr_img; done).
      erewrite bind_ok by exact Ek.
      erewrite bind_ok by exact Ev.
      erewrite bind_ok by exact E1.
      replace (u16 (Z.of_nat i + 1)) with (Z.of_nat (S i))
        by (rewrite u16_small; lia).
      exact E2.
Qed.

Lemma nodeAppendRange_img h :
  holds h old t' no eo → holds h new t n done →
  ∃ h', nodeAppendRange new old (Z.of_nat (length done)) (Z.of_nat src)
          (Z.of_nat cnt) h = (h', Ok tt)
        ∧ holds h' new t n (done ++ take cnt (drop src eo))
        ∧ same_but (base new) h h'.
Proof.
  intros Ho Hn. unfold nodeAppendRange. rewrite Nat2Z.id.
  apply (nodeAppendRange_loop_img cnt 0); [lia|done|].
  cbn [take]. by rewrite app_nil_r.
Qed.
End append_range.

(** ** The split point *)

Lemma kv_total_take_drop es k :
  kv_total es = (kv_total (take k es) + kv_total (drop k es))%nat.
Proof. by rewrite <- kv_total_app, take_drop. Qed.

Lemma entry_ok_size e : entry_ok e → (kv_size e ≤ 4004)%nat.
Proof.
  intros (_ & Hk & Hv). unfold kv_size, BTREE_MAX_KEY_SIZE, BTREE_MAX_VAL_SIZE in *.
  lia.
Qed.

Lemma lbytes_0 es : lbytes es 0 = 4%nat.
Proof. reflexivity. Qed.

Lemma rbytes_all es : rbytes es (length es) = 4%nat.
Proof.
  unfold rbytes, node_size. rewrite drop_all, Nat.sub_diag. reflexivity.
Qed.

Lemma lbytes_1 es : Forall entry_ok es → (lbytes es 1 ≤ 4018)%nat.
Proof.
  intros Hes. unfold lbytes, node_size. destruct es as [|e es]; cbn [take].
  - cbn. lia.
  - apply Forall_cons in Hes as [He _]. apply entry_ok_size in He.
    rewrite kv_total_one. lia.
Qed.

Lemma rbytes_last es :
  Forall entry_ok es → (1 ≤ length es)%nat →
  (rbytes es (length es - 1) ≤ 4018)%nat.
Proof.
  intros Hes Hn. unfold rbytes, node_size.
  destruct (lookup_lt_is_Some_2 es (length es - 1)) as [e He]; [lia|].
  pose proof (Forall_lookup_1 _ _ _ _ Hes He) as Hok.
  apply entry_ok_size in Hok.
  rewrite (drop_S _ _ _ He).
  replace (S (length es - 1)) with (length es) by lia.
  rewrite drop_all, kv_total_one. lia.
Qed.

Lemma fit_left_n_le es k : (fit_left_n es k ≤ k)%nat.
Proof.
  induction k as [|k IH]; cbn [fit_left_n]; case_bool_decide; lia.
Qed.

Lemma fit_left_n_fits es k :
  Z.of_nat (lbytes es (fit_left_n es k)) ≤ BTREE_PAGE_SIZE.
Proof.
  induction k as [|k IH]; cbn [fit_left_n]; case_bool_decide; try lia.
  rewrite lbytes_0. unfold BTREE_PAGE_SIZE. lia.
Qed.

Lemma fit_left_n_pos es k :
  Forall entry_ok es → (1 ≤ k)%nat → (1 ≤ fit_left_n es k)%nat.
Proof.
  intros Hes. induction k as [|k IH]; intros Hk; [lia|].
  cbn [fit_left_n]. case_bool_decide as Hb; [|lia].
  apply IH. destruct k; [|lia].
  pose proof (lbytes_1 es Hes). unfold BTREE_PAGE_SIZE in Hb. lia.
Qed.

Lemma fit_right_n_spec es m k :
  (k + m = length es)%nat →
  let k2 := fit_right_n m es k in
  (k ≤ k2 ≤ length es)%nat
  ∧ Z.of_nat (rbytes es k2) ≤ BTREE_PAGE_SIZE
  ∧ ((k < k2)%nat → Z.of_nat (rbytes es (k2 - 1)) > BTREE_PAGE_SIZE).
Proof.
  revert k. induction m as [|m IH]; intros k Hk; cbn [fit_right_n].
  - replace k with (length es) by lia. rewrite rbytes_all.
    rewrite bool_decide_eq_false_2 by (unfold BTREE_PAGE_SIZE; lia).
    cbv zeta. rewrite rbytes_all. unfold BTREE_PAGE_SIZE. lia.
  - case_bool_decide as Hb.
    + destruct (IH (S k) ltac:(lia)) as (H1 & H2 & H3). cbv zeta.
      split; [lia|]. split; [done|]. intros Hlt.
      destruct (decide (S k < fit_right_n m es (S k))%nat) as [Hd|Hd].
      * by apply H3.
      * replace (fit_right_n m es (S k) - 1)%nat with k by lia. done.
    + cbv zeta. split; [lia|]. split; [lia|lia].
Qed.

Lemma fit_right_n_last es m k :
  Forall entry_ok es → (k + m = length es)%nat → (1 ≤ m)%nat →
  (fit_right_n m es k ≤ length es - 1)%nat.
Proof.
  intros Hes. revert k. induction m as [|m IH]; intros k Hk Hm; [lia|].
  cbn [fit_right_n]. case_bool_decide as Hb; [|lia].
  destruct m as [|m].
  - exfalso. pose proof (rbytes_last es Hes ltac:(lia)) as Hl.
    replace (length es - 1)%nat with k in Hl by lia.
    unfold BTREE_PAGE_SIZE in Hb. lia.
  - apply IH; lia.
Qed.

Section split_eval.
Context (h : Heap) (old : BNode) (t : Z) (es : list entry).
Hypothesis H : holds h old t (length es) es.

Lemma left_bytes_img k :
  (k ≤ length es)%nat →
  left_bytes old (Z.of_nat k) h = (h, Ok (Z.of_nat (lbytes es k))).
Proof.
  intros Hk. pose proof (holds_size _ _ _ _ _ H) as Hs.
  pose proof H as (_ & Hl & _).
  pose proof (kv_total_take_le es k) as Hle. unfold node_size in Hs.
  unfold left_bytes. erewrite bind_ok by (eapply getOffset_img; done).
  rewrite ret_unfold. do 2 f_equal.
  unfold lbytes, node_size. rewrite u16_small; lia.
Qed.

Lemma right_bytes_img k :
  (k ≤ length es)%nat →
  right_bytes old (Z.of_nat k) h = (h, Ok (Z.of_nat (rbytes es k))).
Proof.
  intros Hk. pose proof (holds_size _ _ _ _ _ H) as Hs.
  pose proof H as (_ & Hl & _).
  pose proof (kv_total_take_drop es k) as Htd. unfold node_size in Hs.
  unfold right_bytes. erewrite bind_ok by (eapply nbytes_img; done).
  erewrite bind_ok by (by apply left_bytes_img).
  rewrite ret_unfold. do 2 f_equal.
  unfold lbytes, rbytes, node_size. rewrite u16_small; lia.
Qed.

Lemma fit_left_eval fuel k :
  (k ≤ length es)%nat → (k ≤ fuel)%nat →
  fit_left fuel old (Z.of_nat k) h = (h, Ok (Z.of_nat (fit_left_n es k))).
Proof.
  revert fuel. induction k as [|k IH]; intros fuel Hk Hf.
  - destruct fuel; cbn [fit_left fit_left_n];
      (erewrite bind_ok by (by apply left_bytes_img));
      rewrite bool_decide_eq_false_2
        by (rewrite lbytes_0; unfold BTREE_PAGE_SIZE; lia);
      reflexivity.
  - destruct fuel as [|fuel]; [lia|]. cbn [fit_left fit_left_n].
    erewrite bind_ok by (by apply left_bytes_img).
    case_bool_decide; [|reflexivity].
    replace (u16 (Z.of_nat (S k) - 1)) with (Z.of_nat k).
    + apply IH; lia.
    + pose proof (holds_size _ _ _ _ _ H) as Hs.
      pose proof H as (_ & Hl & _). unfold node_size in Hs.
      rewrite u16_small; lia.
Qed.

Lemma fit_right_eval fuel m k :
  (k + m = length es)%nat → (m ≤ fuel)%nat →
  fit_right fuel old (Z.of_nat k) h
  = (h, Ok (Z.of_nat (fit_right_n m es k))).
Proof.
  revert fuel k. induction m as [|m IH]; intros fuel k Hk Hf.
  - replace k with (length es) by lia.
    destruct fuel; cbn [fit_right fit_right_n];
      (erewrite bind_ok by (by apply right_bytes_img));
      rewrite rbytes_all;
      rewrite !bool_decide_eq_false_2 by (unfold BTREE_PAGE_SIZE; lia);
      reflexivity.
  - destruct fuel as [|fuel]; [lia|]. cbn [fit_right fit_right_n].
    erewrite bind_ok by (apply right_bytes_img; lia).
    case_bool_decide; [|reflexivity].
    replace (u16 (Z.of_nat k + 1)) with (Z.of_nat (S k)).
    + apply IH; lia.
    + pose proof (holds_size _ _ _ _ _ H) as Hs.
      pose proof H as (_ & Hl & _). unfold node_size in Hs.
      rewrite u16_small; lia.
Qed.
End split_eval.

(** ** Splitting in two *)

Lemma split_point_range es :
  Forall entry_ok es → (2 ≤ length es)%nat →
  (1 ≤ fit_left_n es (length es / 2) ≤ length es / 2)%nat
  ∧ (1 ≤ split_point es ≤ length es - 1)%nat
  ∧ (fit_left_n es (length es / 2) ≤ split_point es)%nat
  ∧ Z.of_nat (rbytes es (split_point es)) ≤ BTREE_PAGE_SIZE
  ∧ (Z.of_nat (lbytes es (split_point es)) > BTREE_PAGE_SIZE →
     Z.of_nat (rbytes es (split_point es - 1)) > BTREE_PAGE_SIZE).
Proof.
  intros Hes Hn. unfold split_point. cbv zeta.
  set (k1 := fit_left_n es (length es / 2)).
  assert (1 ≤ length es / 2)%nat as Hh
    by (apply Nat.div_le_lower_bound; lia).
  assert (length es / 2 < length es)%nat as Hh2
    by (apply Nat.div_lt; lia).
  pose proof (fit_left_n_le es (length es / 2)) as Hle. fold k1 in Hle.
  pose proof (fit_left_n_pos es (length es / 2) Hes Hh) as Hpos. fold k1 in Hpos.
  pose proof (fit_left_n_fits es (length es / 2)) as Hfits. fold k1 in Hfits.
  destruct (fit_right_n_spec es (length es - k1) k1 ltac:(lia)) as (H1 & H2 & H3).
  pose proof (fit_right_n_last es (length es - k1) k1 Hes ltac:(lia) ltac:(lia)).
  split; [lia|]. split; [lia|]. split; [lia|]. split; [done|].
  intros Hbig. apply H3.
  destruct (decide (k1 < fit_right_n (length es - k1) es k1)%nat); [done|].
  replace (fit_right_n (length es - k1) es k1) with k1 in Hbig by lia. lia.
Qed.

Lemma nodeSplit2_img fuel h left right old t es :
  holds h old t (length es) es → (2 ≤ length es)%nat → (length es ≤ fuel)%nat →
  valid h left → valid h right →
  base left ≠ base old → base right ≠ base old → base left ≠ base right →
  Z.of_nat (len left) < 65536 → Z.of_nat (len right) < 65536 →
  (lbytes es (split_point es) ≤ len left)%nat →
  (rbytes es (split_point es) ≤ len right)%nat →
  ∃ h', nodeSplit2 fuel left right old h = (h', Ok tt)
    ∧ holds h' left t (split_point es) (take (split_point es) es)
    ∧ holds h' right t (length es - split_point es) (drop (split_point es) es)
    ∧ holds h' old t (length es) es
    ∧ length h' = length h
    ∧ (∀ b, b ≠ base left → b ≠ base right → h' !! b = h !! b).
Proof.
  intros H Hn Hfuel Hvl Hvr Hlo Hro Hlr Hll Hlr' Hfl Hfr.
  pose proof H as (_ & Hlold & Ht & _ & Hes).
  pose proof (holds_size _ _ _ _ _ H) as Hs. unfold node_size in Hs.
  destruct (split_point_range es Hes Hn) as (Hk1 & Hk & Hk1k & Hrfit & _).
  set (k := split_point es) in *.
  set (k1 := fit_left_n es (length es / 2)) in *.
  set (n := length es) in *.
  unfold lbytes, rbytes in Hfl, Hfr. fold n in Hfr.
  assert (n / 2 < n)%nat as Hhalf by (apply Nat.div_lt; lia).
  pose proof (not_eq_sym Hlo) as Hol. pose proof (not_eq_sym Hro) as Hor.
  pose proof (not_eq_sym Hlr) as Hrl.
  (* the headers *)
  destruct (setHeader_img h left t k Hvl) as (h1 & E1 & L1 & S1);
    [done|done|unfold node_size in *; cbn [kv_total sum_list_with]; lia|].
  pose proof (holds_same_but _ _ _ _ _ _ _ S1 Hol H) as O1.
  destruct (setHeader_img h1 right t (n - k)) as (h2 & E2 & R2 & S2);
    [by eapply same_but_valid|done|done
    |unfold node_size in *; cbn [kv_total sum_list_with]; lia|].
  pose proof (holds_same_but _ _ _ _ _ _ _ S2 Hor O1) as O2.
  pose proof (holds_same_but _ _ _ _ _ _ _ S2 Hlr L1) as L2.
  (* the two ranges *)
  destruct (nodeAppendRange_img left old t t k n es [] 0 k) with (h := h2)
    as (h3 & E3 & L3 & S3); [congruence|cbn; lia|lia| |done|done|].
  { cbn [app]. by rewrite drop_0. }
  cbn [app] in L3. rewrite drop_0 in L3.
  pose proof (holds_same_but _ _ _ _ _ _ _ S3 Hol O2) as O3.
  pose proof (holds_same_but _ _ _ _ _ _ _ S3 Hrl R2) as R3.
  assert (take (n - k) (drop k es) = drop k es) as Etk
    by (apply take_ge; rewrite length_drop; lia).
  destruct (nodeAppendRange_img right old t t (n - k) n es [] k (n - k))
    with (h := h3) as (h4 & E4 & R4 & S4);
    [congruence|cbn; lia|lia| |done|done|].
  { cbn [app]. by rewrite Etk. }
  cbn [app] in R4. rewrite Etk in R4.
  pose proof (holds_same_but _ _ _ _ _ _ _ S4 Hor O3) as O4.
  pose proof (holds_same_but _ _ _ _ _ _ _ S4 Hlr L3) as L4.
  exists h4. split; [|split; [done|split; [done|split; [done|split]]]].
  - unfold nodeSplit2.
    rewrite (bind_ok _ _ _ _ _ (nkeys_img _ _ _ _ _ H)). fold n.
    rewrite bool_decide_eq_false_2 by lia. rewrite bind_ret.
    rewrite (bind_ok _ _ _ _ _ (nkeys_img _ _ _ _ _ H)). fold n.
    replace (Z.of_nat n `div` 2) with (Z.of_nat (n / 2))
      by (rewrite Nat2Z.inj_div; done).
    erewrite bind_ok by (eapply fit_left_eval; [done|lia|lia]). fold k1.
    rewrite bool_decide_eq_false_2 by lia. rewrite bind_ret.
    erewrite bind_ok
      by (eapply (fit_right_eval _ _ _ _ H fuel (n - k1) k1); lia).
    change (fit_right_n (n - k1) es k1) with k.
    rewrite (bind_ok _ _ _ _ _ (nkeys_img _ _ _ _ _ H)). fold n.
    rewrite bool_decide_eq_false_2 by lia. rewrite bind_ret.
    rewrite (bind_ok _ _ _ _ _ (nkeys_img _ _ _ _ _ H)). fold n.
    replace (u16 (Z.of_nat n - Z.of_nat k)) with (Z.of_nat (n - k))
      by (rewrite u16_small; lia).
    rewrite (bind_ok _ _ _ _ _ (btype_img _ _ _ _ _ H)).
    erewrite bind_ok by exact E1.
    rewrite (bind_ok _ _ _ _ _ (btype_img _ _ _ _ _ O1)).
    erewrite bind_ok by exact E2.
    erewrite bind_ok by exact E3.
    erewrite bind_ok by exact E4.
    erewrite bind_ok by (eapply nbytes_img; [exact R4|]; rewrite length_drop; done).
    unfold require. rewrite bool_decide_eq_true_2; [reflexivity|].
    unfold rbytes in Hrfit. fold n in Hrfit. done.
  - destruct S1 as (A1 & _), S2 as (A2 & _), S3 as (A3 & _), S4 as (A4 & _).
    congruence.
  - intros b Hb1 Hb2.
    destruct S1 as (_ & F1 & _), S2 as (_ & F2 & _),
             S3 as (_ & F3 & _), S4 as (_ & F4 & _).
    rewrite F4, F3, F2, F1 by done. done.
Qed.

Lemma holds_app_l h e nd t n es : holds h nd t n es → holds (h ++ e) nd t n es.
Proof.
  intros (Hv & Hl & Ht & Hi & He).
  split; [by apply valid_app_l|]. do 2 (split; [done|]).
  split; [|done]. rewrite view_app_l; [done|by apply valid_base].
Qed.

Lemma lbytes_le es k :
  (k ≤ length es)%nat → (lbytes es k ≤ node_size (length es) es)%nat.
Proof.
  intros. unfold lbytes, node_size. pose proof (kv_total_take_le es k). lia.
Qed.

Lemma rbytes_le es k :
  (k ≤ length es)%nat → (rbytes es k ≤ node_size (length es) es)%nat.
Proof.
  intros. unfold rbytes, node_size.
  pose proof (kv_total_take_drop es k). lia.
Qed.

Lemma split2_built_eval fuel h t es :
  0 ≤ t < 65536 → Forall (item_ok h) es → (2 ≤ length es)%nat →
  Z.of_nat (node_size (length es) (entry_of h <$> es)) ≤ 2 * BTREE_PAGE_SIZE →
  (length es ≤ fuel)%nat →
  let es' := entry_of h <$> es in
  let k := split_point es' in
  ∃ h', split2_built fuel t es h
        = (h', Ok (Z.of_nat k, Z.of_nat (length es - k),
                   Z.of_nat (lbytes es' k), Z.of_nat (rbytes es' k))).
Proof.
  intros Ht Hok Hn Hfit Hfuel es' k.
  destruct (build_node_holds h t es Ht Hok Hfit)
    as (h1 & old & E1 & H1 & Bo & L1 & Lo & _).
  fold es' in H1, Hfit.
  assert (length es' = length es) as Les by (subst es'; apply length_fmap).
  rewrite <- Les in H1, Hfit, Hn, Hfuel. rewrite <- Les.
  pose proof H1 as (_ & _ & _ & _ & Hes).
  destruct (split_point_range es' Hes Hn) as (_ & Hk & _ & Hrfit & _).
  fold k in Hk, Hrfit.
  unfold split2_built. erewrite bind_ok by exact E1.
  assert (Z.of_nat (Z.to_nat (2 * BTREE_PAGE_SIZE)) = 8192) as HN
    by (unfold BTREE_PAGE_SIZE; lia).
  unfold BTREE_PAGE_SIZE in Hfit at 1.
  revert HN Lo. generalize (Z.to_nat (2 * BTREE_PAGE_SIZE)) as N. intros N HN Lo.
  rewrite (bind_ok _ _ _ _ _ (make_unfold _ _)).
  rewrite (bind_ok _ _ _ _ _ (make_unfold _ _)).
  set (h2 := h1 ++ [replicate N 0]). set (h3 := h2 ++ [replicate N 0]).
  set (left := mkSlice (length h1) 0 N N).
  set (right := mkSlice (length h2) 0 N N).
  assert (length h2 = S (length h1)) as L2
    by (subst h2; rewrite length_app; cbn; lia).
  pose proof (lbytes_le es' k ltac:(lia)).
  pose proof (rbytes_le es' k ltac:(lia)).
  destruct (nodeSplit2_img fuel h3 left right old t es')
    as (h4 & E4 & HL & HR & HO & _).
  - by do 2 apply holds_app_l.
  - exact Hn.
  - exact Hfuel.
  - apply valid_app_l, valid_fresh.
  - apply valid_fresh.
  - cbn [base left]. lia.
  - cbn [base right]. lia.
  - cbn [base left right]. lia.
  - cbn [len left]. lia.
  - cbn [len right]. lia.
  - fold k. cbn [len left]. lia.
  - fold k. cbn [len right]. lia.
  - fold k in HL, HR.
    exists h4. erewrite bind_ok by exact E4.
    rewrite (bind_ok _ _ _ _ _ (nkeys_img _ _ _ _ _ HL)).
    rewrite (bind_ok _ _ _ _ _ (nkeys_img _ _ _ _ _ HR)).
    erewrite bind_ok
      by (eapply nbytes_img; [exact HL|]; rewrite length_take; lia).
    erewrite bind_ok
      by (eapply nbytes_img; [exact HR|]; rewrite length_drop; lia).
    reflexivity.
Qed.

(** C6: on a node built from at least two entries within the key and
    value limits and of an encoded size of at most two pages, [nodeSplit2]
    (run with enough loop budget, into two buffers of two pages) returns
    without reaching a fatal branch; the left node holds [nleft] entries
    with [1 <= nleft <= keyCount], the right node the other ones, and the
    right node takes at most one page. *)
Theorem nodeSplit2_right_fits fuel h t es :
  0 ≤ t < 65536 → Forall (item_ok h) es → (2 ≤ length es)%nat →
  Z.of_nat (node_size (length es) (entry_of h <$> es)) ≤ 2 * BTREE_PAGE_SIZE →
  (length es ≤ fuel)%nat →
  ∃ h' nleft nright lb rb,
    split2_built fuel t es h = (h', Ok (nleft, nright, lb, rb))
    ∧ 1 ≤ nleft ≤ Z.of_nat (length es)
    ∧ nleft + nright = Z.of_nat (length es)
    ∧ rb ≤ BTREE_PAGE_SIZE.
Proof.
  intros Ht Hok Hn Hfit Hfuel.
  destruct (split2_built_eval fuel h t es Ht Hok Hn Hfit Hfuel) as (h' & E).
  cbv zeta in E.
  assert (Forall entry_ok (entry_of h <$> es)) as Hes.
  { apply Forall_fmap. eapply Forall_impl; [exact Hok|]. by intros x (_ & _ & ?). }
  destruct (split_point_range (entry_of h <$> es) Hes) as (_ & Hk & _ & Hr & _);
    [by rewrite length_fmap|].
  rewrite length_fmap in Hk.
  eexists h', _, _, _, _. split; [exact E|]. split; [lia|]. split; [lia|done].
Qed.

Lemma nodeSplit2_right_fits_witness :
  0 ≤ BNODE_LEAF < 65536 ∧ Forall (item_ok sample_heap) sample_items ∧
  (2 ≤ length sample_items)%nat ∧
  Z.of_nat (node_size (length sample_items)
              (entry_of sample_heap <$> sample_items)) ≤ 2 * BTREE_PAGE_SIZE ∧
  (length sample_items ≤ 2)%nat ∧
  ∃ h' nleft nright lb rb,
    split2_built 2 BNODE_LEAF sample_items sample_heap
      = (h', Ok (nleft, nright, lb, rb))
    ∧ 1 ≤ nleft ≤ Z.of_nat (length sample_items)
    ∧ nleft + nright = Z.of_nat (length sample_items)
    ∧ rb ≤ BTREE_PAGE_SIZE.
Proof.
  assert (0 ≤ BNODE_LEAF < 65536) as H1 by (unfold BNODE_LEAF; lia).
  assert (2 ≤ length sample_items)%nat as H2 by (cbn; lia).
  assert (Z.of_nat (node_size (length sample_items)
            (entry_of sample_heap <$> sample_items)) ≤ 2 * BTREE_PAGE_SIZE)
    as H3 by (cbn; unfold BTREE_PAGE_SIZE; lia).
  assert (length sample_items ≤ 2)%nat as H4 by (cbn; lia).
  exact (conj H1 (conj sample_items_ok (conj H2 (conj H3 (conj H4
    (nodeSplit2_right_fits 2 sample_heap BNODE_LEAF sample_items
       H1 sample_items_ok H2 H3 H4)))))).
Defined.

(** ** Splitting in up to three *)

Lemma sub_take v m p l : (p + l ≤ m)%nat → sub (take m v) p l = sub v p l.
Proof.
  intros. unfold sub.
  rewrite (take_drop_commute (take m v)), take_take, Nat.min_l by lia.
  by rewrite <- take_drop_commute.
Qed.

Lemma node_img_take v t n es m :
  node_img v t n es → (node_size n es ≤ m)%nat → node_img (take m v) t n es.
Proof.
  intros (Ht & Hn & Hk & Hp & Ho & Hkv & Hs) Hm. unfold node_size in *.
  pose proof (kv_total_lookup es) as Hsum.
  repeat split.
  - rewrite sub_take by lia. done.
  - rewrite sub_take by lia. done.
  - done.
  - intros i e He. pose proof (lookup_lt_Some _ _ _ He).
    rewrite sub_take by lia. by apply Hp.
  - intros i Hi. rewrite sub_take by lia. by apply Ho.
  - intros i e He. pose proof (Hsum _ _ He).
    rewrite sub_take by lia. by apply Hkv.
  - unfold node_size. rewrite length_take. lia.
Qed.

(** [nd[:m]] holds the node that [nd] holds, if it reaches that far. *)
Lemma holds_truncate h nd t n es m :
  holds h nd t n es → (node_size n es ≤ m)%nat → (m ≤ len nd)%nat →
  holds h (mkSlice (base nd) (off nd) m (cap nd)) t n es.
Proof.
  intros (Hv & Hl & Ht & Hi & He) Hs Hm.
  pose proof Hv as (arr & Harr & ? & ?).
  split; [exists arr; cbn; split; [done|lia]|].
  split; [cbn; lia|]. split; [done|]. split; [|done].
  rewrite (view_sub _ _ _ Harr) in Hi.
  rewrite (view_sub _ _ arr) by done. cbn [off len].
  replace (sub arr (off nd) m) with (take m (sub arr (off nd) (len nd))).
  - by apply node_img_take.
  - unfold sub. rewrite take_take. f_equal. lia.
Qed.

Lemma holds_frame h h' nd t n es :
  h' !! base nd = h !! base nd → holds h nd t n es → holds h' nd t n es.
Proof.
  intros E (Hv & Hl & Ht & Hi & He).
  split; [|do 2 (split; [done|]); split; [|done]].
  - destruct Hv as (arr & ? & ?). exists arr. by rewrite E.
  - unfold view, rd in *. by rewrite E.
Qed.

Lemma keys_from_img h nd t n es i m :
  holds h nd t n es → (i + m ≤ length es)%nat →
  keys_from nd (Z.of_nat i) m h
  = (h, Ok (e_key <$> take m (drop i es))).
Proof.
  intros H. revert i. induction m as [|m IH]; intros i Hi; [done|].
  destruct (lookup_lt_is_Some_2 es i) as [e He]; [lia|].
  destruct (getKey_img _ _ _ _ _ H _ _ He) as (k & Ek & Vk & _).
  cbn [keys_from]. erewrite bind_ok by exact Ek.
  unfold bytes_of at 1. rewrite bind_unfold, Vk.
  replace (Z.of_nat i + 1) with (Z.of_nat (S i)) by lia.
  erewrite bind_ok by (apply IH; lia).
  rewrite (drop_S _ _ _ He). reflexivity.
Qed.

Lemma keys_of_img h nd t es :
  holds h nd t (length es) es → keys_of nd h = (h, Ok (e_key <$> es)).
Proof.
  intros H. unfold keys_of.
  rewrite (bind_ok _ _ _ _ _ (nkeys_img _ _ _ _ _ H)), Nat2Z.id.
  rewrite (keys_from_img _ _ _ _ _ 0 _ H) by lia.
  by rewrite drop_0, take_ge by lia.
Qed.

(** Of a node of at most [2 * 4096 - 3] bytes the left half of the first
    split, if it is too big, is split into two halves that both fit. *)
Lemma second_split_fits es :
  Forall entry_ok es → (2 ≤ length es)%nat →
  Z.of_nat (node_size (length es) es) ≤ 2 * BTREE_PAGE_SIZE - 3 →
  Z.of_nat (lbytes es (split_point es)) > BTREE_PAGE_SIZE →
  let es2 := take (split_point es) es in
  (2 ≤ length es2)%nat
  ∧ Z.of_nat (lbytes es2 (split_point es2)) ≤ BTREE_PAGE_SIZE
  ∧ Z.of_nat (rbytes es2 (split_point es2)) ≤ BTREE_PAGE_SIZE.
Proof.
  intros Hes Hn Hsize Hbig es2.
  destruct (split_point_range es Hes Hn) as (_ & Hk & _ & _ & Hmoved).
  specialize (Hmoved Hbig).
  set (k := split_point es) in *.
  assert (length es2 = k) as Lk by (subst es2; rewrite length_take; lia).
  pose proof (lbytes_1 es Hes) as H1.
  unfold BTREE_PAGE_SIZE in *.
  assert (2 ≤ k)%nat as Hk2.
  { destruct (decide (k = 1)%nat) as [E|]; [|lia]. rewrite E in Hbig. lia. }
  assert (Forall entry_ok es2) as Hes2 by (by apply Forall_take).
  destruct (split_point_range es2 Hes2 ltac:(lia)) as (_ & Hk' & _ & Hr' & _).
  unfold BTREE_PAGE_SIZE in *.
  set (k' := split_point es2) in *.
  split; [lia|]. split; [|done].
  unfold lbytes, rbytes, node_size in *.
  assert (take k' es2 = take k' es) as ->
    by (subst es2; rewrite take_take; f_equal; lia).
  pose proof (kv_total_take_drop es (k - 1)) as Htd.
  pose proof (kv_total_take_mono es k' (k - 1) ltac:(lia)) as Hmono.
  lia.
Qed.

Lemma node_size_small es :
  Forall entry_ok es → (length es ≤ 1)%nat →
  (node_size (length es) es ≤ 4018)%nat.
Proof.
  intros Hes Hn. destruct es as [|e [|e' es]]; cbn [length] in *; try lia.
  - unfold node_size. cbn. lia.
  - pose proof (lbytes_1 [e] Hes) as H. unfold lbytes in H. by cbn [take] in H.
Qed.

Lemma nodeSplit3_img fuel h old t es :
  holds h old t (length es) es →
  (Z.to_nat BTREE_PAGE_SIZE ≤ len old)%nat →
  Z.of_nat (node_size (length es) es) ≤ 2 * BTREE_PAGE_SIZE - 3 →
  (length es ≤ fuel)%nat →
  ∃ h' nsplit split parts,
    nodeSplit3 fuel old h = (h', Ok (Z.of_nat nsplit, split))
    ∧ Forall2 (page_holds h' t) (take nsplit split) parts
    ∧ concat parts = es
    ∧ (Z.of_nat (node_size (length es) es) ≤ BTREE_PAGE_SIZE →
       nsplit = 1%nat ∧ h' = h
       ∧ split = [mkSlice (base old) (off old) (Z.to_nat BTREE_PAGE_SIZE) (cap old);
                  nil_slice; nil_slice])
    ∧ (Z.of_nat (node_size (length es) es) > BTREE_PAGE_SIZE →
       nsplit = 2%nat ∨ nsplit = 3%nat).
Proof.
  intros H Hlen Hsize Hfuel.
  pose proof H as (Hv & Hl & Ht & _ & Hes).
  pose proof Hv as (arr & Harr & Hcap & Hlc).
  pose proof (valid_base _ _ Hv) as Hbo.
  unfold nodeSplit3. erewrite bind_ok by (by eapply nbytes_img).
  assert (Z.of_nat (Z.to_nat (2 * BTREE_PAGE_SIZE)) = 8192) as HN
    by (unfold BTREE_PAGE_SIZE; lia).
  assert (Z.of_nat (Z.to_nat BTREE_PAGE_SIZE) = 4096) as HP
    by (unfold BTREE_PAGE_SIZE; lia).
  assert (BTREE_PAGE_SIZE = 4096) as EPG by reflexivity.
  revert HN HP Hlen.
  generalize (Z.to_nat (2 * BTREE_PAGE_SIZE)) as N.
  generalize (Z.to_nat BTREE_PAGE_SIZE) as P. intros P N HN HP Hlen.
  destruct (decide (Z.of_nat (node_size (length es) es) ≤ BTREE_PAGE_SIZE))
    as [Hsmall|Hbig].
  { (* one node *)
    rewrite bool_decide_eq_true_2 by done.
    unfold sl_to. rewrite bool_decide_eq_true_2 by lia. rewrite bind_ret.
    replace (Z.to_nat BTREE_PAGE_SIZE) with P by lia.
    exists h, 1%nat. eexists. exists [es].
    split; [reflexivity|]. split; [|split; [|split; [done|lia]]].
    - cbn [take]. apply Forall2_cons; split; [|by apply Forall2_nil].
      split; [|done]. apply holds_truncate; [done|lia|lia].
    - cbn. by rewrite app_nil_r. }
  rewrite bool_decide_eq_false_2 by done.
  assert (2 ≤ length es)%nat as Hn.
  { destruct (decide (length es ≤ 1)%nat) as [Hle|]; [|lia].
    pose proof (node_size_small es Hes Hle). lia. }
  destruct (split_point_range es Hes Hn) as (_ & Hk & _ & Hrfit & _).
  set (k := split_point es) in *.
  rewrite (bind_ok _ _ _ _ _ (make_unfold _ _)).
  rewrite (bind_ok _ _ _ _ _ (make_unfold _ _)).
  set (h1 := h ++ [replicate N 0]). set (h2 := h1 ++ [replicate N 0]).
  set (left := mkSlice (length h) 0 N N).
  set (right := mkSlice (length h1) 0 N N).
  assert (length h1 = S (length h)) as L1
    by (subst h1; rewrite length_app; cbn; lia).
  assert (length h2 = S (length h1)) as L2
    by (subst h2; rewrite length_app; cbn; lia).
  pose proof (lbytes_le es k ltac:(lia)) as Hlle.
  pose proof (rbytes_le es k ltac:(lia)) as Hrle.
  destruct (nodeSplit2_img fuel h2 left right old t es)
    as (h3 & E3 & HL & HR & HO & L3 & F3).
  { by do 2 apply holds_app_l. }
  { exact Hn. }
  { exact Hfuel. }
  { apply valid_app_l, valid_fresh. }
  { apply valid_fresh. }
  { cbn [base left]. lia. }
  { cbn [base right]. lia. }
  { cbn [base left right]. lia. }
  { cbn [len left]. lia. }
  { cbn [len right]. lia. }
  { fold k. cbn [len left]. lia. }
  { fold k. cbn [len right]. lia. }
  fold k in HL, HR.
  erewrite bind_ok by exact E3.
  erewrite bind_ok by (eapply nbytes_img; [exact HL|]; rewrite length_take; lia).
  change (node_size k (take k es)) with (lbytes es k).
  destruct (decide (Z.of_nat (lbytes es k) ≤ BTREE_PAGE_SIZE)) as [Hlfit|Hlbig].
  { (* two nodes *)
    rewrite bool_decide_eq_true_2 by done.
    unfold sl_to. rewrite bool_decide_eq_true_2 by (cbn [cap left]; lia).
    rewrite bind_ret. cbn [base off cap left].
    replace (Z.to_nat BTREE_PAGE_SIZE) with P by lia.
    exists h3, 2%nat. eexists. exists [take k es; drop k es].
    split; [reflexivity|]. split; [|split; [|split; [lia|auto]]].
    - cbn [take].
      apply Forall2_cons; split; [|apply Forall2_cons; split; [|by apply Forall2_nil]].
      + split; rewrite length_take, Nat.min_l by lia; [|done].
        apply (holds_truncate h3 left); [done|unfold lbytes in *; lia|cbn; lia].
      + split; rewrite length_drop; [done|]. unfold rbytes in Hrfit. done.
    - cbn. by rewrite app_nil_r, take_drop. }
  (* three nodes *)
  rewrite bool_decide_eq_false_2 by done.
  assert (Z.of_nat (lbytes es k) > BTREE_PAGE_SIZE) as Hlb by lia.
  destruct (second_split_fits es Hes Hn Hsize Hlb) as (Hn2 & Hllfit & Hmfit).
  fold k in Hn2, Hllfit, Hmfit.
  set (es2 := take k es) in *. set (k' := split_point es2) in *.
  assert (length es2 = k) as Les2 by (subst es2; rewrite length_take; lia).
  rewrite (bind_ok _ _ _ _ _ (make_unfold _ _)).
  rewrite (bind_ok _ _ _ _ _ (make_unfold _ _)).
  set (h4 := h3 ++ [replicate P 0]). set (h5 := h4 ++ [replicate P 0]).
  set (leftleft := mkSlice (length h3) 0 P P).
  set (middle := mkSlice (length h4) 0 P P).
  assert (length h4 = S (length h3)) as L4
    by (subst h4; rewrite length_app; cbn; lia).
  assert (Forall entry_ok es2) as Hes2 by (by apply Forall_take).
  destruct (split_point_range es2 Hes2 Hn2) as (_ & Hk' & _).
  fold k' in Hk'.
  destruct (nodeSplit2_img fuel h5 leftleft middle left t es2)
    as (h6 & E6 & HLL & HM & HL6 & L6 & F6).
  { rewrite Les2. by do 2 apply holds_app_l. }
  { exact Hn2. }
  { lia. }
  { apply valid_app_l, valid_fresh. }
  { apply valid_fresh. }
  { cbn [base leftleft left]. lia. }
  { cbn [base middle left]. lia. }
  { cbn [base leftleft middle]. lia. }
  { cbn [len leftleft]. lia. }
  { cbn [len middle]. lia. }
  { fold k'. cbn [len leftleft]. lia. }
  { fold k'. cbn [len middle]. lia. }
  fold k' in HLL, HM.
  erewrite bind_ok by exact E6.
  erewrite bind_ok
    by (eapply nbytes_img; [exact HLL|]; rewrite length_take; lia).
  unfold require. rewrite bool_decide_eq_true_2 by done.
  rewrite bind_ret, ret_unfold.
  exists h6, 3%nat. eexists. exists [take k' es2; drop k' es2; drop k es].
  split; [reflexivity|]. split; [|split; [|split; [lia|auto]]].
  - cbn [take].
    repeat (apply Forall2_cons; split); [| | |by apply Forall2_nil].
    + split; rewrite length_take, Nat.min_l by lia; done.
    + split; rewrite length_drop; [done|]. unfold rbytes in Hmfit. done.
    + split; rewrite length_drop; [|unfold rbytes in Hrfit; done].
      apply (holds_frame h5).
      * apply F6; cbn [base right leftleft middle]; lia.
      * by do 2 apply holds_app_l.
  - cbn. rewrite app_nil_r, app_assoc, take_drop.
    unfold es2. by rewrite take_drop.
Qed.

Lemma describe_img h t nodes parts :
  Forall2 (page_holds h t) nodes parts →
  describe nodes h
  = (h, Ok ((λ p, (Z.of_nat (node_size (length p) p), e_key <$> p)) <$> parts)).
Proof.
  induction 1 as [|nd p nodes parts [Hh Hs] _ IH]; [done|].
  cbn [describe]. erewrite bind_ok by (by eapply nbytes_img).
  erewrite bind_ok by (by eapply keys_of_img).
  erewrite bind_ok by exact IH. reflexivity.
Qed.

Lemma concat_fmap_fmap {A B} (f : A → B) (l : list (list A)) :
  concat (fmap (M:=list) (fmap (M:=list) f) l) = fmap (M:=list) f (concat l).
Proof.
  induction l as [|x l IH]; [done|]. cbn. by rewrite fmap_app, IH.
Qed.

(** C5, amended: on a node built from entries within the key and value
    limits, of an encoded size [s], [nodeSplit3] returns the node alone
    and unchanged (re-sliced to the page size) if [s <= 4096], and two or
    three nodes if [4096 < s <= 2 * 4096 - 3]; each node returned takes at
    most one page and the keys of the nodes returned, in order, are the
    keys of the input. *)
Theorem nodeSplit3_fits fuel h t es :
  0 ≤ t < 65536 → Forall (item_ok h) es → (length es ≤ fuel)%nat →
  split3_result (2 * BTREE_PAGE_SIZE - 3) fuel h t es.
Proof.
  intros Ht Hok Hfuel. unfold split3_result. intros Hsize.
  destruct (build_node_holds h t es Ht Hok)
    as (h1 & old & E1 & H1 & Bo & L1 & Lo & _);
    [unfold BTREE_PAGE_SIZE in *; lia|].
  set (es' := entry_of h <$> es) in *.
  assert (length es' = length es) as Les by (subst es'; apply length_fmap).
  rewrite <- Les in H1, Hsize, Hfuel. rewrite <- Les.
  destruct (nodeSplit3_img fuel h1 old t es' H1)
    as (h2 & nsplit & split & parts & E2 & Hparts & Hcat & Hone & Hmore);
    [unfold BTREE_PAGE_SIZE in *; lia|done|done|].
  eexists h2, (Z.of_nat nsplit), split, _.
  split; [|split; [|split; [|split]]].
  - unfold split3_built. erewrite bind_ok by exact E1.
    erewrite bind_ok by exact E2. cbv beta iota. rewrite Nat2Z.id.
    erewrite bind_ok by (eapply describe_img; exact Hparts). reflexivity.
  - apply Forall_fmap. eapply Forall2_Forall_r; [exact Hparts|].
    apply Forall_forall. intros nd _ p [_ Hp]. exact Hp.
  - rewrite <- list_fmap_compose.
    change (snd ∘ _) with (fmap (M:=list) e_key).
    rewrite concat_fmap_fmap, Hcat. subst es'.
    rewrite <- list_fmap_compose. reflexivity.
  - intros Hb. destruct Hmore as [->| ->]; [lia|by left|by right].
  - intros Hs. destruct (Hone Hs) as (-> & -> & ->).
    split; [done|]. exists old. done.
Qed.

Lemma nodeSplit3_fits_witness :
  0 ≤ BNODE_LEAF < 65536 ∧ Forall (item_ok sample_heap) sample_items ∧
  (length sample_items ≤ 2)%nat ∧
  split3_result (2 * BTREE_PAGE_SIZE - 3) 2 sample_heap BNODE_LEAF sample_items.
Proof.
  assert (0 ≤ BNODE_LEAF < 65536) as H1 by (unfold BNODE_LEAF; lia).
  assert (length sample_items ≤ 2)%nat as H2 by (cbn; lia).
  exact (conj H1 (conj sample_items_ok (conj H2
    (nodeSplit3_fits 2 sample_heap BNODE_LEAF sample_items
       H1 sample_items_ok H2)))).
Defined.

Lemma item_ok_intro h p k v arrk arrv :
  h !! base k = Some arrk → h !! base v = Some arrv →
  (off k + cap k ≤ length arrk)%nat → (len k ≤ cap k)%nat →
  (off v + cap v ≤ length arrv)%nat → (len v ≤ cap v)%nat →
  0 ≤ p < 18446744073709551616 →
  Z.of_nat (len k) ≤ BTREE_MAX_KEY_SIZE →
  Z.of_nat (len v) ≤ BTREE_MAX_VAL_SIZE →
  item_ok h (p, k, v).
Proof.
  intros Ek Ev ? ? ? ? Hp Hk Hv.
  assert (valid h k) as Vk by (exists arrk; done).
  assert (valid h v) as Vv by (exists arrv; done).
  split; [done|]. split; [done|].
  unfold entry_ok, entry_of. cbn [fst snd e_ptr e_key e_val].
  rewrite !view_length by done. done.
Qed.

Lemma wide_items_ok : Forall (item_ok wide_heap) wide_items.
Proof.
  unfold wide_items, wide_heap.
  repeat (apply Forall_cons; split); try by apply Forall_nil.
  all: eapply item_ok_intro; try reflexivity;
    cbn [off cap len]; rewrite ?length_replicate;
    unfold BTREE_MAX_KEY_SIZE, BTREE_MAX_VAL_SIZE; cbn [length]; lia.
Qed.

(** C5, as worded, fails for a node of 8190 bytes: four entries of 1093,
    3000, 1093 and 3000 bytes (slot included).  The first split leaves the
    first three on the left, 5190 bytes; the second split has to put two
    of them, 4097 bytes, into [leftleft], and [nodeSplit3] stops with
    [log.Fatal]. *)
Lemma nodeSplit3_two_pages_fails :
  0 ≤ BNODE_LEAF < 65536 ∧ Forall (item_ok wide_heap) wide_items ∧
  (length wide_items ≤ 4)%nat ∧
  Z.of_nat (node_size (length wide_items) (entry_of wide_heap <$> wide_items))
    = 8190 ∧
  snd (split3_built 4 BNODE_LEAF wide_items wide_heap)
    = Fatal "something went wrong splitting node" ∧
  ¬ split3_result (2 * BTREE_PAGE_SIZE) 4 wide_heap BNODE_LEAF wide_items.
Proof.
  assert (snd (split3_built 4 BNODE_LEAF wide_items wide_heap)
          = Fatal "something went wrong splitting node") as Hf
    by (vm_compute; reflexivity).
  assert (Z.of_nat (node_size (length wide_items)
            (entry_of wide_heap <$> wide_items)) = 8190) as Hs
    by (vm_compute; reflexivity).
  split; [unfold BNODE_LEAF; lia|]. split; [exact wide_items_ok|].
  split; [cbn; lia|]. split; [exact Hs|]. split; [exact Hf|].
  unfold split3_result. rewrite Hs. intros Hc.
  destruct Hc as (h' & nsplit & split & d & E & _);
    [unfold BTREE_PAGE_SIZE; lia|].
  rewrite E in Hf. discriminate Hf.
Qed.

(** ** The floor index *)

Lemma view_frame h h' s :
  h' !! base s = h !! base s → view h' s = view h s.
Proof. intros E. unfold view, rd. by rewrite E. Qed.

(** C7 (the code departs from the claim): on every node built from at
    least one entry, a key that compares below the first key of the node
    makes the scan return [i - 1] at [i = 0], which wraps to 65535 in 16
    bits: not index 0, and not an index of the node at all. *)
Theorem nodeLookupLE_below_first h t p k v rest key :
  0 ≤ t < 65536 → Forall (item_ok h) ((p, k, v) :: rest) →
  Z.of_nat (node_size (length ((p, k, v) :: rest))
              (entry_of h <$> (p, k, v) :: rest)) ≤ 2 * BTREE_PAGE_SIZE →
  valid h key →
  compare_bytes (view h k) (view h key) > 0 →
  ∃ h' node,
    build_node t ((p, k, v) :: rest) h = (h', Ok node)
    ∧ nodeLookupLE node key h' = (h', Ok 65535).
Proof.
  intros Ht Hok Hfit Hkey Hcmp.
  destruct (build_node_holds h t _ Ht Hok Hfit)
    as (h' & nd & E & H & Bo & L & Lo & F).
  exists h', nd. split; [done|].
  assert (view h' key = view h key) as Vkey.
  { apply view_frame, F. apply valid_base in Hkey. lia. }
  destruct (getKey_img _ _ _ _ _ H 0 (entry_of h (p, k, v)) eq_refl)
    as (k' & Ek & Vk & _).
  unfold nodeLookupLE. rewrite (bind_ok _ _ _ _ _ (nkeys_img _ _ _ _ _ H)).
  rewrite Nat2Z.id. cbn [length nodeLookupLE_scan].
  rewrite bool_decide_eq_true_2 by lia.
  erewrite bind_ok by exact Ek.
  unfold bytes_Compare. rewrite bind_unfold, Vk, Vkey.
  cbn [entry_of e_key fst snd].
  rewrite bool_decide_eq_false_2 by lia.
  rewrite bool_decide_eq_true_2 by lia. reflexivity.
Qed.

Lemma nodeLookupLE_below_first_witness :
  0 ≤ BNODE_LEAF < 65536 ∧
  Forall (item_ok sample_heap) ((5, key_a, val_1) :: [(7, key_b, val_2)]) ∧
  Z.of_nat (node_size (length ((5, key_a, val_1) :: [(7, key_b, val_2)]))
              (entry_of sample_heap <$> (5, key_a, val_1) :: [(7, key_b, val_2)]))
    ≤ 2 * BTREE_PAGE_SIZE ∧
  valid sample_heap key_0 ∧
  compare_bytes (view sample_heap key_a) (view sample_heap key_0) > 0 ∧
  ∃ h' node,
    build_node BNODE_LEAF ((5, key_a, val_1) :: [(7, key_b, val_2)]) sample_heap
      = (h', Ok node)
    ∧ nodeLookupLE node key_0 h' = (h', Ok 65535).
Proof.
  assert (0 ≤ BNODE_LEAF < 65536) as H1 by (unfold BNODE_LEAF; lia).
  assert (Z.of_nat (node_size (length ((5, key_a, val_1) :: [(7, key_b, val_2)]))
            (entry_of sample_heap <$> (5, key_a, val_1) :: [(7, key_b, val_2)]))
          ≤ 2 * BTREE_PAGE_SIZE) as H3
    by (cbn; unfold BTREE_PAGE_SIZE; lia).
  assert (valid sample_heap key_0) as H4
    by (eexists; split; [reflexivity|cbn; lia]).
  assert (compare_bytes (view sample_heap key_a) (view sample_heap key_0) > 0)
    as H5 by (vm_compute; reflexivity).
  exact (conj H1 (conj sample_items_ok (conj H3 (conj H4 (conj H5
    (nodeLookupLE_below_first sample_heap BNODE_LEAF 5 key_a val_1
       [(7, key_b, val_2)] key_0 H1 sample_items_ok H3 H4 H5)))))).
Defined.

(** The left half of [nodeSplit2] may take more than a page: of the four
    entries of 8190 bytes, three go to the left, 5190 bytes. *)
Lemma nodeSplit2_left_may_exceed :
  snd (split2_built 4 BNODE_LEAF wide_items wide_heap)
  = Ok (3, 1, 5190, 3004).
Proof. vm_compute. reflexivity. Qed.

Lemma compare_bytes_antisym a b : compare_bytes b a = - compare_bytes a b.
Proof.
  revert b. induction a as [|x a IH]; intros [|y b]; cbn; try done.
  repeat case_bool_decide; try lia. apply IH.
Qed.

Lemma compare_bytes_trans a b c :
  compare_bytes a b < 0 → compare_bytes b c < 0 → compare_bytes a c < 0.
Proof.
  revert b c. induction a as [|x a IH]; intros [|y b] [|z c]; cbn; try lia.
  repeat case_bool_decide; try lia. apply IH.
Qed.

Lemma scan_eval h nd t es key todo i :
  holds h nd t (length es) es → (i + todo = length es)%nat →
  nodeLookupLE_scan nd key (Z.of_nat (length es)) (Z.of_nat i) todo h
  = (h, Ok (floor_scan (e_key <$> drop i es) (view h key) i)).
Proof.
  intros H. revert i. induction todo as [|todo IH]; intros i Hi.
  - cbn [nodeLookupLE_scan]. rewrite bool_decide_eq_false_2 by lia.
    rewrite drop_ge by lia. reflexivity.
  - destruct (lookup_lt_is_Some_2 es i) as [e He]; [lia|].
    destruct (getKey_img _ _ _ _ _ H _ _ He) as (k & Ek & Vk & _).
    cbn [nodeLookupLE_scan]. rewrite bool_decide_eq_true_2 by lia.
    erewrite bind_ok by exact Ek.
    unfold bytes_Compare. rewrite bind_unfold, Vk.
    rewrite (drop_S _ _ _ He). cbn [fmap list_fmap floor_scan].
    case_bool_decide; [reflexivity|].
    case_bool_decide; [reflexivity|].
    pose proof (holds_size _ _ _ _ _ H) as Hs. pose proof H as (_ & Hl & _).
    unfold node_size in Hs.
    replace (u16 (Z.of_nat i + 1)) with (Z.of_nat (S i))
      by (rewrite u16_small; lia).
    apply IH. lia.
Qed.

Lemma compare_bytes_eq a b : compare_bytes a b = 0 → a = b.
Proof.
  revert b. induction a as [|x a IH]; intros [|y b]; cbn; try done.
  repeat case_bool_decide; try lia. intros E. f_equal; [lia|by apply IH].
Qed.

(** A key above one that is at least the searched key is above it. *)
Lemma compare_bytes_above k b kb :
  compare_bytes k b < 0 → 0 ≤ compare_bytes k kb → compare_bytes b kb > 0.
Proof.
  intros Hkb Hge.
  destruct (decide (compare_bytes k kb = 0)) as [E|Hne].
  - apply compare_bytes_eq in E as ->.
    rewrite compare_bytes_antisym. lia.
  - assert (compare_bytes kb k < 0) by (rewrite compare_bytes_antisym; lia).
    pose proof (compare_bytes_trans kb k b ltac:(done) ltac:(done)).
    rewrite compare_bytes_antisym. lia.
Qed.

(** From an index whose predecessor is at most the key, the scan ends on
    the last index whose key is at most the key. *)
Lemma floor_scan_spec keys kb i pre :
  ascending (pre ++ keys) → length pre = i → (1 ≤ i)%nat →
  Z.of_nat (length (pre ++ keys)) < 65536 →
  (∀ a, pre !! (i - 1)%nat = Some a → compare_bytes a kb ≤ 0) →
  ∃ r : nat,
    floor_scan keys kb i = Z.of_nat r ∧ (r < length (pre ++ keys))%nat
    ∧ (∀ a, (pre ++ keys) !! r = Some a → compare_bytes a kb ≤ 0)
    ∧ (∀ j b, (r < j)%nat → (pre ++ keys) !! j = Some b →
              compare_bytes b kb > 0).
Proof.
  revert i pre. induction keys as [|k keys IH]; intros i pre Hasc Hi Hpos Hlen Hprev.
  - cbn [floor_scan]. rewrite app_nil_r in *. exists (i - 1)%nat.
    split; [rewrite u16_small; lia|]. split; [lia|]. split; [done|].
    intros j b Hj Hb. apply lookup_lt_Some in Hb. lia.
  - cbn [floor_scan].
    assert ((pre ++ k :: keys) !! i = Some k) as Hk
      by (by apply list_lookup_middle).
    assert (∀ j b, (i < j)%nat → (pre ++ k :: keys) !! j = Some b →
                   0 ≤ compare_bytes k kb → compare_bytes b kb > 0) as Hafter.
    { intros j b Hj Hb Hge. eapply compare_bytes_above; [|done].
      by apply (Hasc i j). }
    rewrite length_app in Hlen. cbn [length] in Hlen.
    case_bool_decide as H0; [|case_bool_decide as H1].
    + exists i. split; [done|]. split; [rewrite length_app; cbn; lia|].
      split; [intros a Ha; assert (a = k) as -> by congruence; lia|].
      intros j b Hj Hb. apply (Hafter j b); [done|done|lia].
    + exists (i - 1)%nat. split; [rewrite u16_small; lia|].
      split; [rewrite length_app; cbn; lia|]. split.
      * intros a Ha. apply Hprev. by rewrite lookup_app_l in Ha by lia.
      * intros j b Hj Hb. destruct (decide (j = i)) as [->|].
        -- assert (b = k) as -> by congruence. done.
        -- apply (Hafter j b); [lia|done|lia].
    + destruct (IH (S i) (pre ++ [k])) as (r & Er & Hr & Hle & Hgt).
      * by rewrite <- app_assoc.
      * rewrite length_app. cbn. lia.
      * lia.
      * rewrite <- app_assoc, length_app. cbn [app length]. lia.
      * intros a Ha. replace (S i - 1)%nat with i in Ha by lia.
        rewrite lookup_app_r in Ha by lia.
        replace (i - length pre)%nat with 0%nat in Ha by lia.
        injection Ha as <-. lia.
      * rewrite <- app_assoc in Hr, Hle, Hgt. cbn [app] in Hr, Hle, Hgt.
        exists r. done.
Qed.

(** What [nodeLookupLE] returns on a node of sorted keys whose first key
    is at most the searched key: the greatest index whose key is at most
    the key. *)
Lemma nodeLookupLE_floor h nd t es key :
  holds h nd t (length es) es → ascending (e_key <$> es) →
  (∀ e, es !! 0%nat = Some e → compare_bytes (e_key e) (view h key) ≤ 0) →
  (1 ≤ length es)%nat →
  ∃ r : nat,
    nodeLookupLE nd key h = (h, Ok (Z.of_nat r)) ∧ (r < length es)%nat
    ∧ (∀ e, es !! r = Some e → compare_bytes (e_key e) (view h key) ≤ 0)
    ∧ (∀ j e, (r < j)%nat → es !! j = Some e →
              compare_bytes (e_key e) (view h key) > 0).
Proof.
  intros H Hasc Hfirst Hn.
  pose proof (holds_size _ _ _ _ _ H) as Hs. pose proof H as (_ & Hl & _).
  unfold node_size in Hs.
  unfold nodeLookupLE. rewrite (bind_ok _ _ _ _ _ (nkeys_img _ _ _ _ _ H)).
  rewrite Nat2Z.id.
  pose proof (scan_eval h nd t es key (length es) 0 H eq_refl) as E.
  change (Z.of_nat 0) with 0 in E. rewrite E. clear E.
  rewrite drop_0. set (kb := view h key) in *.
  destruct es as [|e0 es']; [cbn in Hn; lia|].
  specialize (Hfirst e0 eq_refl).
  cbn [fmap list_fmap floor_scan].
  assert (∃ r : nat,
            (if bool_decide (compare_bytes (e_key e0) kb = 0) then Z.of_nat 0
             else if bool_decide (compare_bytes (e_key e0) kb > 0)
                  then u16 (Z.of_nat 0 - 1)
                  else floor_scan (e_key <$> es') kb 1) = Z.of_nat r
            ∧ (r < length (e_key <$> e0 :: es'))%nat
            ∧ (∀ a, (e_key <$> e0 :: es') !! r = Some a → compare_bytes a kb ≤ 0)
            ∧ (∀ j b, (r < j)%nat → (e_key <$> e0 :: es') !! j = Some b →
                      compare_bytes b kb > 0)) as (r & Er & Hr & Hle & Hgt).
  { case_bool_decide as H0.
    - exists 0%nat. split; [done|]. split; [cbn; lia|].
      split; [intros a [= <-]; lia|].
      intros j b Hj Hb. eapply compare_bytes_above; [|by rewrite H0].
      by apply (Hasc 0%nat j).
    - rewrite bool_decide_eq_false_2 by lia.
      change (e_key <$> e0 :: es') with ([e_key e0] ++ (e_key <$> es')) in *.
      apply (floor_scan_spec (e_key <$> es') kb 1 [e_key e0]); try done.
      + rewrite length_app, length_fmap. cbn [length] in *. lia.
      + intros a [= <-]. done. }
  rewrite length_fmap in Hr.
  exists r. rewrite Er. split; [done|]. split; [done|]. split.
  - intros e He. apply Hle. by rewrite list_lookup_fmap, He.
  - intros j e Hj He. apply (Hgt j); [done|]. by rewrite list_lookup_fmap, He.
Qed.

(** ** The leaf case of the insert *)


(** On a leaf, [treeInsert] is its leaf case run with the index found on
    the new working buffer. *)
Lemma treeInsert_leaf_case fuel tree node key val h :
  snd (btype node (h ++ [replicate (Z.to_nat (2 * BTREE_PAGE_SIZE)) 0]))
  = Ok BNODE_LEAF →
  treeInsert (S fuel) tree node key val h
  = (new ← make (Z.to_nat (2 * BTREE_PAGE_SIZE));
     idx ← nodeLookupLE new key;
     treeInsert_leaf new node idx key val;; mret new) h.
Proof.
  intros Ht. cbn [treeInsert].
  assert (4 ≤ Z.to_nat (2 * BTREE_PAGE_SIZE))%nat as HN
    by (unfold BTREE_PAGE_SIZE; lia).
  revert HN Ht. generalize (Z.to_nat (2 * BTREE_PAGE_SIZE)) as N.
  intros N HN Ht.
  rewrite !(bind_ok _ _ _ _ _ (make_unfold _ _)).
  set (h1 := h ++ [replicate N 0]) in *.
  assert (nodeLookupLE (mkSlice (length h) 0 N N) key h1 = (h1, Ok 65535))
    as El by (apply nodeLookupLE_fresh; [reflexivity|exact HN]).
  rewrite !(bind_ok _ _ _ _ _ El).
  rewrite btype_unfold in Ht. rewrite (bind_unfold (btype node)), btype_unfold.
  destruct (bool_decide (2 ≤ cap node)%nat); [|discriminate Ht].
  cbn [snd] in Ht. injection Ht as Ht. rewrite Ht.
  rewrite bool_decide_eq_true_2 by reflexivity.
  unfold treeInsert_leaf. rewrite !bind_assoc. reflexivity.
Qed.



(** The whole run of the leaf case on the page of the leaf "a" -> "1",
    with the key "b", the index 0 that [nodeLookupLE] gives on that page,
    and a new working buffer: it ends in [log.Fatal], the header of the
    input page reads two keys where it read one, and the working buffer
    is as it was made, all zeros. *)
Lemma treeInsert_leaf_on_sample :
  let r := (new ← make (Z.to_nat (2 * BTREE_PAGE_SIZE));
            treeInsert_leaf new leaf_a 0 key_b val_2;; mret new) sample_heap in
  snd (nodeLookupLE leaf_a key_b sample_heap) = Ok 0
  ∧ take 4 (view sample_heap leaf_a) = [2; 0; 1; 0]
  ∧ snd r = Fatal "fatal error"
  ∧ take 4 (view (fst r) leaf_a) = [2; 0; 2; 0]
  ∧ fst r !! 9%nat = Some (replicate (Z.to_nat (2 * BTREE_PAGE_SIZE)) 0).
Proof. repeat split; vm_compute; reflexivity. Qed.

(** ** The durable writer *)

Lemma string_length_app (a b : string) :
  String.length (a +:+ b) = (String.length a + String.length b)%nat.
Proof. induction a as [|c a IH]; simpl; [done|by f_equal]. Qed.

Lemma tmp_name_fresh env path : tmp_name env path ≠ path.
Proof.
  unfold tmp_name. intros E. apply (f_equal String.length) in E.
  rewrite !string_length_app in E. cbn in E. lia.
Qed.

Arguments new_calls : simpl never.

Lemma new_calls_app d d' l :
  calls d' = l ++ calls d → new_calls d d' = l.
Proof.
  intros E. unfold new_calls. rewrite E, length_app.
  replace (length l + length (calls d) - length (calls d))%nat
    with (length l) by lia.
  by rewrite take_app_length.
Qed.

(** How a run of [SaveData2] ends, case by case. *)
Lemma SaveData2_cases env path data d :
  let tmp := tmp_name env path in
  let r := SaveData2 env path data d in
  (is_Some (files d !! tmp) ∧ snd r = Some ErrExist
     ∧ files (fst r) = files d ∧ new_calls d (fst r) = [SysOpen tmp])
  ∨ (files d !! tmp = None ∧ open_fails env = true ∧ snd r = Some ErrOpen
     ∧ files (fst r) = files d ∧ new_calls d (fst r) = [SysOpen tmp])
  ∨ (files d !! tmp = None ∧ open_fails env = false
     ∧ is_Some (write_fails env) ∧ snd r = Some ErrWrite
     ∧ (∃ n, write_fails env = Some n
             ∧ files (fst r) = if remove_fails env
                               then <[tmp := take n data]> (files d)
                               else files d)
     ∧ new_calls d (fst r)
       = [SysRemove tmp; SysClose tmp; SysWrite tmp; SysOpen tmp])
  ∨ (files d !! tmp = None ∧ open_fails env = false
     ∧ write_fails env = None ∧ sync_fails env = true
     ∧ snd r = Some ErrSync
     ∧ files (fst r) = (if remove_fails env
                        then <[tmp := data]> (files d) else files d)
     ∧ new_calls d (fst r)
       = [SysRemove tmp; SysClose tmp; SysSync tmp; SysWrite tmp; SysOpen tmp])
  ∨ (files d !! tmp = None ∧ open_fails env = false
     ∧ write_fails env = None ∧ sync_fails env = false
     ∧ rename_fails env = true ∧ snd r = Some ErrRename
     ∧ files (fst r) = <[tmp := data]> (files d)
     ∧ new_calls d (fst r)
       = [SysClose tmp; SysRename tmp path; SysSync tmp; SysWrite tmp;
          SysOpen tmp])
  ∨ (files d !! tmp = None ∧ open_fails env = false
     ∧ write_fails env = None ∧ sync_fails env = false
     ∧ rename_fails env = false ∧ snd r = None
     ∧ files (fst r) = <[path := data]> (files d)
     ∧ new_calls d (fst r)
       = [SysClose tmp; SysRename tmp path; SysSync tmp; SysWrite tmp;
          SysOpen tmp]).
Proof.
  intros tmp r. subst r. unfold SaveData2. fold tmp.
  unfold os_OpenFile_excl. cbn [files calls].
  destruct (files d !! tmp) as [c|] eqn:Etmp.
  { left. cbn. repeat split; [by eexists|]. by apply (new_calls_app _ _ [_]). }
  right. destruct (open_fails env).
  { left. cbn. repeat split. by apply (new_calls_app _ _ [_]). }
  right. unfold File_Write. cbn [files calls].
  destruct (write_fails env) as [n|].
  { left. unfold SaveData2_deferred, File_Close, os_Remove. cbn [files calls].
    destruct (remove_fails env); cbn [fst snd files calls];
      (split; [done|]); (split; [done|]); (split; [by eexists|]);
      (split; [done|]);
      (split; [exists n; split; [done|]
              |by apply (new_calls_app _ _ [_; _; _; _])]).
    - by rewrite insert_insert_eq.
    - rewrite insert_insert_eq, delete_insert_eq. by apply delete_id. }
  right. unfold File_Sync. cbn [files calls].
  destruct (sync_fails env).
  { left. unfold SaveData2_deferred, File_Close, os_Remove. cbn [files calls].
    destruct (remove_fails env); cbn [fst snd files calls];
      do 5 (split; [done|]);
      (split; [|by apply (new_calls_app _ _ [_; _; _; _; _])]).
    - by rewrite insert_insert_eq.
    - rewrite insert_insert_eq, delete_insert_eq. by apply delete_id. }
  right. unfold os_Rename. cbn [files calls].
  destruct (rename_fails env).
  { left. cbn. repeat split.
    - by rewrite insert_insert_eq.
    - by apply (new_calls_app _ _ [_; _; _; _; _]). }
  right. rewrite lookup_insert_eq. cbn. repeat split.
  - rewrite insert_insert_eq, delete_insert_eq. f_equal. by apply delete_id.
  - by apply (new_calls_app _ _ [_; _; _; _; _]).
Qed.

(** C8, as worded, fails when the removal of the temporary file fails
    as well: the write stops after one byte, [SaveData2] closes the file
    and calls [os.Remove], whose error it drops, and the temporary file is
    still there, holding that byte. *)
Lemma atomic_write_claim_fails :
  ¬ atomic_write_claim stuck_env "db" [4; 5] plain_disk.
Proof.
  unfold atomic_write_claim.
  assert (SaveData2 stuck_env "db" [4; 5] plain_disk
          = (mkDisk (<["db.tmp.7" := [4]]> (files plain_disk))
               [SysRemove "db.tmp.7"; SysClose "db.tmp.7";
                SysWrite "db.tmp.7"; SysOpen "db.tmp.7"], Some ErrWrite))
    as -> by (vm_compute; reflexivity).
  intros H. destruct H as [_ H]; [done|].
  vm_compute in H. discriminate H.
Qed.

(** C8, amended: [SaveData2] succeeds and the target holds exactly the new
    data, or it returns an error and the target is as before.  When the
    write or the sync fails, the removal of the temporary file is tried:
    if it succeeds the files are exactly as before the call, if it fails
    the temporary file stays with the bytes written.  When the open
    fails, no file is created or removed. *)
Theorem SaveData2_atomic env path data d :
  atomic_write_amended env path data d.
Proof.
  unfold atomic_write_amended.
  pose proof (SaveData2_cases env path data d) as H. cbv zeta in H.
  pose proof (tmp_name_fresh env path) as Hne.
  destruct (SaveData2 env path data d) as [d' r]. cbn [fst snd] in H.
  destruct H as [H|[H|[H|[H|[H|H]]]]].
  - destruct H as ([c Hc] & -> & Hf & Hn). rewrite Hf.
    split; [done|]. split; [intros [[=]|[=]]|done].
  - destruct H as (Hc & _ & -> & Hf & Hn). rewrite Hf.
    split; [done|]. split; [intros [[=]|[=]]|done].
  - destruct H as (Hc & _ & _ & -> & (n & _ & Hf) & Hn). rewrite Hf, Hn.
    split; [|split; [|intros [[=]|[=]]]].
    + destruct (remove_fails env); [by rewrite lookup_insert_ne|done].
    + intros _. split; [apply elem_of_cons; by left|].
      destruct (remove_fails env); split; try done. intros _. by exists n.
  - destruct H as (Hc & _ & _ & _ & -> & Hf & Hn). rewrite Hf, Hn.
    split; [|split; [|intros [[=]|[=]]]].
    + destruct (remove_fails env); [by rewrite lookup_insert_ne|done].
    + intros _. split; [apply elem_of_cons; by left|].
      destruct (remove_fails env); split; try done. intros _.
      exists (length data). by rewrite firstn_all.
  - destruct H as (Hc & _ & _ & _ & _ & -> & Hf & Hn). rewrite Hf.
    split; [by rewrite lookup_insert_ne|].
    split; intros [[=]|[=]].
  - destruct H as (Hc & _ & _ & _ & _ & -> & Hf & Hn). rewrite Hf.
    by rewrite lookup_insert_eq.
Qed.

(** C10: when the rename is the failing step, [SaveData2] returns its
    error and the temporary file stays, holding the data, no removal having
    been tried; a removal of the temporary file is tried exactly when the
    error returned is that of the write or of the sync. *)
Theorem SaveData2_rename_leaves_tmp env path data d :
  let tmp := tmp_name env path in
  let r := SaveData2 env path data d in
  (files d !! tmp = None → open_fails env = false → write_fails env = None →
   sync_fails env = false → rename_fails env = true →
   snd r = Some ErrRename
   ∧ files (fst r) !! tmp = Some data
   ∧ files (fst r) !! path = files d !! path
   ∧ SysRemove tmp ∉ new_calls d (fst r))
  ∧ (SysRemove tmp ∈ new_calls d (fst r) ↔
     snd r = Some ErrWrite ∨ snd r = Some ErrSync).
Proof.
  intros tmp r.
  pose proof (SaveData2_cases env path data d) as H. cbv zeta in H.
  pose proof (tmp_name_fresh env path) as Hne.
  fold tmp r in H. fold tmp in Hne.
  split; [|split]; [| |intros He; destruct H as [H|[H|[H|[H|[H|H]]]]]].
  3: { destruct H as (_ & E & _). rewrite E in He. by destruct He. }
  3: { destruct H as (_ & _ & E & _). rewrite E in He. by destruct He. }
  3: { destruct H as (_ & _ & _ & _ & _ & Hn). rewrite Hn.
       apply elem_of_cons; by left. }
  3: { destruct H as (_ & _ & _ & _ & _ & _ & Hn). rewrite Hn.
       apply elem_of_cons; by left. }
  3: { destruct H as (_ & _ & _ & _ & _ & E & _). rewrite E in He.
       by destruct He. }
  3: { destruct H as (_ & _ & _ & _ & _ & E & _). rewrite E in He.
       by destruct He. }
  - intros Hc Ho Hw Hs Hr.
    destruct H as [H|[H|[H|[H|[H|H]]]]].
    + destruct H as ([c Hc'] & _). congruence.
    + destruct H as (_ & ? & _). congruence.
    + destruct H as (_ & _ & [? ?] & _). congruence.
    + destruct H as (_ & _ & _ & ? & _). congruence.
    + destruct H as (_ & _ & _ & _ & _ & -> & Hf & Hn). rewrite Hf, Hn.
      repeat split.
      * by rewrite lookup_insert_eq.
      * by rewrite lookup_insert_ne.
      * intros Hin. by rewrite !elem_of_cons, elem_of_nil in Hin; intuition discriminate.
    + destruct H as (_ & _ & _ & _ & ? & _). congruence.
  - intros Hin.
    destruct H as [H|[H|[H|[H|[H|H]]]]].
    + destruct H as (_ & _ & _ & Hn). rewrite Hn in Hin.
      by rewrite !elem_of_cons, elem_of_nil in Hin; intuition discriminate.
    + destruct H as (_ & _ & _ & _ & Hn). rewrite Hn in Hin.
      by rewrite !elem_of_cons, elem_of_nil in Hin; intuition discriminate.
    + destruct H as (_ & _ & _ & -> & _). by left.
    + destruct H as (_ & _ & _ & _ & -> & _). by right.
    + destruct H as (_ & _ & _ & _ & _ & _ & _ & Hn). rewrite Hn in Hin.
      by rewrite !elem_of_cons, elem_of_nil in Hin; intuition discriminate.
    + destruct H as (_ & _ & _ & _ & _ & _ & _ & Hn). rewrite Hn in Hin.
      by rewrite !elem_of_cons, elem_of_nil in Hin; intuition discriminate.
Qed.

Lemma SaveData2_rename_leaves_tmp_witness :
  files plain_disk !! tmp_name rename_fail_env "db" = None ∧
  open_fails rename_fail_env = false ∧ write_fails rename_fail_env = None ∧
  sync_fails rename_fail_env = false ∧ rename_fails rename_fail_env = true ∧
  snd (SaveData2 rename_fail_env "db" [4; 5] plain_disk) = Some ErrRename ∧
  files (fst (SaveData2 rename_fail_env "db" [4; 5] plain_disk))
    !! tmp_name rename_fail_env "db" = Some [4; 5] ∧
  files (fst (SaveData2 rename_fail_env "db" [4; 5] plain_disk)) !! "db"
    = files plain_disk !! "db" ∧
  SysRemove (tmp_name rename_fail_env "db")
    ∉ new_calls plain_disk (fst (SaveData2 rename_fail_env "db" [4; 5] plain_disk)).
Proof.
  assert (files plain_disk !! tmp_name rename_fail_env "db" = None) as H1
    by (vm_compute; reflexivity).
  exact (conj H1 (conj eq_refl (conj eq_refl (conj eq_refl (conj eq_refl
    (proj1 (SaveData2_rename_leaves_tmp rename_fail_env "db" [4; 5] plain_disk)
       H1 eq_refl eq_refl eq_refl eq_refl)))))).
Defined.

(** * Further properties of the code *)

(** ** Decoding *)

Lemma bytes_of_bind {B} (s : Slice) (f : list Z → M B) h :
  (bytes_of s ≫= f) h = f (view h s) h.
Proof. reflexivity. Qed.

Lemma entries_from_img h nd t n es i m :
  holds h nd t n es → (i + m ≤ length es)%nat →
  entries_from nd (Z.of_nat i) m h = (h, Ok (take m (drop i es))).
Proof.
  intros H. revert i. induction m as [|m IH]; intros i Hi; [done|].
  destruct (lookup_lt_is_Some_2 es i) as [e He]; [lia|].
  destruct (getKey_img _ _ _ _ _ H _ _ He) as (k & Ek & Vk & _).
  destruct (getVal_img _ _ _ _ _ H _ _ He) as (v & Ev & Vv & _).
  cbn [entries_from].
  erewrite bind_ok by (eapply getPtr_img; eauto).
  erewrite bind_ok by exact Ek.
  rewrite bytes_of_bind, Vk.
  erewrite bind_ok by exact Ev.
  rewrite bytes_of_bind, Vv.
  replace (Z.of_nat i + 1) with (Z.of_nat (S i)) by lia.
  erewrite bind_ok by (apply IH; lia).
  rewrite (drop_S _ _ _ He), entry_eta. reflexivity.
Qed.

Lemma entries_of_img h nd t es :
  holds h nd t (length es) es → entries_of nd h = (h, Ok es).
Proof.
  intros H. unfold entries_of.
  rewrite (bind_ok _ _ _ _ _ (nkeys_img _ _ _ _ _ H)), Nat2Z.id.
  rewrite (entries_from_img _ _ _ _ _ 0 _ H) by lia.
  by rewrite drop_0, take_ge by lia.
Qed.

(** X1: The size [nbytes] reports is the size of the encoding: 4 bytes of
    header, 10 bytes of pointer and offset for each entry, and for each
    entry 4 bytes of lengths, the key and the value; [getOffset] at [i] is
    the number of key-value bytes of the first [i] entries, 0 at 0, and
    [kvPos] the position where entry [i] starts. *)
Theorem nbytes_is_encoded_size h t es :
  0 ≤ t < 65536 → Forall (item_ok h) es →
  Z.of_nat (node_size (length es) (entry_of h <$> es)) ≤ 2 * BTREE_PAGE_SIZE →
  ∃ h' node,
    build_node t es h = (h', Ok node)
    ∧ nbytes node h'
      = (h', Ok (4 + 10 * Z.of_nat (length es)
                 + Z.of_nat (kv_total (entry_of h <$> es))))
    ∧ getOffset node 0 h' = (h', Ok 0)
    ∧ ∀ i : nat, (i ≤ length es)%nat →
        getOffset node (Z.of_nat i) h'
        = (h', Ok (Z.of_nat (kv_total (entry_of h <$> take i es))))
        ∧ kvPos node (Z.of_nat i) h'
          = (h', Ok (4 + 10 * Z.of_nat (length es)
                     + Z.of_nat (kv_total (entry_of h <$> take i es)))).
Proof.
  intros Ht Hok Hfit.
  destruct (build_node_holds h t es Ht Hok Hfit) as (h' & nd & E & H & _).
  exists h', nd. split; [done|].
  split; [|split; [done|]].
  - rewrite (nbytes_img _ _ _ _ _ H) by (by rewrite length_fmap).
    do 2 f_equal. unfold node_size. lia.
  - intros i Hi. rewrite fmap_take.
    rewrite (getOffset_img _ _ _ _ _ H) by (by rewrite length_fmap).
    rewrite (kvPos_img _ _ _ _ _ H) by (by rewrite length_fmap).
    split; [done|]. do 2 f_equal. unfold node_size. lia.
Qed.

Lemma nbytes_is_encoded_size_witness :
  0 ≤ BNODE_LEAF < 65536 ∧ Forall (item_ok sample_heap) sample_items ∧
  Z.of_nat (node_size (length sample_items)
              (entry_of sample_heap <$> sample_items)) ≤ 2 * BTREE_PAGE_SIZE ∧
  ∃ h' node,
    build_node BNODE_LEAF sample_items sample_heap = (h', Ok node)
    ∧ nbytes node h'
      = (h', Ok (4 + 10 * Z.of_nat (length sample_items)
                 + Z.of_nat (kv_total (entry_of sample_heap <$> sample_items))))
    ∧ getOffset node 0 h' = (h', Ok 0)
    ∧ ∀ i : nat, (i ≤ length sample_items)%nat →
        getOffset node (Z.of_nat i) h'
        = (h', Ok (Z.of_nat (kv_total (entry_of sample_heap <$> take i sample_items))))
        ∧ kvPos node (Z.of_nat i) h'
          = (h', Ok (4 + 10 * Z.of_nat (length sample_items)
                     + Z.of_nat (kv_total (entry_of sample_heap
                                             <$> take i sample_items)))).
Proof.
  assert (0 ≤ BNODE_LEAF < 65536) as H1 by (unfold BNODE_LEAF; lia).
  assert (Z.of_nat (node_size (length sample_items)
            (entry_of sample_heap <$> sample_items)) ≤ 2 * BTREE_PAGE_SIZE)
    as H3 by (cbn; unfold BTREE_PAGE_SIZE; lia).
  exact (conj H1 (conj sample_items_ok (conj H3
    (nbytes_is_encoded_size sample_heap BNODE_LEAF sample_items
       H1 sample_items_ok H3)))).
Defined.

(** ** Indices out of range *)

(** X2: An index at or behind the key count makes every accessor stop the
    process instead of reading the bytes that follow: [getPtr] and
    [setPtr] with "fatal error", [getKey] and [getVal] with "invalid node
    index", and nothing is written; an index behind the key count does
    the same to [kvPos] and [getOffset]. *)
Theorem accessors_out_of_range h t es idx val :
  0 ≤ t < 65536 → Forall (item_ok h) es →
  Z.of_nat (node_size (length es) (entry_of h <$> es)) ≤ 2 * BTREE_PAGE_SIZE →
  Z.of_nat (length es) ≤ idx →
  ∃ h' node,
    build_node t es h = (h', Ok node)
    ∧ getPtr node idx h' = (h', Fatal "fatal error")
    ∧ setPtr node idx val h' = (h', Fatal "fatal error")
    ∧ getKey node idx h' = (h', Fatal "invalid node index")
    ∧ getVal node idx h' = (h', Fatal "invalid node index")
    ∧ (Z.of_nat (length es) < idx →
       kvPos node idx h' = (h', Fatal "invalid index node index")
       ∧ getOffset node idx h' = (h', Fatal "invalid node index")
       ∧ setOffset node idx val h' = (h', Fatal "invalid node index")).
Proof.
  intros Ht Hok Hfit Hidx.
  destruct (build_node_holds h t es Ht Hok Hfit) as (h' & nd & E & H & _).
  exists h', nd. split; [done|].
  pose proof (nkeys_img _ _ _ _ _ H) as En.
  repeat split.
  - unfold getPtr. rewrite (bind_ok _ _ _ _ _ En).
    by rewrite bool_decide_eq_false_2 by lia.
  - unfold setPtr. rewrite (bind_ok _ _ _ _ _ En).
    by rewrite bool_decide_eq_false_2 by lia.
  - unfold getKey. rewrite (bind_ok _ _ _ _ _ En).
    by rewrite bool_decide_eq_false_2 by lia.
  - unfold getVal. rewrite (bind_ok _ _ _ _ _ En).
    by rewrite bool_decide_eq_false_2 by lia.
  - unfold kvPos. rewrite (bind_ok _ _ _ _ _ En).
    by rewrite bool_decide_eq_false_2 by lia.
  - unfold getOffset, offsetPos.
    rewrite bool_decide_eq_false_2 by lia.
    rewrite bool_decide_eq_true_2 by lia.
    rewrite !bind_unfold, En.
    by rewrite bool_decide_eq_false_2 by lia.
  - unfold setOffset, offsetPos.
    rewrite bool_decide_eq_true_2 by lia.
    rewrite !bind_unfold, En.
    by rewrite bool_decide_eq_false_2 by lia.
Qed.

Lemma accessors_out_of_range_witness :
  0 ≤ BNODE_LEAF < 65536 ∧ Forall (item_ok sample_heap) sample_items ∧
  Z.of_nat (node_size (length sample_items)
              (entry_of sample_heap <$> sample_items)) ≤ 2 * BTREE_PAGE_SIZE ∧
  Z.of_nat (length sample_items) ≤ 3 ∧
  ∃ h' node,
    build_node BNODE_LEAF sample_items sample_heap = (h', Ok node)
    ∧ getPtr node 3 h' = (h', Fatal "fatal error")
    ∧ setPtr node 3 7 h' = (h', Fatal "fatal error")
    ∧ getKey node 3 h' = (h', Fatal "invalid node index")
    ∧ getVal node 3 h' = (h', Fatal "invalid node index")
    ∧ (Z.of_nat (length sample_items) < 3 →
       kvPos node 3 h' = (h', Fatal "invalid index node index")
       ∧ getOffset node 3 h' = (h', Fatal "invalid node index")
       ∧ setOffset node 3 7 h' = (h', Fatal "invalid node index")).
Proof.
  assert (0 ≤ BNODE_LEAF < 65536) as H1 by (unfold BNODE_LEAF; lia).
  assert (Z.of_nat (node_size (length sample_items)
            (entry_of sample_heap <$> sample_items)) ≤ 2 * BTREE_PAGE_SIZE)
    as H3 by (cbn; unfold BTREE_PAGE_SIZE; lia).
  assert (Z.of_nat (length sample_items) ≤ 3) as H4 by (cbn; lia).
  exact (conj H1 (conj sample_items_ok (conj H3 (conj H4
    (accessors_out_of_range sample_heap BNODE_LEAF sample_items 3 7
       H1 sample_items_ok H3 H4))))).
Defined.

(** ** The scan for the floor index *)

Lemma floor_scan_from keys kb i pre :
  length pre = i → (1 ≤ i)%nat →
  Z.of_nat (length (pre ++ keys)) < 65536 →
  (∀ j a, pre !! j = Some a → compare_bytes a kb < 0) →
  ∃ r : nat,
    floor_scan keys kb i = Z.of_nat r ∧ (r < length (pre ++ keys))%nat
    ∧ (∀ j a, (j < r)%nat → (pre ++ keys) !! j = Some a →
              compare_bytes a kb < 0)
    ∧ (∀ a, (pre ++ keys) !! r = Some a → compare_bytes a kb ≤ 0)
    ∧ (∀ a b, (pre ++ keys) !! r = Some a → compare_bytes a kb < 0 →
              (pre ++ keys) !! S r = Some b → compare_bytes b kb > 0).
Proof.
  revert i pre. induction keys as [|k rest IH]; intros i pre Hl Hi Hn Hpre.
  - rewrite app_nil_r in *. cbn [floor_scan].
    exists (i - 1)%nat. rewrite u16_small by lia.
    split; [lia|]. split; [lia|]. split; [|split].
    + intros j a _. apply Hpre.
    + intros a Ha. apply Z.lt_le_incl. by eapply Hpre.
    + intros a b _ _ Hb. apply lookup_lt_Some in Hb. lia.
  - cbn [floor_scan]. case_bool_decide as H0; [|case_bool_decide as H1].
    + exists i. split; [done|]. split; [rewrite length_app; cbn; lia|].
      split; [|split].
      * intros j a Hj Ha. rewrite lookup_app_l in Ha by lia. by eapply Hpre.
      * intros a Ha. rewrite lookup_app_r, Hl, Nat.sub_diag in Ha by lia.
        injection Ha as <-. lia.
      * intros a b Ha Hlt. rewrite lookup_app_r, Hl, Nat.sub_diag in Ha by lia.
        injection Ha as <-. lia.
    + exists (i - 1)%nat. rewrite length_app in Hn. rewrite u16_small by lia.
      split; [lia|]. split; [rewrite length_app; lia|]. split; [|split].
      * intros j a Hj Ha. rewrite lookup_app_l in Ha by lia. by eapply Hpre.
      * intros a Ha. rewrite lookup_app_l in Ha by lia.
        apply Z.lt_le_incl. by eapply Hpre.
      * intros a b _ _ Hb. replace (S (i - 1)) with i in Hb by lia.
        rewrite lookup_app_r, Hl, Nat.sub_diag in Hb by lia.
        by injection Hb as <-.
    + destruct (IH (S i) (pre ++ [k])) as (r & Er & Hr & Hlt & Hle & Hnx).
      * rewrite length_app. cbn. lia.
      * lia.
      * by rewrite <- app_assoc.
      * intros j a Ha. apply lookup_app_Some in Ha as [Ha|[_ Ha]].
        -- by eapply Hpre.
        -- apply list_lookup_singleton_Some in Ha as [_ <-]. lia.
      * rewrite <- app_assoc in *. by exists r.
Qed.

(** What the scan returns on any sequence of keys, ordered or not. *)
Lemma floor_scan_result keys kb :
  Z.of_nat (length keys) < 65536 →
  (floor_scan keys kb 0 = 65535
   ∧ (keys = [] ∨ ∃ k0, keys !! 0%nat = Some k0 ∧ compare_bytes k0 kb > 0))
  ∨ ∃ r : nat,
      floor_scan keys kb 0 = Z.of_nat r ∧ (r < length keys)%nat
      ∧ (∀ j a, (j < r)%nat → keys !! j = Some a → compare_bytes a kb < 0)
      ∧ (∀ a, keys !! r = Some a → compare_bytes a kb ≤ 0)
      ∧ (∀ a b, keys !! r = Some a → compare_bytes a kb < 0 →
                keys !! S r = Some b → compare_bytes b kb > 0).
Proof.
  intros Hn. destruct keys as [|k rest].
  { left. split; [reflexivity|by left]. }
  cbn [floor_scan]. case_bool_decide as H0; [|case_bool_decide as H1].
  - right. exists 0%nat. split; [done|]. split; [cbn; lia|].
    split; [intros; lia|]. split.
    + intros a [= <-]. lia.
    + intros a b [= <-]. lia.
  - left. split; [reflexivity|]. right. by exists k.
  - right. apply (floor_scan_from rest kb 1 [k]); try done.
    intros j a Ha. apply list_lookup_singleton_Some in Ha as [_ <-]. lia.
Qed.

(** The keys of the items, as byte strings. *)
Lemma keys_of_items h (es : list item) :
  e_key <$> (entry_of h <$> es) = (λ x : item, view h x.1.2) <$> es.
Proof. rewrite <- list_fmap_compose. by apply list_fmap_ext. Qed.

(** X3: On every node, whatever the order of its keys, [nodeLookupLE] returns
    either 65535, and it does so exactly when the node is empty or its
    first key is above the key looked for, or an index [r] of the node
    such that the keys before [r] are below the key, the key at [r] is
    below or equal to it, and if it is below, the next key, if any, is
    above. *)
Theorem nodeLookupLE_result h t es key :
  0 ≤ t < 65536 → Forall (item_ok h) es →
  Z.of_nat (node_size (length es) (entry_of h <$> es)) ≤ 2 * BTREE_PAGE_SIZE →
  valid h key →
  let keys := (λ x : item, view h x.1.2) <$> es in
  let kb := view h key in
  ∃ h' node res,
    build_node t es h = (h', Ok node)
    ∧ nodeLookupLE node key h' = (h', Ok res)
    ∧ ((res = 65535
        ∧ (es = [] ∨ ∃ k0, keys !! 0%nat = Some k0 ∧ compare_bytes k0 kb > 0))
       ∨ ∃ r : nat,
           res = Z.of_nat r ∧ (r < length es)%nat
           ∧ (∀ j a, (j < r)%nat → keys !! j = Some a → compare_bytes a kb < 0)
           ∧ (∀ a, keys !! r = Some a → compare_bytes a kb ≤ 0)
           ∧ (∀ a b, keys !! r = Some a → compare_bytes a kb < 0 →
                     keys !! S r = Some b → compare_bytes b kb > 0)).
Proof.
  intros Ht Hok Hfit Hkey keys kb.
  destruct (build_node_holds h t _ Ht Hok Hfit)
    as (h' & nd & E & H & Bo & L & Lo & F).
  assert (view h' key = kb) as Vkey.
  { apply view_frame, F. apply valid_base in Hkey. lia. }
  assert (Z.of_nat (length keys) < 65536) as Hn.
  { unfold keys. rewrite length_fmap. unfold node_size, BTREE_PAGE_SIZE in Hfit.
    lia. }
  exists h', nd, (floor_scan keys kb 0). split; [done|]. split.
  - unfold nodeLookupLE. rewrite (bind_ok _ _ _ _ _ (nkeys_img _ _ _ _ _ H)).
    rewrite Nat2Z.id.
    pose proof (scan_eval h' nd t (entry_of h <$> es) key (length es) 0) as Es.
    rewrite length_fmap in Es. change (Z.of_nat 0) with 0 in Es.
    rewrite Es by done. by rewrite drop_0, keys_of_items, Vkey.
  - destruct (floor_scan_result keys kb Hn) as [[E0 Hc]|(r & Er & Hr & Hrest)].
    + left. split; [done|]. destruct Hc as [Hc|Hc]; [left|by right].
      unfold keys in Hc. by apply fmap_nil_inv in Hc.
    + right. exists r. unfold keys in Hr. rewrite length_fmap in Hr.
      exact (conj Er (conj Hr Hrest)).
Qed.

(** The keys "a" and "b" of the sample items, and a look-up of "b". *)
Lemma nodeLookupLE_result_witness :
  0 ≤ BNODE_LEAF < 65536 ∧ Forall (item_ok sample_heap) sample_items ∧
  Z.of_nat (node_size (length sample_items)
              (entry_of sample_heap <$> sample_items)) ≤ 2 * BTREE_PAGE_SIZE ∧
  valid sample_heap key_b ∧
  let keys := (λ x : item, view sample_heap x.1.2) <$> sample_items in
  let kb := view sample_heap key_b in
  ∃ h' node res,
    build_node BNODE_LEAF sample_items sample_heap = (h', Ok node)
    ∧ nodeLookupLE node key_b h' = (h', Ok res)
    ∧ ((res = 65535
        ∧ (sample_items = []
           ∨ ∃ k0, keys !! 0%nat = Some k0 ∧ compare_bytes k0 kb > 0))
       ∨ ∃ r : nat,
           res = Z.of_nat r ∧ (r < length sample_items)%nat
           ∧ (∀ j a, (j < r)%nat → keys !! j = Some a → compare_bytes a kb < 0)
           ∧ (∀ a, keys !! r = Some a → compare_bytes a kb ≤ 0)
           ∧ (∀ a b, keys !! r = Some a → compare_bytes a kb < 0 →
                     keys !! S r = Some b → compare_bytes b kb > 0)).
Proof.
  assert (0 ≤ BNODE_LEAF < 65536) as H1 by (unfold BNODE_LEAF; lia).
  assert (Z.of_nat (node_size (length sample_items)
            (entry_of sample_heap <$> sample_items)) ≤ 2 * BTREE_PAGE_SIZE)
    as H3 by (cbn; unfold BTREE_PAGE_SIZE; lia).
  assert (valid sample_heap key_b) as H4
    by (eexists; split; [reflexivity|cbn; lia]).
  exact (conj H1 (conj sample_items_ok (conj H3 (conj H4
    (nodeLookupLE_result sample_heap BNODE_LEAF sample_items key_b
       H1 sample_items_ok H3 H4))))).
Defined.

(** X4: Keys in strictly ascending order, the first of them not above the key:
    [nodeLookupLE] returns the greatest index whose key is below or equal
    to the key looked for; a key that is in the node is found at its
    index. *)
Theorem nodeLookupLE_finds_floor h t es key :
  0 ≤ t < 65536 → Forall (item_ok h) es →
  Z.of_nat (node_size (length es) (entry_of h <$> es)) ≤ 2 * BTREE_PAGE_SIZE →
  valid h key →
  let keys := (λ x : item, view h x.1.2) <$> es in
  let kb := view h key in
  ascending keys →
  (∃ k0, keys !! 0%nat = Some k0 ∧ compare_bytes k0 kb ≤ 0) →
  ∃ h' node (r : nat),
    build_node t es h = (h', Ok node)
    ∧ nodeLookupLE node key h' = (h', Ok (Z.of_nat r))
    ∧ (r < length es)%nat
    ∧ (∀ a, keys !! r = Some a → compare_bytes a kb ≤ 0)
    ∧ (∀ j b, (r < j)%nat → keys !! j = Some b → compare_bytes b kb > 0)
    ∧ (∀ i, keys !! i = Some kb → r = i).
Proof.
  intros Ht Hok Hfit Hkey keys kb Hasc (k0 & Hk0 & Hle0).
  destruct (build_node_holds h t _ Ht Hok Hfit)
    as (h' & nd & E & H & Bo & L & Lo & F).
  assert (view h' key = kb) as Vkey.
  { apply view_frame, F. apply valid_base in Hkey. lia. }
  assert (1 ≤ length es)%nat as Hn.
  { apply lookup_lt_Some in Hk0. unfold keys in Hk0.
    by rewrite length_fmap in Hk0. }
  destruct (nodeLookupLE_floor h' nd t (entry_of h <$> es) key)
    as (r & Er & Hr & Hle & Hgt).
  - by rewrite length_fmap.
  - by rewrite keys_of_items.
  - intros e He. rewrite Vkey.
    assert (keys !! 0%nat = Some (e_key e)) as Hk.
    { unfold keys. rewrite <- keys_of_items, list_lookup_fmap, He. done. }
    rewrite Hk0 in Hk. by injection Hk as <-.
  - by rewrite length_fmap.
  - rewrite length_fmap in Hr. rewrite Vkey in Hle, Hgt.
    assert (∀ j b, keys !! j = Some b →
              ∃ e, (entry_of h <$> es) !! j = Some e ∧ e_key e = b) as Hback.
    { intros j b Hb. unfold keys in Hb. rewrite <- keys_of_items in Hb.
      rewrite list_lookup_fmap in Hb.
      destruct ((entry_of h <$> es) !! j) as [e|]; [|done].
      exists e. split; [done|]. by injection Hb. }
    exists h', nd, r. split; [done|]. split; [done|]. split; [done|].
    split; [|split].
    + intros a Ha. destruct (Hback _ _ Ha) as (e & He & <-). by apply Hle.
    + intros j b Hj Hb. destruct (Hback _ _ Hb) as (e & He & <-).
      by apply (Hgt j).
    + intros i Hi.
      destruct (lookup_lt_is_Some_2 keys r) as [a Ha].
      { unfold keys. by rewrite length_fmap. }
      destruct (Nat.lt_trichotomy r i) as [Hlt|[->|Hlt]]; [|done|].
      * destruct (Hback _ _ Hi) as (e & He & Ee).
        pose proof (Hgt i e Hlt He) as Hc. rewrite Ee in Hc.
        assert (compare_bytes kb kb = 0) as Hrefl.
        { pose proof (compare_bytes_antisym kb kb). lia. }
        lia.
      * pose proof (Hasc i r kb a Hlt Hi Ha) as Hc.
        destruct (Hback _ _ Ha) as (e & He & Ee).
        pose proof (Hle e He) as Hc'. rewrite Ee in Hc'.
        pose proof (compare_bytes_antisym kb a). lia.
Qed.

Lemma nodeLookupLE_finds_floor_witness :
  0 ≤ BNODE_LEAF < 65536 ∧ Forall (item_ok sample_heap) sample_items ∧
  Z.of_nat (node_size (length sample_items)
              (entry_of sample_heap <$> sample_items)) ≤ 2 * BTREE_PAGE_SIZE ∧
  valid sample_heap key_b ∧
  let keys := (λ x : item, view sample_heap x.1.2) <$> sample_items in
  let kb := view sample_heap key_b in
  ascending keys ∧
  (∃ k0, keys !! 0%nat = Some k0 ∧ compare_bytes k0 kb ≤ 0) ∧
  ∃ h' node (r : nat),
    build_node BNODE_LEAF sample_items sample_heap = (h', Ok node)
    ∧ nodeLookupLE node key_b h' = (h', Ok (Z.of_nat r))
    ∧ (r < length sample_items)%nat
    ∧ (∀ a, keys !! r = Some a → compare_bytes a kb ≤ 0)
    ∧ (∀ j b, (r < j)%nat → keys !! j = Some b → compare_bytes b kb > 0)
    ∧ (∀ i, keys !! i = Some kb → r = i).
Proof.
  assert (0 ≤ BNODE_LEAF < 65536) as H1 by (unfold BNODE_LEAF; lia).
  assert (Z.of_nat (node_size (length sample_items)
            (entry_of sample_heap <$> sample_items)) ≤ 2 * BTREE_PAGE_SIZE)
    as H3 by (cbn; unfold BTREE_PAGE_SIZE; lia).
  assert (valid sample_heap key_b) as H4
    by (eexists; split; [reflexivity|cbn; lia]).
  assert (ascending ((λ x : item, view sample_heap x.1.2) <$> sample_items))
    as H5.
  { intros i j a b Hij Ha Hb.
    destruct i as [|[|i]], j as [|[|j]]; try lia; try done.
    injection Ha as <-. injection Hb as <-. vm_compute. reflexivity. }
  assert (∃ k0, ((λ x : item, view sample_heap x.1.2) <$> sample_items)
                  !! 0%nat = Some k0
                ∧ compare_bytes k0 (view sample_heap key_b) ≤ 0) as H6.
  { eexists. split; [reflexivity|]. vm_compute. discriminate. }
  exact (conj H1 (conj sample_items_ok (conj H3 (conj H4 (conj H5 (conj H6
    (nodeLookupLE_finds_floor sample_heap BNODE_LEAF sample_items key_b
       H1 sample_items_ok H3 H4 H5 H6))))))).
Defined.

(** ** Inserting into and updating a leaf *)

Lemma node_size_mono n es1 es2 :
  (kv_total es1 ≤ kv_total es2)%nat → (node_size n es1 ≤ node_size n es2)%nat.
Proof. unfold node_size. lia. Qed.

Lemma kv_total_cons e es : kv_total (e :: es) = (kv_size e + kv_total es)%nat.
Proof. reflexivity. Qed.

Lemma leafInsert_img h new old t' eo idx key val :
  let e := mkEntry 0 (view h key) (view h val) in
  holds h old t' (length eo) eo →
  valid h new → Z.of_nat (len new) < 65536 → base new ≠ base old →
  valid h key → valid h val → base key ≠ base new → base val ≠ base new →
  entry_ok e → (idx ≤ length eo)%nat →
  (node_size (S (length eo)) (take idx eo ++ e :: drop idx eo) ≤ len new)%nat →
  ∃ h', leafInsert new old (Z.of_nat idx) key val h = (h', Ok tt)
    ∧ holds h' new BNODE_LEAF (S (length eo)) (take idx eo ++ e :: drop idx eo)
    ∧ same_but (base new) h h'.
Proof.
  intros e Hold Hv Hlen Hb Hk Hval Hbk Hbv He Hidx Hfit.
  assert (kv_total (take idx eo ++ e :: drop idx eo)
          = (kv_total (take idx eo) + kv_size e + kv_total (drop idx eo))%nat)
    as Etot by (rewrite kv_total_app, kv_total_cons; lia).
  unfold node_size in Hfit. rewrite Etot in Hfit.
  unfold leafInsert.
  rewrite (bind_ok _ _ _ _ _ (nkeys_img _ _ _ _ _ Hold)).
  rewrite (u16_small (Z.of_nat (length eo) + 1)) by lia.
  replace (Z.of_nat (length eo) + 1) with (Z.of_nat (S (length eo))) by lia.
  destruct (setHeader_img h new BNODE_LEAF (S (length eo)) Hv Hlen)
    as (h1 & E1 & H1 & S1);
    [unfold BNODE_LEAF; lia|unfold node_size; cbn [kv_total sum_list_with]; lia|].
  rewrite (bind_ok _ _ _ _ _ E1).
  assert (holds h1 old t' (length eo) eo) as Hold1
    by (eapply holds_same_but; eauto).
  destruct (nodeAppendRange_img new old BNODE_LEAF t' (S (length eo))
              (length eo) eo [] 0 idx Hb) with (h := h1)
    as (h2 & E2 & H2 & S2); [| | |exact Hold1|exact H1|].
  { cbn [length]. lia. }
  { cbn. lia. }
  { rewrite drop_0. cbn [app]. unfold node_size. lia. }
  cbn [length app] in E2, H2. rewrite drop_0 in H2.
  change (Z.of_nat 0) with 0 in E2. rewrite (bind_ok _ _ _ _ _ E2).
  assert (same_but (base new) h h2) as S02 by (eapply same_but_trans; eauto).
  assert (view h2 key = view h key) as Vk by (eapply same_but_view; eauto).
  assert (view h2 val = view h val) as Vv by (eapply same_but_view; eauto).
  assert (length (take idx eo) = idx) as Lt by (rewrite length_take; lia).
  destruct (nodeAppendKV_img h2 new BNODE_LEAF (S (length eo)) (take idx eo)
              0 key val H2) as (h3 & E3 & H3 & S3).
  { lia. }
  { eapply same_but_valid; eauto. }
  { eapply same_but_valid; eauto. }
  { done. }
  { done. }
  { by rewrite Vk, Vv. }
  { rewrite Vk, Vv. fold e. unfold node_size. lia. }
  rewrite Lt in E3. rewrite Vk, Vv in H3. fold e in H3.
  rewrite (bind_ok _ _ _ _ _ E3).
  assert (holds h3 old t' (length eo) eo) as Hold3.
  { eapply holds_same_but; [exact S3|done|].
    eapply holds_same_but; [exact S2|done|done]. }
  rewrite (bind_ok _ _ _ _ _ (nkeys_img _ _ _ _ _ Hold3)).
  rewrite !u16_small by lia.
  destruct (nodeAppendRange_img new old BNODE_LEAF t' (S (length eo))
              (length eo) eo (take idx eo ++ [e]) idx (length eo - idx) Hb)
    with (h := h3) as (h4 & E4 & H4 & S4); [| | |exact Hold3|exact H3|].
  { rewrite length_app, Lt. cbn [length]. lia. }
  { lia. }
  { rewrite (take_ge (drop idx eo)) by (rewrite length_drop; lia).
    rewrite <- app_assoc. cbn [app]. unfold node_size. rewrite Etot. lia. }
  rewrite length_app, Lt in E4. cbn [length] in E4.
  replace (Z.of_nat (idx + 1)) with (Z.of_nat idx + 1) in E4 by lia.
  replace (Z.of_nat (length eo - idx))
    with (Z.of_nat (length eo) - Z.of_nat idx) in E4 by lia.
  rewrite (take_ge (drop idx eo)) in H4 by (rewrite length_drop; lia).
  rewrite <- app_assoc in H4. cbn [app] in H4.
  exists h4. split; [done|]. split; [done|].
  eapply same_but_trans; [exact S02|].
  eapply same_but_trans; [exact S3|exact S4].
Qed.

Lemma leafUpdate_img h new old t' eo idx key val :
  let e := mkEntry 0 (view h key) (view h val) in
  holds h old t' (length eo) eo →
  valid h new → Z.of_nat (len new) < 65536 → base new ≠ base old →
  valid h key → valid h val → base key ≠ base new → base val ≠ base new →
  entry_ok e → (idx < length eo)%nat →
  (node_size (length eo) (take idx eo ++ e :: drop (S idx) eo) ≤ len new)%nat →
  ∃ h', leafUpdate new old (Z.of_nat idx) key val h = (h', Ok tt)
    ∧ holds h' new BNODE_LEAF (length eo) (take idx eo ++ e :: drop (S idx) eo)
    ∧ same_but (base new) h h'.
Proof.
  intros e Hold Hv Hlen Hb Hk Hval Hbk Hbv He Hidx Hfit.
  assert (kv_total (take idx eo ++ e :: drop (S idx) eo)
          = (kv_total (take idx eo) + kv_size e + kv_total (drop (S idx) eo))%nat)
    as Etot by (rewrite kv_total_app, kv_total_cons; lia).
  unfold node_size in Hfit. rewrite Etot in Hfit.
  unfold leafUpdate.
  rewrite (bind_ok _ _ _ _ _ (nkeys_img _ _ _ _ _ Hold)).
  destruct (setHeader_img h new BNODE_LEAF (length eo) Hv Hlen)
    as (h1 & E1 & H1 & S1);
    [unfold BNODE_LEAF; lia|unfold node_size; cbn [kv_total sum_list_with]; lia|].
  rewrite (bind_ok _ _ _ _ _ E1).
  assert (holds h1 old t' (length eo) eo) as Hold1
    by (eapply holds_same_but; eauto).
  destruct (nodeAppendRange_img new old BNODE_LEAF t' (length eo)
              (length eo) eo [] 0 idx Hb) with (h := h1)
    as (h2 & E2 & H2 & S2); [| | |exact Hold1|exact H1|].
  { cbn [length]. lia. }
  { cbn. lia. }
  { rewrite drop_0. cbn [app]. unfold node_size. lia. }
  cbn [length app] in E2, H2. rewrite drop_0 in H2.
  change (Z.of_nat 0) with 0 in E2. rewrite (bind_ok _ _ _ _ _ E2).
  assert (same_but (base new) h h2) as S02 by (eapply same_but_trans; eauto).
  assert (view h2 key = view h key) as Vk by (eapply same_but_view; eauto).
  assert (view h2 val = view h val) as Vv by (eapply same_but_view; eauto).
  assert (length (take idx eo) = idx) as Lt by (rewrite length_take; lia).
  destruct (nodeAppendKV_img h2 new BNODE_LEAF (length eo) (take idx eo)
              0 key val H2) as (h3 & E3 & H3 & S3).
  { lia. }
  { eapply same_but_valid; eauto. }
  { eapply same_but_valid; eauto. }
  { done. }
  { done. }
  { by rewrite Vk, Vv. }
  { rewrite Vk, Vv. fold e. unfold node_size. lia. }
  rewrite Lt in E3. rewrite Vk, Vv in H3. fold e in H3.
  rewrite (bind_ok _ _ _ _ _ E3).
  assert (holds h3 old t' (length eo) eo) as Hold3.
  { eapply holds_same_but; [exact S3|done|].
    eapply holds_same_but; [exact S2|done|done]. }
  rewrite (bind_ok _ _ _ _ _ (nkeys_img _ _ _ _ _ Hold3)).
  pose proof (holds_size _ _ _ _ _ Hold) as Hso. unfold node_size in Hso.
  destruct Hold as (_ & Hlo & _).
  rewrite !u16_small by lia.
  destruct (nodeAppendRange_img new old BNODE_LEAF t' (length eo)
              (length eo) eo (take idx eo ++ [e]) (S idx) (length eo - S idx) Hb)
    with (h := h3) as (h4 & E4 & H4 & S4); [| | |exact Hold3|exact H3|].
  { rewrite length_app, Lt. cbn [length]. lia. }
  { lia. }
  { rewrite (take_ge (drop (S idx) eo)) by (rewrite length_drop; lia).
    rewrite <- app_assoc. cbn [app]. unfold node_size. rewrite Etot. lia. }
  rewrite length_app, Lt in E4. cbn [length] in E4.
  replace (Z.of_nat (idx + 1)) with (Z.of_nat idx + 1) in E4 by lia.
  replace (Z.of_nat (S idx)) with (Z.of_nat idx + 1) in E4 by lia.
  replace (Z.of_nat (length eo - S idx))
    with (Z.of_nat (length eo) - (Z.of_nat idx + 1)) in E4 by lia.
  rewrite (take_ge (drop (S idx) eo)) in H4 by (rewrite length_drop; lia).
  rewrite <- app_assoc in H4. cbn [app] in H4.
  exists h4. split; [done|]. split; [done|].
  eapply same_but_trans; [exact S02|].
  eapply same_but_trans; [exact S3|exact S4].
Qed.

(** A node built from items and a new working buffer behind it: what the
    heap holds then. *)
Lemma built_then_fresh h t es :
  0 ≤ t < 65536 → Forall (item_ok h) es →
  Z.of_nat (node_size (length es) (entry_of h <$> es)) ≤ 2 * BTREE_PAGE_SIZE →
  ∃ h1 old h2 new,
    build_node t es h = (h1, Ok old)
    ∧ make (Z.to_nat (2 * BTREE_PAGE_SIZE)) h1 = (h2, Ok new)
    ∧ holds h2 old t (length es) (entry_of h <$> es)
    ∧ valid h2 new ∧ base new ≠ base old
    ∧ Z.of_nat (len new) = 2 * BTREE_PAGE_SIZE
    ∧ (∀ s, valid h s →
         valid h2 s ∧ view h2 s = view h s
         ∧ base s ≠ base new ∧ base s ≠ base old).
Proof.
  intros Ht Hok Hfit.
  destruct (build_node_holds h t es Ht Hok Hfit)
    as (h1 & old & E & H & Bo & L & Lo & F).
  exists h1, old, (h1 ++ [replicate (Z.to_nat (2 * BTREE_PAGE_SIZE)) 0]),
    (mkSlice (length h1) 0 (Z.to_nat (2 * BTREE_PAGE_SIZE))
       (Z.to_nat (2 * BTREE_PAGE_SIZE))).
  split; [exact E|]. split; [apply make_unfold|].
  split; [exact (holds_app_l _ _ _ _ _ _ H)|]. split; [apply valid_fresh|].
  cbn [base len]. split; [lia|]. split; [unfold BTREE_PAGE_SIZE; lia|].
  intros s Hs. pose proof (valid_base _ _ Hs) as Hbs.
  assert (h1 !! base s = h !! base s) as Es by (apply F; lia).
  assert (valid h1 s) as Hs1.
  { destruct Hs as (arr & Ea & Hr). exists arr. rewrite Es.
    split; assumption. }
  split; [exact (valid_app_l _ _ _ Hs1)|]. split; [|lia].
  rewrite view_app_l by lia. exact (view_frame _ _ _ Es).
Qed.

(** The heap after building a node, making a working buffer and
    inserting into the buffer with [leafInsert]. *)
Lemma leafInsert_built h t es idx key val :
  let old_es := entry_of h <$> es in
  let e := entry_of h (0, key, val) in
  0 ≤ t < 65536 → Forall (item_ok h) es → item_ok h (0, key, val) →
  (idx ≤ length es)%nat →
  Z.of_nat (node_size (S (length es)) (e :: old_es)) ≤ 2 * BTREE_PAGE_SIZE →
  ∃ h1 old h2 new h3,
    build_node t es h = (h1, Ok old)
    ∧ make (Z.to_nat (2 * BTREE_PAGE_SIZE)) h1 = (h2, Ok new)
    ∧ leafInsert new old (Z.of_nat idx) key val h2 = (h3, Ok tt)
    ∧ holds h3 new BNODE_LEAF (S (length es))
        (take idx old_es ++ e :: drop idx old_es)
    ∧ holds h3 old t (length es) old_es
    ∧ view h3 key = view h key.
Proof.
  intros old_es e Ht Hok (Hk & Hv & He) Hidx Hfit. cbn [fst snd] in Hk, Hv.
  assert (kv_total (take idx old_es ++ e :: drop idx old_es)
          = kv_total (e :: old_es)) as Etot.
  { rewrite kv_total_app, !kv_total_cons.
    rewrite (kv_total_take_drop old_es idx). lia. }
  destruct (built_then_fresh h t es Ht Hok)
    as (h1 & old & h2 & new & E1 & E2 & Hold & Hnew & Hb & Ln & Hfr).
  { unfold node_size, old_es in *. rewrite kv_total_cons in Hfit. lia. }
  destruct (Hfr _ Hk) as (Hk2 & Vk & Bk & _).
  destruct (Hfr _ Hv) as (Hv2 & Vv & Bv & _).
  assert (length old_es = length es) as Lo by apply length_fmap.
  rewrite <- Lo in Hold.
  assert (Z.of_nat (len new) < 65536) as Hlen
    by (unfold BTREE_PAGE_SIZE in Ln; lia).
  assert (mkEntry 0 (view h2 key) (view h2 val) = e) as Ee
    by (rewrite Vk, Vv; reflexivity).
  assert (idx ≤ length old_es)%nat as Hidx' by lia.
  assert (node_size (S (length old_es))
            (take idx old_es ++ e :: drop idx old_es) ≤ len new)%nat as Hfit'.
  { unfold node_size in *. rewrite Etot, Lo. lia. }
  change (entry_ok e) in He. rewrite <- Ee in He, Hfit'.
  destruct (leafInsert_img h2 new old t old_es idx key val Hold Hnew Hlen Hb
              Hk2 Hv2 Bk Bv He Hidx' Hfit') as (h3 & E3 & H3 & S3).
  rewrite Ee in H3.
  assert (holds h3 old t (length old_es) old_es) as Hold3
    by (eapply holds_same_but; [exact S3|exact (not_eq_sym Hb)|exact Hold]).
  rewrite Lo in H3, Hold3.
  exists h1, old, h2, new, h3.
  split; [exact E1|]. split; [exact E2|]. split; [exact E3|].
  split; [exact H3|]. split; [exact Hold3|].
  rewrite <- Vk. exact (same_but_view _ _ _ _ S3 Bk).
Qed.


(** X5: [leafInsert] into a new buffer: the new node is a leaf with one key
    more, holding the entries of the old node before [idx], then the new
    key and value with the pointer 0, then the entries of the old node
    from [idx] on; the old node reads as before. *)
Theorem leafInsert_inserts_at h t es idx key val :
  let old_es := entry_of h <$> es in
  let e := entry_of h (0, key, val) in
  0 ≤ t < 65536 → Forall (item_ok h) es → item_ok h (0, key, val) →
  (idx ≤ length es)%nat →
  Z.of_nat (node_size (S (length es)) (e :: old_es)) ≤ 2 * BTREE_PAGE_SIZE →
  ∃ h1 old h2 new h3,
    build_node t es h = (h1, Ok old)
    ∧ make (Z.to_nat (2 * BTREE_PAGE_SIZE)) h1 = (h2, Ok new)
    ∧ leafInsert new old (Z.of_nat idx) key val h2 = (h3, Ok tt)
    ∧ btype new h3 = (h3, Ok BNODE_LEAF)
    ∧ nkeys new h3 = (h3, Ok (Z.of_nat (length es) + 1))
    ∧ entries_of new h3 = (h3, Ok (take idx old_es ++ e :: drop idx old_es))
    ∧ btype old h3 = (h3, Ok t)
    ∧ entries_of old h3 = (h3, Ok old_es).
Proof.
  intros old_es e Ht Hok Hkv Hidx Hfit.
  destruct (leafInsert_built h t es idx key val Ht Hok Hkv Hidx Hfit)
    as (h1 & old & h2 & new & h3 & E1 & E2 & E3 & H3 & Hold3 & _).
  fold old_es e in H3, Hold3.
  assert (length old_es = length es) as Lo by apply length_fmap.
  assert (length (take idx old_es ++ e :: drop idx old_es)
          = S (length es)) as Ll.
  { rewrite length_app, length_take. cbn [length]. rewrite length_drop. lia. }
  rewrite <- Ll in H3. rewrite <- Lo in Hold3.
  exists h1, old, h2, new, h3.
  split; [exact E1|]. split; [exact E2|]. split; [exact E3|].
  split; [exact (btype_img _ _ _ _ _ H3)|].
  split. { rewrite (nkeys_img _ _ _ _ _ H3), Ll. do 2 f_equal. lia. }
  split; [exact (entries_of_img _ _ _ _ H3)|].
  split; [exact (btype_img _ _ _ _ _ Hold3)|].
  exact (entries_of_img _ _ _ _ Hold3).
Qed.

Lemma leafInsert_inserts_at_witness :
  let old_es := entry_of sample_heap <$> sample_items in
  let e := entry_of sample_heap (0, key_b, val_2) in
  0 ≤ BNODE_LEAF < 65536 ∧ Forall (item_ok sample_heap) sample_items ∧
  item_ok sample_heap (0, key_b, val_2) ∧
  (1 ≤ length sample_items)%nat ∧
  Z.of_nat (node_size (S (length sample_items)) (e :: old_es))
    ≤ 2 * BTREE_PAGE_SIZE ∧
  ∃ h1 old h2 new h3,
    build_node BNODE_LEAF sample_items sample_heap = (h1, Ok old)
    ∧ make (Z.to_nat (2 * BTREE_PAGE_SIZE)) h1 = (h2, Ok new)
    ∧ leafInsert new old (Z.of_nat 1) key_b val_2 h2 = (h3, Ok tt)
    ∧ btype new h3 = (h3, Ok BNODE_LEAF)
    ∧ nkeys new h3 = (h3, Ok (Z.of_nat (length sample_items) + 1))
    ∧ entries_of new h3 = (h3, Ok (take 1 old_es ++ e :: drop 1 old_es))
    ∧ btype old h3 = (h3, Ok BNODE_LEAF)
    ∧ entries_of old h3 = (h3, Ok old_es).
Proof.
  assert (0 ≤ BNODE_LEAF < 65536) as H1 by (unfold BNODE_LEAF; lia).
  assert (item_ok sample_heap (0, key_b, val_2)) as H2.
  { eapply item_ok_intro; try reflexivity; cbn;
      unfold BTREE_MAX_KEY_SIZE, BTREE_MAX_VAL_SIZE; lia. }
  assert (1 ≤ length sample_items)%nat as H3 by (cbn; lia).
  assert (Z.of_nat (node_size (S (length sample_items))
            (entry_of sample_heap (0, key_b, val_2)
             :: (entry_of sample_heap <$> sample_items)))
          ≤ 2 * BTREE_PAGE_SIZE) as H4
    by (cbn; unfold BTREE_PAGE_SIZE; lia).
  exact (conj H1 (conj sample_items_ok (conj H2 (conj H3 (conj H4
    (leafInsert_inserts_at sample_heap BNODE_LEAF sample_items 1 key_b val_2
       H1 sample_items_ok H2 H3 H4)))))).
Defined.

(** The heap after building a node, making a working buffer and
    updating into the buffer with [leafUpdate]. *)
Lemma leafUpdate_built h t es idx key val :
  let old_es := entry_of h <$> es in
  let e := entry_of h (0, key, val) in
  0 ≤ t < 65536 → Forall (item_ok h) es → item_ok h (0, key, val) →
  (idx < length es)%nat →
  Z.of_nat (node_size (length es) old_es) ≤ 2 * BTREE_PAGE_SIZE →
  Z.of_nat (node_size (length es) (take idx old_es ++ e :: drop (S idx) old_es))
    ≤ 2 * BTREE_PAGE_SIZE →
  ∃ h1 old h2 new h3,
    build_node t es h = (h1, Ok old)
    ∧ make (Z.to_nat (2 * BTREE_PAGE_SIZE)) h1 = (h2, Ok new)
    ∧ leafUpdate new old (Z.of_nat idx) key val h2 = (h3, Ok tt)
    ∧ holds h3 new BNODE_LEAF (length es)
        (take idx old_es ++ e :: drop (S idx) old_es)
    ∧ holds h3 old t (length es) old_es
    ∧ view h3 key = view h key.
Proof.
  intros old_es e Ht Hok (Hk & Hv & He) Hidx Hfit Hfit'.
  cbn [fst snd] in Hk, Hv.
  destruct (built_then_fresh h t es Ht Hok Hfit)
    as (h1 & old & h2 & new & E1 & E2 & Hold & Hnew & Hb & Ln & Hfr).
  destruct (Hfr _ Hk) as (Hk2 & Vk & Bk & _).
  destruct (Hfr _ Hv) as (Hv2 & Vv & Bv & _).
  assert (length old_es = length es) as Lo by apply length_fmap.
  rewrite <- Lo in Hold.
  assert (Z.of_nat (len new) < 65536) as Hlen
    by (unfold BTREE_PAGE_SIZE in Ln; lia).
  assert (mkEntry 0 (view h2 key) (view h2 val) = e) as Ee
    by (rewrite Vk, Vv; reflexivity).
  assert (idx < length old_es)%nat as Hidx' by lia.
  assert (node_size (length old_es)
            (take idx old_es ++ e :: drop (S idx) old_es) ≤ len new)%nat
    as Hfit2 by (rewrite Lo; lia).
  change (entry_ok e) in He. rewrite <- Ee in He, Hfit2.
  destruct (leafUpdate_img h2 new old t old_es idx key val Hold Hnew Hlen Hb
              Hk2 Hv2 Bk Bv He Hidx' Hfit2) as (h3 & E3 & H3 & S3).
  rewrite Ee in H3.
  assert (holds h3 old t (length old_es) old_es) as Hold3
    by (eapply holds_same_but; [exact S3|exact (not_eq_sym Hb)|exact Hold]).
  rewrite Lo in H3, Hold3.
  exists h1, old, h2, new, h3.
  split; [exact E1|]. split; [exact E2|]. split; [exact E3|].
  split; [exact H3|]. split; [exact Hold3|].
  rewrite <- Vk. exact (same_but_view _ _ _ _ S3 Bk).
Qed.


(** X6: [leafUpdate] into a new buffer: the new node is a leaf with as many
    keys as the old one, holding its entries with the one at [idx]
    replaced by the new key and value with the pointer 0; the old node
    reads as before. *)
Theorem leafUpdate_replaces_at h t es idx key val :
  let old_es := entry_of h <$> es in
  let e := entry_of h (0, key, val) in
  0 ≤ t < 65536 → Forall (item_ok h) es → item_ok h (0, key, val) →
  (idx < length es)%nat →
  Z.of_nat (node_size (length es) old_es) ≤ 2 * BTREE_PAGE_SIZE →
  Z.of_nat (node_size (length es) (take idx old_es ++ e :: drop (S idx) old_es))
    ≤ 2 * BTREE_PAGE_SIZE →
  ∃ h1 old h2 new h3,
    build_node t es h = (h1, Ok old)
    ∧ make (Z.to_nat (2 * BTREE_PAGE_SIZE)) h1 = (h2, Ok new)
    ∧ leafUpdate new old (Z.of_nat idx) key val h2 = (h3, Ok tt)
    ∧ btype new h3 = (h3, Ok BNODE_LEAF)
    ∧ nkeys new h3 = (h3, Ok (Z.of_nat (length es)))
    ∧ entries_of new h3
      = (h3, Ok (take idx old_es ++ e :: drop (S idx) old_es))
    ∧ btype old h3 = (h3, Ok t)
    ∧ entries_of old h3 = (h3, Ok old_es).
Proof.
  intros old_es e Ht Hok Hkv Hidx Hfit Hfit'.
  destruct (leafUpdate_built h t es idx key val Ht Hok Hkv Hidx Hfit Hfit')
    as (h1 & old & h2 & new & h3 & E1 & E2 & E3 & H3 & Hold3 & _).
  fold old_es e in H3, Hold3.
  assert (length old_es = length es) as Lo by apply length_fmap.
  assert (length (take idx old_es ++ e :: drop (S idx) old_es)
          = length es) as Ll.
  { rewrite length_app, length_take. cbn [length]. rewrite length_drop. lia. }
  rewrite <- Ll in H3 at 1. rewrite <- Lo in Hold3.
  exists h1, old, h2, new, h3.
  split; [exact E1|]. split; [exact E2|]. split; [exact E3|].
  split; [exact (btype_img _ _ _ _ _ H3)|].
  split. { rewrite (nkeys_img _ _ _ _ _ H3), Ll. reflexivity. }
  split; [exact (entries_of_img _ _ _ _ H3)|].
  split; [exact (btype_img _ _ _ _ _ Hold3)|].
  exact (entries_of_img _ _ _ _ Hold3).
Qed.

Lemma leafUpdate_replaces_at_witness :
  let old_es := entry_of sample_heap <$> sample_items in
  let e := entry_of sample_heap (0, key_b, val_1) in
  0 ≤ BNODE_LEAF < 65536 ∧ Forall (item_ok sample_heap) sample_items ∧
  item_ok sample_heap (0, key_b, val_1) ∧
  (1 < length sample_items)%nat ∧
  Z.of_nat (node_size (length sample_items) old_es) ≤ 2 * BTREE_PAGE_SIZE ∧
  Z.of_nat (node_size (length sample_items)
              (take 1 old_es ++ e :: drop 2 old_es)) ≤ 2 * BTREE_PAGE_SIZE ∧
  ∃ h1 old h2 new h3,
    build_node BNODE_LEAF sample_items sample_heap = (h1, Ok old)
    ∧ make (Z.to_nat (2 * BTREE_PAGE_SIZE)) h1 = (h2, Ok new)
    ∧ leafUpdate new old (Z.of_nat 1) key_b val_1 h2 = (h3, Ok tt)
    ∧ btype new h3 = (h3, Ok BNODE_LEAF)
    ∧ nkeys new h3 = (h3, Ok (Z.of_nat (length sample_items)))
    ∧ entries_of new h3 = (h3, Ok (take 1 old_es ++ e :: drop 2 old_es))
    ∧ btype old h3 = (h3, Ok BNODE_LEAF)
    ∧ entries_of old h3 = (h3, Ok old_es).
Proof.
  assert (0 ≤ BNODE_LEAF < 65536) as H1 by (unfold BNODE_LEAF; lia).
  assert (item_ok sample_heap (0, key_b, val_1)) as H2.
  { eapply item_ok_intro; try reflexivity; cbn;
      unfold BTREE_MAX_KEY_SIZE, BTREE_MAX_VAL_SIZE; lia. }
  assert (1 < length sample_items)%nat as H3 by (cbn; lia).
  assert (Z.of_nat (node_size (length sample_items)
            (entry_of sample_heap <$> sample_items)) ≤ 2 * BTREE_PAGE_SIZE)
    as H4 by (cbn; unfold BTREE_PAGE_SIZE; lia).
  assert (Z.of_nat (node_size (length sample_items)
            (take 1 (entry_of sample_heap <$> sample_items)
             ++ entry_of sample_heap (0, key_b, val_1)
             :: drop 2 (entry_of sample_heap <$> sample_items)))
          ≤ 2 * BTREE_PAGE_SIZE) as H5
    by (cbn; unfold BTREE_PAGE_SIZE; lia).
  exact (conj H1 (conj sample_items_ok (conj H2 (conj H3 (conj H4 (conj H5
    (leafUpdate_replaces_at sample_heap BNODE_LEAF sample_items 1 key_b val_1
       H1 sample_items_ok H2 H3 H4 H5))))))).
Defined.

(** ** Insert, then look up *)

Lemma lookup_insert_at {A} (l : list A) x idx i :
  (idx ≤ length l)%nat →
  (take idx l ++ x :: drop idx l) !! i
  = if decide (i < idx)%nat then l !! i
    else if decide (i = idx) then Some x else l !! (i - 1)%nat.
Proof.
  intros Hidx.
  assert (length (take idx l) = idx) as Lt by (rewrite length_take; lia).
  destruct (decide (i < idx)%nat) as [Hlt|Hge].
  - rewrite lookup_app_l by lia. rewrite lookup_take.
    by destruct (decide (i < idx)%nat).
  - rewrite lookup_app_r by lia. rewrite Lt.
    destruct (decide (i = idx)) as [->|Hne].
    + by rewrite Nat.sub_diag.
    + destruct (i - idx)%nat as [|k] eqn:Ek; [lia|].
      change ((x :: drop idx l) !! S k) with (drop idx l !! k).
      rewrite lookup_drop. f_equal. lia.
Qed.

Lemma ascending_insert keys kb idx :
  (idx ≤ length keys)%nat → ascending keys →
  (∀ j a, (j < idx)%nat → keys !! j = Some a → compare_bytes a kb < 0) →
  (∀ j a, (idx ≤ j)%nat → keys !! j = Some a → compare_bytes kb a < 0) →
  ascending (take idx keys ++ kb :: drop idx keys).
Proof.
  intros Hidx Hasc Hpre Hpost i j a b Hij.
  rewrite !lookup_insert_at by done.
  destruct (decide (i < idx)%nat) as [Hi|Hi];
    [|destruct (decide (i = idx)) as [->|Hi']];
    (destruct (decide (j < idx)%nat) as [Hj|Hj];
     [|destruct (decide (j = idx)) as [->|Hj']]); try lia; intros Ha Hb.
  - by apply (Hasc i j).
  - injection Hb as <-. by apply (Hpre i).
  - apply (Hasc i (j - 1)%nat); [lia|done|done].
  - injection Ha as <-. apply (Hpost (j - 1)%nat); [lia|done].
  - apply (Hasc (i - 1)%nat (j - 1)%nat); [lia|done|done].
Qed.

Lemma compare_bytes_refl a : compare_bytes a a = 0.
Proof. pose proof (compare_bytes_antisym a a). lia. Qed.

(** The scan stops at the first key equal to the one looked for when the
    keys before it are below. *)
Lemma floor_scan_hit pre kb post i :
  (∀ j a, pre !! j = Some a → compare_bytes a kb < 0) →
  floor_scan (pre ++ kb :: post) kb i = Z.of_nat (i + length pre).
Proof.
  revert i. induction pre as [|a pre IH]; intros i Hpre.
  - cbn [app floor_scan length]. rewrite compare_bytes_refl.
    rewrite bool_decide_eq_true_2 by done. f_equal. lia.
  - cbn [app floor_scan length].
    pose proof (Hpre 0%nat a eq_refl) as Ha.
    rewrite bool_decide_eq_false_2 by lia.
    rewrite bool_decide_eq_false_2 by lia.
    rewrite IH; [f_equal; lia|].
    intros j b Hb. by apply (Hpre (S j)).
Qed.

(** X7: Insert, then look up: a key put by [leafInsert] at an index such that
    the keys before it are below and the keys from it on are above, into
    a node of ascending keys, leaves the keys of the new node ascending;
    [nodeLookupLE] on the new node finds the key at that index, and
    [getVal] there shows the value. *)
Theorem leafInsert_then_lookup h t es idx key val :
  let keys := (λ x : item, view h x.1.2) <$> es in
  let kb := view h key in
  0 ≤ t < 65536 → Forall (item_ok h) es → item_ok h (0, key, val) →
  (idx ≤ length es)%nat →
  Z.of_nat (node_size (S (length es))
              (entry_of h (0, key, val) :: (entry_of h <$> es)))
    ≤ 2 * BTREE_PAGE_SIZE →
  ascending keys →
  (∀ j a, (j < idx)%nat → keys !! j = Some a → compare_bytes a kb < 0) →
  (∀ j a, (idx ≤ j)%nat → keys !! j = Some a → compare_bytes kb a < 0) →
  ∃ h1 old h2 new h3 v,
    build_node t es h = (h1, Ok old)
    ∧ make (Z.to_nat (2 * BTREE_PAGE_SIZE)) h1 = (h2, Ok new)
    ∧ leafInsert new old (Z.of_nat idx) key val h2 = (h3, Ok tt)
    ∧ keys_of new h3 = (h3, Ok (take idx keys ++ kb :: drop idx keys))
    ∧ ascending (take idx keys ++ kb :: drop idx keys)
    ∧ nodeLookupLE new key h3 = (h3, Ok (Z.of_nat idx))
    ∧ getVal new (Z.of_nat idx) h3 = (h3, Ok v)
    ∧ view h3 v = view h val.
Proof.
  intros keys kb Ht Hok Hkv Hidx Hfit Hasc Hpre Hpost.
  destruct (leafInsert_built h t es idx key val Ht Hok Hkv Hidx Hfit)
    as (h1 & old & h2 & new & h3 & E1 & E2 & E3 & H3 & _ & Vk).
  set (old_es := entry_of h <$> es) in *.
  set (e := entry_of h (0, key, val)) in *.
  set (new_es := take idx old_es ++ e :: drop idx old_es) in *.
  assert (length old_es = length es) as Lo by apply length_fmap.
  assert (length new_es = S (length es)) as Ll.
  { unfold new_es. rewrite length_app, length_take. cbn [length].
    rewrite length_drop. lia. }
  assert (e_key <$> new_es = take idx keys ++ kb :: drop idx keys) as Ek.
  { unfold new_es. rewrite fmap_app, fmap_cons, fmap_take, fmap_drop.
    unfold old_es. rewrite keys_of_items. reflexivity. }
  assert (length (take idx keys) = idx) as Lt.
  { rewrite length_take. unfold keys. rewrite length_fmap. lia. }
  rewrite <- Ll in H3.
  assert (new_es !! idx = Some e) as Hat.
  { unfold new_es. rewrite lookup_insert_at by lia.
    destruct (decide (idx < idx)%nat); [lia|].
    destruct (decide (idx = idx)) as [_|Hne]; [reflexivity|].
    exfalso. apply Hne. reflexivity. }
  destruct (getVal_img _ _ _ _ _ H3 _ _ Hat) as (v & Ev & Vv & _).
  exists h1, old, h2, new, h3, v.
  split; [exact E1|]. split; [exact E2|]. split; [exact E3|].
  split; [rewrite <- Ek; exact (keys_of_img _ _ _ _ H3)|].
  split.
  { apply ascending_insert; [|exact Hasc|exact Hpre|exact Hpost].
    unfold keys. rewrite length_fmap. exact Hidx. }
  split; [|split; [exact Ev|exact Vv]].
  unfold nodeLookupLE. rewrite (bind_ok _ _ _ _ _ (nkeys_img _ _ _ _ _ H3)).
  rewrite Nat2Z.id.
  pose proof (scan_eval h3 new BNODE_LEAF new_es key (length new_es) 0 H3)
    as Es.
  change (Z.of_nat 0) with 0 in Es. rewrite Es by reflexivity.
  rewrite drop_0, Ek, Vk. fold kb.
  rewrite floor_scan_hit.
  - rewrite Lt. reflexivity.
  - intros j a Ha. pose proof (lookup_lt_Some _ _ _ Ha) as Hj.
    rewrite Lt in Hj. rewrite lookup_take in Ha.
    destruct (decide (j < idx)%nat); [|lia]. exact (Hpre j a l Ha).
Qed.

(** The key "b" put behind the key "a". *)
Lemma leafInsert_then_lookup_witness :
  let keys := (λ x : item, view sample_heap x.1.2) <$> [(5, key_a, val_1)] in
  let kb := view sample_heap key_b in
  0 ≤ BNODE_LEAF < 65536 ∧ Forall (item_ok sample_heap) [(5, key_a, val_1)] ∧
  item_ok sample_heap (0, key_b, val_2) ∧
  (1 ≤ length [(5, key_a, val_1)])%nat ∧
  Z.of_nat (node_size (S (length [(5, key_a, val_1)]))
              (entry_of sample_heap (0, key_b, val_2)
               :: (entry_of sample_heap <$> [(5, key_a, val_1)])))
    ≤ 2 * BTREE_PAGE_SIZE ∧
  ascending keys ∧
  (∀ j a, (j < 1)%nat → keys !! j = Some a → compare_bytes a kb < 0) ∧
  (∀ j a, (1 ≤ j)%nat → keys !! j = Some a → compare_bytes kb a < 0) ∧
  ∃ h1 old h2 new h3 v,
    build_node BNODE_LEAF [(5, key_a, val_1)] sample_heap = (h1, Ok old)
    ∧ make (Z.to_nat (2 * BTREE_PAGE_SIZE)) h1 = (h2, Ok new)
    ∧ leafInsert new old (Z.of_nat 1) key_b val_2 h2 = (h3, Ok tt)
    ∧ keys_of new h3 = (h3, Ok (take 1 keys ++ kb :: drop 1 keys))
    ∧ ascending (take 1 keys ++ kb :: drop 1 keys)
    ∧ nodeLookupLE new key_b h3 = (h3, Ok (Z.of_nat 1))
    ∧ getVal new (Z.of_nat 1) h3 = (h3, Ok v)
    ∧ view h3 v = view sample_heap val_2.
Proof.
  assert (0 ≤ BNODE_LEAF < 65536) as H1 by (unfold BNODE_LEAF; lia).
  assert (Forall (item_ok sample_heap) [(5, key_a, val_1)]) as H2.
  { pose proof sample_items_ok as H. unfold sample_items in H.
    apply Forall_cons in H as [H _]. apply Forall_cons. split; [exact H|].
    by apply Forall_nil. }
  assert (item_ok sample_heap (0, key_b, val_2)) as H3.
  { eapply item_ok_intro; try reflexivity; cbn;
      unfold BTREE_MAX_KEY_SIZE, BTREE_MAX_VAL_SIZE; lia. }
  assert (1 ≤ length [(5, key_a, val_1)])%nat as H4 by (cbn; lia).
  assert (Z.of_nat (node_size (S (length [(5, key_a, val_1)]))
            (entry_of sample_heap (0, key_b, val_2)
             :: (entry_of sample_heap <$> [(5, key_a, val_1)])))
          ≤ 2 * BTREE_PAGE_SIZE) as H5
    by (cbn; unfold BTREE_PAGE_SIZE; lia).
  assert (ascending ((λ x : item, view sample_heap x.1.2)
                       <$> [(5, key_a, val_1)])) as H6.
  { intros i j a b Hij Ha Hb. apply lookup_lt_Some in Hb. cbn in Hb.
    apply lookup_lt_Some in Ha. cbn in Ha. lia. }
  assert (∀ j a, (j < 1)%nat →
            ((λ x : item, view sample_heap x.1.2) <$> [(5, key_a, val_1)])
              !! j = Some a →
            compare_bytes a (view sample_heap key_b) < 0) as H7.
  { intros j a Hj Ha. destruct j as [|j]; [|lia].
    injection Ha as <-. vm_compute. reflexivity. }
  assert (∀ j a, (1 ≤ j)%nat →
            ((λ x : item, view sample_heap x.1.2) <$> [(5, key_a, val_1)])
              !! j = Some a →
            compare_bytes (view sample_heap key_b) a < 0) as H8.
  { intros j a Hj Ha. apply lookup_lt_Some in Ha. cbn in Ha. lia. }
  exact (conj H1 (conj H2 (conj H3 (conj H4 (conj H5 (conj H6 (conj H7 (conj H8
    (leafInsert_then_lookup sample_heap BNODE_LEAF [(5, key_a, val_1)] 1
       key_b val_2 H1 H2 H3 H4 H5 H6 H7 H8))))))))).
Defined.

(** X8: Update, then look up: [leafUpdate] at the index of a key that the
    node of ascending keys holds, with this key and a new value, leaves
    the keys as they are and changes the entry at that index only;
    [nodeLookupLE] on the new node finds the key at the same index, and
    [getVal] there shows the new value. *)
Theorem leafUpdate_then_lookup h t es idx key val :
  let old_es := entry_of h <$> es in
  let keys := (λ x : item, view h x.1.2) <$> es in
  let e := entry_of h (0, key, val) in
  0 ≤ t < 65536 → Forall (item_ok h) es → item_ok h (0, key, val) →
  Z.of_nat (node_size (length es) old_es) ≤ 2 * BTREE_PAGE_SIZE →
  Z.of_nat (node_size (length es) (<[idx := e]> old_es))
    ≤ 2 * BTREE_PAGE_SIZE →
  ascending keys → keys !! idx = Some (view h key) →
  ∃ h1 old h2 new h3 v,
    build_node t es h = (h1, Ok old)
    ∧ make (Z.to_nat (2 * BTREE_PAGE_SIZE)) h1 = (h2, Ok new)
    ∧ leafUpdate new old (Z.of_nat idx) key val h2 = (h3, Ok tt)
    ∧ entries_of new h3 = (h3, Ok (<[idx := e]> old_es))
    ∧ keys_of new h3 = (h3, Ok keys)
    ∧ nodeLookupLE new key h3 = (h3, Ok (Z.of_nat idx))
    ∧ getVal new (Z.of_nat idx) h3 = (h3, Ok v)
    ∧ view h3 v = view h val.
Proof.
  intros old_es keys e Ht Hok Hkv Hfit Hfit' Hasc Hat.
  assert (length old_es = length es) as Lo by apply length_fmap.
  assert (length keys = length es) as Lk by apply length_fmap.
  assert (idx < length es)%nat as Hidx
    by (rewrite <- Lk; exact (lookup_lt_Some _ _ _ Hat)).
  assert (<[idx := e]> old_es = take idx old_es ++ e :: drop (S idx) old_es)
    as Eins by (apply insert_take_drop; lia).
  rewrite Eins in Hfit'.
  destruct (leafUpdate_built h t es idx key val Ht Hok Hkv Hidx Hfit Hfit')
    as (h1 & old & h2 & new & h3 & E1 & E2 & E3 & H3 & _ & Vk).
  fold old_es e in H3. rewrite <- Eins in H3.
  set (new_es := <[idx := e]> old_es) in *.
  assert (length new_es = length es) as Ll
    by (unfold new_es; rewrite length_insert; exact Lo).
  assert (e_key <$> new_es = keys) as Ek.
  { unfold new_es. rewrite list_fmap_insert. unfold old_es.
    rewrite keys_of_items. fold keys. apply list_insert_id. exact Hat. }
  rewrite <- Ll in H3.
  assert (new_es !! idx = Some e) as Hate
    by (unfold new_es; apply list_lookup_insert_eq; lia).
  destruct (getVal_img _ _ _ _ _ H3 _ _ Hate) as (v & Ev & Vv & _).
  exists h1, old, h2, new, h3, v.
  split; [exact E1|]. split; [exact E2|]. split; [exact E3|].
  split; [exact (entries_of_img _ _ _ _ H3)|].
  split; [rewrite <- Ek; exact (keys_of_img _ _ _ _ H3)|].
  split; [|split; [exact Ev|exact Vv]].
  unfold nodeLookupLE. rewrite (bind_ok _ _ _ _ _ (nkeys_img _ _ _ _ _ H3)).
  rewrite Nat2Z.id.
  pose proof (scan_eval h3 new BNODE_LEAF new_es key (length new_es) 0 H3)
    as Es.
  change (Z.of_nat 0) with 0 in Es. rewrite Es by reflexivity.
  rewrite drop_0, Ek, Vk.
  rewrite <- (take_drop_middle keys idx (view h key) Hat).
  rewrite floor_scan_hit.
  - rewrite length_take. do 2 f_equal. lia.
  - intros j a Ha. pose proof (lookup_lt_Some _ _ _ Ha) as Hj.
    rewrite length_take in Hj. rewrite lookup_take in Ha.
    destruct (decide (j < idx)%nat) as [Hlt|]; [|lia].
    exact (Hasc j idx a (view h key) Hlt Ha Hat).
Qed.

(** The value of "b" replaced. *)
Lemma leafUpdate_then_lookup_witness :
  let old_es := entry_of sample_heap <$> sample_items in
  let keys := (λ x : item, view sample_heap x.1.2) <$> sample_items in
  let e := entry_of sample_heap (0, key_b, val_1) in
  0 ≤ BNODE_LEAF < 65536 ∧ Forall (item_ok sample_heap) sample_items ∧
  item_ok sample_heap (0, key_b, val_1) ∧
  Z.of_nat (node_size (length sample_items) old_es) ≤ 2 * BTREE_PAGE_SIZE ∧
  Z.of_nat (node_size (length sample_items) (<[1%nat := e]> old_es))
    ≤ 2 * BTREE_PAGE_SIZE ∧
  ascending keys ∧ keys !! 1%nat = Some (view sample_heap key_b) ∧
  ∃ h1 old h2 new h3 v,
    build_node BNODE_LEAF sample_items sample_heap = (h1, Ok old)
    ∧ make (Z.to_nat (2 * BTREE_PAGE_SIZE)) h1 = (h2, Ok new)
    ∧ leafUpdate new old (Z.of_nat 1) key_b val_1 h2 = (h3, Ok tt)
    ∧ entries_of new h3 = (h3, Ok (<[1%nat := e]> old_es))
    ∧ keys_of new h3 = (h3, Ok keys)
    ∧ nodeLookupLE new key_b h3 = (h3, Ok (Z.of_nat 1))
    ∧ getVal new (Z.of_nat 1) h3 = (h3, Ok v)
    ∧ view h3 v = view sample_heap val_1.
Proof.
  assert (0 ≤ BNODE_LEAF < 65536) as H1 by (unfold BNODE_LEAF; lia).
  assert (item_ok sample_heap (0, key_b, val_1)) as H2.
  { eapply item_ok_intro; try reflexivity; cbn;
      unfold BTREE_MAX_KEY_SIZE, BTREE_MAX_VAL_SIZE; lia. }
  assert (Z.of_nat (node_size (length sample_items)
            (entry_of sample_heap <$> sample_items)) ≤ 2 * BTREE_PAGE_SIZE)
    as H3 by (cbn; unfold BTREE_PAGE_SIZE; lia).
  assert (Z.of_nat (node_size (length sample_items)
            (<[1%nat := entry_of sample_heap (0, key_b, val_1)]>
               (entry_of sample_heap <$> sample_items)))
          ≤ 2 * BTREE_PAGE_SIZE) as H4
    by (cbn; unfold BTREE_PAGE_SIZE; lia).
  assert (ascending ((λ x : item, view sample_heap x.1.2) <$> sample_items))
    as H5.
  { intros i j a b Hij Ha Hb.
    destruct i as [|[|i]], j as [|[|j]]; try lia; try done.
    injection Ha as <-. injection Hb as <-. vm_compute. reflexivity. }
  assert (((λ x : item, view sample_heap x.1.2) <$> sample_items) !! 1%nat
          = Some (view sample_heap key_b)) as H6 by reflexivity.
  exact (conj H1 (conj sample_items_ok (conj H2 (conj H3 (conj H4 (conj H5
    (conj H6
    (leafUpdate_then_lookup sample_heap BNODE_LEAF sample_items 1 key_b val_1
       H1 sample_items_ok H2 H3 H4 H5 H6)))))))).
Defined.

(** ** An index behind the entries *)

Lemma bind_ext {A B} (m : M A) (f g : A → M B) h :
  (∀ a h', f a h' = g a h') → (m ≫= f) h = (m ≫= g) h.
Proof.
  intros E. rewrite !bind_unfold. destruct (m h) as [h' [a|s|s|]]; auto.
Qed.

(** The copy of [cnt] entries is the copy of the first [m] of them, then
    the rest of the loop. *)
Lemma nodeAppendRange_loop_split new old d s cnt m :
  (m ≤ cnt)%nat → Z.of_nat cnt < 65536 →
  ∀ k i h, (i + k = m)%nat →
  nodeAppendRange_loop new old d s (Z.of_nat cnt) (Z.of_nat i) (cnt - i) h
  = (nodeAppendRange_loop new old d s (Z.of_nat m) (Z.of_nat i) k;;
     nodeAppendRange_loop new old d s (Z.of_nat cnt) (Z.of_nat m) (cnt - m)) h.
Proof.
  intros Hm Hc. induction k as [|k IH]; intros i h Hi.
  - replace i with m by lia. cbn [nodeAppendRange_loop].
    rewrite (bool_decide_eq_false_2 (Z.of_nat m < Z.of_nat m)) by lia.
    reflexivity.
  - destruct (cnt - i)%nat as [|todo] eqn:Et; [lia|].
    cbn [nodeAppendRange_loop].
    rewrite !bool_decide_eq_true_2 by lia.
    rewrite bind_assoc. apply bind_ext. intros p h1.
    rewrite bind_assoc. apply bind_ext. intros ks h2.
    rewrite bind_assoc. apply bind_ext. intros vs h3.
    rewrite bind_assoc. apply bind_ext. intros [] h4.
    rewrite u16_small by lia.
    replace (Z.of_nat i + 1) with (Z.of_nat (S i)) by lia.
    replace todo with (cnt - S i)%nat by lia.
    apply IH. lia.
Qed.

(** Asked for more entries than the old node has, [nodeAppendRange] copies
    them all and stops the process at the first pointer that is not
    there. *)
Lemma nodeAppendRange_overrun h new old t t' n eo cnt :
  holds h old t' (length eo) eo → holds h new t n [] →
  base new ≠ base old → (length eo ≤ n)%nat →
  (node_size n eo ≤ len new)%nat →
  (length eo < cnt)%nat → Z.of_nat cnt < 65536 →
  ∃ h', nodeAppendRange new old 0 0 (Z.of_nat cnt) h
        = (h', Fatal "fatal error").
Proof.
  intros Hold Hnew Hb Hn Hfit Hcnt Hc.
  unfold nodeAppendRange. rewrite Nat2Z.id.
  pose proof (nodeAppendRange_loop_split new old 0 0 cnt (length eo)
                ltac:(lia) Hc (length eo) 0 h eq_refl) as Es.
  rewrite Nat.sub_0_r in Es. change (Z.of_nat 0) with 0 in Es. rewrite Es.
  destruct (nodeAppendRange_loop_img new old t t' n (length eo) eo [] 0
              (length eo) Hb) with (todo := length eo) (i := 0%nat) (h := h)
    as (h1 & E1 & H1 & S1).
  { cbn [length]. lia. }
  { lia. }
  { rewrite drop_0, take_ge by lia. exact Hfit. }
  { lia. }
  { exact Hold. }
  { exact Hnew. }
  cbn [length] in E1. change (Z.of_nat 0) with 0 in E1.
  rewrite (bind_ok _ _ _ _ _ E1).
  assert (holds h1 old t' (length eo) eo) as Hold1
    by exact (holds_same_but _ _ _ _ _ _ _ S1 (not_eq_sym Hb) Hold).
  destruct (cnt - length eo)%nat as [|todo] eqn:Et; [lia|].
  cbn [nodeAppendRange_loop]. rewrite bool_decide_eq_true_2 by lia.
  exists h1. unfold getPtr.
  rewrite (u16_small (0 + Z.of_nat (length eo))) by lia.
  rewrite !bind_unfold, (nkeys_img _ _ _ _ _ Hold1).
  rewrite bool_decide_eq_false_2 by lia. reflexivity.
Qed.

(** X9: [leafInsert] with an index behind the key count of the old node, and
    [leafUpdate] with an index at or behind it, stop the process with
    "fatal error", whatever key and value are given. *)
Theorem leaf_index_behind_entries h t es idx key val :
  0 ≤ t < 65536 → Forall (item_ok h) es →
  Z.of_nat (node_size (S (length es)) (entry_of h <$> es))
    ≤ 2 * BTREE_PAGE_SIZE →
  Z.of_nat idx < 65536 →
  ∃ h1 old h2 new,
    build_node t es h = (h1, Ok old)
    ∧ make (Z.to_nat (2 * BTREE_PAGE_SIZE)) h1 = (h2, Ok new)
    ∧ ((length es < idx)%nat →
       ∃ h3, leafInsert new old (Z.of_nat idx) key val h2
             = (h3, Fatal "fatal error"))
    ∧ ((length es ≤ idx)%nat →
       ∃ h3, leafUpdate new old (Z.of_nat idx) key val h2
             = (h3, Fatal "fatal error")).
Proof.
  intros Ht Hok Hfit Hidx.
  destruct (built_then_fresh h t es Ht Hok)
    as (h1 & old & h2 & new & E1 & E2 & Hold & Hnew & Hb & Ln & _).
  { unfold node_size in *. lia. }
  set (eo := entry_of h <$> es) in *.
  assert (length eo = length es) as Lo by apply length_fmap.
  rewrite <- Lo in *.
  assert (Z.of_nat (len new) < 65536) as Hlen
    by (unfold BTREE_PAGE_SIZE in Ln; lia).
  exists h1, old, h2, new. split; [exact E1|]. split; [exact E2|].
  unfold node_size in Hfit. split.
  - intros Hgt. unfold leafInsert.
    rewrite (bind_ok _ _ _ _ _ (nkeys_img _ _ _ _ _ Hold)).
    rewrite (u16_small (Z.of_nat (length eo) + 1)) by lia.
    replace (Z.of_nat (length eo) + 1) with (Z.of_nat (S (length eo))) by lia.
    destruct (setHeader_img h2 new BNODE_LEAF (S (length eo)) Hnew Hlen)
      as (h3 & E3 & H3 & S3);
      [unfold BNODE_LEAF; lia
      |unfold node_size; cbn [kv_total sum_list_with]; lia|].
    rewrite (bind_ok _ _ _ _ _ E3).
    destruct (nodeAppendRange_overrun h3 new old BNODE_LEAF t (S (length eo))
                eo idx) as (h4 & E4).
    + exact (holds_same_but _ _ _ _ _ _ _ S3 (not_eq_sym Hb) Hold).
    + exact H3.
    + exact Hb.
    + lia.
    + unfold node_size. lia.
    + exact Hgt.
    + exact Hidx.
    + exists h4. rewrite bind_unfold, E4. reflexivity.
  - intros Hge. unfold leafUpdate.
    rewrite (bind_ok _ _ _ _ _ (nkeys_img _ _ _ _ _ Hold)).
    destruct (setHeader_img h2 new BNODE_LEAF (length eo) Hnew Hlen)
      as (h3 & E3 & H3 & S3);
      [unfold BNODE_LEAF; lia
      |unfold node_size; cbn [kv_total sum_list_with]; lia|].
    rewrite (bind_ok _ _ _ _ _ E3).
    assert (holds h3 old t (length eo) eo) as Hold3
      by exact (holds_same_but _ _ _ _ _ _ _ S3 (not_eq_sym Hb) Hold).
    destruct (decide (idx = length eo)) as [->|Hne].
    + destruct (nodeAppendRange_img new old BNODE_LEAF t (length eo)
                  (length eo) eo [] 0 (length eo) Hb) with (h := h3)
        as (h4 & E4 & H4 & S4); [| | |exact Hold3|exact H3|].
      { cbn [length]. lia. }
      { lia. }
      { rewrite drop_0, take_ge by lia. unfold node_size. cbn [app]. lia. }
      cbn [length] in E4. change (Z.of_nat 0) with 0 in E4.
      rewrite (bind_ok _ _ _ _ _ E4).
      exists h4. unfold nodeAppendKV, setPtr.
      rewrite !bind_unfold, (nkeys_img _ _ _ _ _ H4).
      rewrite bool_decide_eq_false_2 by lia. reflexivity.
    + destruct (nodeAppendRange_overrun h3 new old BNODE_LEAF t (length eo)
                  eo idx) as (h4 & E4).
      * exact Hold3.
      * exact H3.
      * exact Hb.
      * lia.
      * unfold node_size. lia.
      * lia.
      * exact Hidx.
      * exists h4. rewrite bind_unfold, E4. reflexivity.
Qed.

Lemma leaf_index_behind_entries_witness :
  0 ≤ BNODE_LEAF < 65536 ∧ Forall (item_ok sample_heap) sample_items ∧
  Z.of_nat (node_size (S (length sample_items))
              (entry_of sample_heap <$> sample_items))
    ≤ 2 * BTREE_PAGE_SIZE ∧
  Z.of_nat 3 < 65536 ∧
  ∃ h1 old h2 new,
    build_node BNODE_LEAF sample_items sample_heap = (h1, Ok old)
    ∧ make (Z.to_nat (2 * BTREE_PAGE_SIZE)) h1 = (h2, Ok new)
    ∧ ((length sample_items < 3)%nat →
       ∃ h3, leafInsert new old (Z.of_nat 3) key_b val_2 h2
             = (h3, Fatal "fatal error"))
    ∧ ((length sample_items ≤ 3)%nat →
       ∃ h3, leafUpdate new old (Z.of_nat 3) key_b val_2 h2
             = (h3, Fatal "fatal error")).
Proof.
  assert (0 ≤ BNODE_LEAF < 65536) as H1 by (unfold BNODE_LEAF; lia).
  assert (Z.of_nat (node_size (S (length sample_items))
            (entry_of sample_heap <$> sample_items)) ≤ 2 * BTREE_PAGE_SIZE)
    as H3 by (cbn; unfold BTREE_PAGE_SIZE; lia).
  assert (Z.of_nat 3 < 65536) as H4 by lia.
  exact (conj H1 (conj sample_items_ok (conj H3 (conj H4
    (leaf_index_behind_entries sample_heap BNODE_LEAF sample_items 3
       key_b val_2 H1 sample_items_ok H3 H4))))).
Defined.

(** ** What a split keeps *)

(** X10: [nodeSplit2] moves every entry, pointer, key and value, into one of the
    two nodes and keeps the order: the entries of the left node followed
    by those of the right node are the entries of the old node; neither
    node is empty, both have the type of the old node, and the old node
    reads as before. *)
Theorem nodeSplit2_keeps_entries fuel h t es :
  let old_es := entry_of h <$> es in
  0 ≤ t < 65536 → Forall (item_ok h) es → (2 ≤ length es)%nat →
  Z.of_nat (node_size (length es) old_es) ≤ 2 * BTREE_PAGE_SIZE →
  (length es ≤ fuel)%nat →
  ∃ h1 old h2 left h3 right h4 l r,
    build_node t es h = (h1, Ok old)
    ∧ make (Z.to_nat (2 * BTREE_PAGE_SIZE)) h1 = (h2, Ok left)
    ∧ make (Z.to_nat (2 * BTREE_PAGE_SIZE)) h2 = (h3, Ok right)
    ∧ nodeSplit2 fuel left right old h3 = (h4, Ok tt)
    ∧ btype left h4 = (h4, Ok t) ∧ btype right h4 = (h4, Ok t)
    ∧ entries_of left h4 = (h4, Ok l) ∧ entries_of right h4 = (h4, Ok r)
    ∧ l ++ r = old_es ∧ l ≠ [] ∧ r ≠ []
    ∧ btype old h4 = (h4, Ok t) ∧ entries_of old h4 = (h4, Ok old_es).
Proof.
  intros es' Ht Hok Hn Hfit Hfuel.
  destruct (build_node_holds h t es Ht Hok Hfit)
    as (h1 & old & E1 & H1 & Bo & L1 & Lo & _).
  fold es' in H1.
  assert (length es' = length es) as Les by (subst es'; apply length_fmap).
  rewrite <- Les in H1, Hfit, Hn, Hfuel.
  pose proof H1 as (_ & _ & _ & _ & Hes).
  destruct (split_point_range es' Hes Hn) as (_ & Hk & _ & Hrfit & _).
  set (k := split_point es') in *.
  assert (Z.of_nat (Z.to_nat (2 * BTREE_PAGE_SIZE)) = 8192) as HN
    by (unfold BTREE_PAGE_SIZE; lia).
  unfold BTREE_PAGE_SIZE in Hfit at 1.
  revert HN Lo. generalize (Z.to_nat (2 * BTREE_PAGE_SIZE)) as N. intros N HN Lo.
  set (h2 := h1 ++ [replicate N 0]). set (h3 := h2 ++ [replicate N 0]).
  set (left := mkSlice (length h1) 0 N N).
  set (right := mkSlice (length h2) 0 N N).
  assert (length h2 = S (length h1)) as L2
    by (subst h2; rewrite length_app; cbn; lia).
  assert (lbytes es' k ≤ node_size (length es') es')%nat as Hlb
    by (apply lbytes_le; lia).
  assert (rbytes es' k ≤ node_size (length es') es')%nat as Hrb
    by (apply rbytes_le; lia).
  destruct (nodeSplit2_img fuel h3 left right old t es')
    as (h4 & E4 & HL & HR & HO & _).
  - exact (holds_app_l _ _ _ _ _ _ (holds_app_l _ _ _ _ _ _ H1)).
  - exact Hn.
  - exact Hfuel.
  - apply valid_app_l, valid_fresh.
  - apply valid_fresh.
  - cbn [base left]. lia.
  - cbn [base right]. lia.
  - cbn [base left right]. lia.
  - cbn [len left]. lia.
  - cbn [len right]. lia.
  - fold k. cbn [len left]. lia.
  - fold k. cbn [len right]. lia.
  - fold k in HL, HR.
    assert (length (take k es') = k) as Lt by (rewrite length_take; lia).
    assert (length (drop k es') = (length es' - k)%nat) as Ld
      by apply length_drop.
    rewrite <- Lt in HL at 1. rewrite <- Ld in HR at 1.
    exists h1, old, h2, left, h3, right, h4, (take k es'), (drop k es').
    split; [exact E1|]. split; [apply make_unfold|].
    split; [apply make_unfold|]. split; [exact E4|].
    split; [exact (btype_img _ _ _ _ _ HL)|].
    split; [exact (btype_img _ _ _ _ _ HR)|].
    split; [exact (entries_of_img _ _ _ _ HL)|].
    split; [exact (entries_of_img _ _ _ _ HR)|].
    split; [apply take_drop|].
    split. { intros E. rewrite E in Lt. cbn in Lt. lia. }
    split. { intros E. rewrite E in Ld. cbn in Ld. lia. }
    split; [exact (btype_img _ _ _ _ _ HO)|].
    exact (entries_of_img _ _ _ _ HO).
Qed.

Lemma nodeSplit2_keeps_entries_witness :
  let old_es := entry_of sample_heap <$> sample_items in
  0 ≤ BNODE_LEAF < 65536 ∧ Forall (item_ok sample_heap) sample_items ∧
  (2 ≤ length sample_items)%nat ∧
  Z.of_nat (node_size (length sample_items) old_es) ≤ 2 * BTREE_PAGE_SIZE ∧
  (length sample_items ≤ 2)%nat ∧
  ∃ h1 old h2 left h3 right h4 l r,
    build_node BNODE_LEAF sample_items sample_heap = (h1, Ok old)
    ∧ make (Z.to_nat (2 * BTREE_PAGE_SIZE)) h1 = (h2, Ok left)
    ∧ make (Z.to_nat (2 * BTREE_PAGE_SIZE)) h2 = (h3, Ok right)
    ∧ nodeSplit2 2 left right old h3 = (h4, Ok tt)
    ∧ btype left h4 = (h4, Ok BNODE_LEAF) ∧ btype right h4 = (h4, Ok BNODE_LEAF)
    ∧ entries_of left h4 = (h4, Ok l) ∧ entries_of right h4 = (h4, Ok r)
    ∧ l ++ r = old_es ∧ l ≠ [] ∧ r ≠ []
    ∧ btype old h4 = (h4, Ok BNODE_LEAF)
    ∧ entries_of old h4 = (h4, Ok old_es).
Proof.
  assert (0 ≤ BNODE_LEAF < 65536) as H1 by (unfold BNODE_LEAF; lia).
  assert (2 ≤ length sample_items)%nat as H2 by (cbn; lia).
  assert (Z.of_nat (node_size (length sample_items)
            (entry_of sample_heap <$> sample_items)) ≤ 2 * BTREE_PAGE_SIZE)
    as H3 by (cbn; unfold BTREE_PAGE_SIZE; lia).
  assert (length sample_items ≤ 2)%nat as H4 by (cbn; lia).
  exact (conj H1 (conj sample_items_ok (conj H2 (conj H3 (conj H4
    (nodeSplit2_keeps_entries 2 sample_heap BNODE_LEAF sample_items
       H1 sample_items_ok H2 H3 H4)))))).
Defined.

(** X11: A node with fewer than two keys cannot be split: [nodeSplit2] stops
    the process before it looks at the two result buffers, whatever they
    are, and writes nothing. *)
Theorem nodeSplit2_needs_two_keys fuel left right h t es :
  0 ≤ t < 65536 → Forall (item_ok h) es →
  Z.of_nat (node_size (length es) (entry_of h <$> es)) ≤ 2 * BTREE_PAGE_SIZE →
  (length es < 2)%nat →
  ∃ h1 old,
    build_node t es h = (h1, Ok old)
    ∧ nodeSplit2 fuel left right old h1
      = (h1, Fatal "Cannot split a node with less than 2 keys").
Proof.
  intros Ht Hok Hfit Hn.
  destruct (build_node_holds h t es Ht Hok Hfit) as (h1 & old & E & H & _).
  exists h1, old. split; [exact E|].
  unfold nodeSplit2. rewrite (bind_ok _ _ _ _ _ (nkeys_img _ _ _ _ _ H)).
  rewrite bool_decide_eq_true_2 by lia. reflexivity.
Qed.

Lemma nodeSplit2_needs_two_keys_witness :
  0 ≤ BNODE_LEAF < 65536 ∧ Forall (item_ok sample_heap) [] ∧
  Z.of_nat (node_size (length (@nil item)) (entry_of sample_heap <$> []))
    ≤ 2 * BTREE_PAGE_SIZE ∧
  (length (@nil item) < 2)%nat ∧
  ∃ h1 old,
    build_node BNODE_LEAF [] sample_heap = (h1, Ok old)
    ∧ nodeSplit2 1 leaf_a leaf_ac old h1
      = (h1, Fatal "Cannot split a node with less than 2 keys").
Proof.
  assert (0 ≤ BNODE_LEAF < 65536) as H1 by (unfold BNODE_LEAF; lia).
  assert (Forall (item_ok sample_heap) []) as H2 by apply Forall_nil_2.
  assert (Z.of_nat (node_size (length (@nil item))
            (entry_of sample_heap <$> [])) ≤ 2 * BTREE_PAGE_SIZE)
    as H3 by (cbn; unfold BTREE_PAGE_SIZE; lia).
  assert (length (@nil item) < 2)%nat as H4 by (cbn; lia).
  exact (conj H1 (conj H2 (conj H3 (conj H4
    (nodeSplit2_needs_two_keys 1 leaf_a leaf_ac sample_heap BNODE_LEAF []
       H1 H2 H3 H4))))).
Defined.

(** What [nodeSplit3] returns on a node that holds the entries [es]. *)
Lemma nodeSplit3_entries fuel h old t es :
  holds h old t (length es) es →
  (Z.to_nat BTREE_PAGE_SIZE ≤ len old)%nat →
  Z.of_nat (node_size (length es) es) ≤ 2 * BTREE_PAGE_SIZE - 3 →
  (length es ≤ fuel)%nat →
  ∃ h2 nsplit split parts,
    nodeSplit3 fuel old h = (h2, Ok (nsplit, split))
    ∧ 1 ≤ nsplit ≤ 3 ∧ length split = 3%nat
    ∧ Forall2 (λ nd p,
                 btype nd h2 = (h2, Ok t)
                 ∧ entries_of nd h2 = (h2, Ok p)
                 ∧ ∃ b, nbytes nd h2 = (h2, Ok b) ∧ b ≤ BTREE_PAGE_SIZE)
        (take (Z.to_nat nsplit) split) parts
    ∧ concat parts = es.
Proof.
  intros H1 Hlen Hsize Hfuel.
  destruct (nodeSplit3_img fuel h old t es H1 Hlen Hsize Hfuel)
    as (h2 & nsplit & split & parts & E2 & Hparts & Hcat & Hone & Hmore).
  assert ((nsplit = 1 ∨ nsplit = 2 ∨ nsplit = 3)%nat) as Hns.
  { destruct (Z_le_gt_dec (Z.of_nat (node_size (length es) es))
                BTREE_PAGE_SIZE) as [Hs|Hs].
    - destruct (Hone Hs) as (-> & _). by left.
    - destruct (Hmore Hs) as [->| ->]; [right; by left|right; by right]. }
  assert (length split = 3%nat) as Hl3.
  { clear Hparts. unfold nodeSplit3 in E2.
    rewrite (bind_ok _ _ _ _ _ (nbytes_img _ _ _ _ _ H1 eq_refl)) in E2.
    case_bool_decide.
    - rewrite bind_unfold in E2. destruct (sl_to old BTREE_PAGE_SIZE h)
        as [h' [a|s|s|]]; try discriminate E2.
      injection E2 as _ _ <-. reflexivity.
    - repeat (rewrite bind_unfold in E2;
              match type of E2 with
              | (let (_, _) := ?m in _) = _ =>
                  destruct m as [? [?|?|?|]]; try discriminate E2
              end).
      case_bool_decide.
      + repeat (rewrite bind_unfold in E2;
                match type of E2 with
                | (let (_, _) := ?m in _) = _ =>
                    destruct m as [? [?|?|?|]]; try discriminate E2
                end).
        injection E2 as _ _ <-. reflexivity.
      + repeat (rewrite bind_unfold in E2;
                match type of E2 with
                | (let (_, _) := ?m in _) = _ =>
                    destruct m as [? [?|?|?|]]; try discriminate E2
                end).
        injection E2 as _ _ <-. reflexivity. }
  exists h2, (Z.of_nat nsplit), split, parts.
  split; [exact E2|]. split; [lia|].
  split; [exact Hl3|]. split; [|exact Hcat].
  rewrite Nat2Z.id. eapply Forall2_impl; [exact Hparts|].
  intros nd p [Hp Hsz]. split; [exact (btype_img _ _ _ _ _ Hp)|].
  split; [exact (entries_of_img _ _ _ _ Hp)|].
  exists (Z.of_nat (node_size (length p) p)).
  split; [exact (nbytes_img _ _ _ _ _ Hp eq_refl)|exact Hsz].
Qed.

(** X12: [nodeSplit3] loses nothing: the nodes it returns have the type of the
    old node, each takes at most a page, and their entries, pointers, keys
    and values, one node after the other, are the entries of the old
    node. *)
Theorem nodeSplit3_keeps_entries fuel h t es :
  let old_es := entry_of h <$> es in
  0 ≤ t < 65536 → Forall (item_ok h) es → (length es ≤ fuel)%nat →
  Z.of_nat (node_size (length es) old_es) ≤ 2 * BTREE_PAGE_SIZE - 3 →
  ∃ h1 old h2 nsplit split parts,
    build_node t es h = (h1, Ok old)
    ∧ nodeSplit3 fuel old h1 = (h2, Ok (nsplit, split))
    ∧ 1 ≤ nsplit ≤ 3 ∧ length split = 3%nat
    ∧ Forall2 (λ nd p,
                 btype nd h2 = (h2, Ok t)
                 ∧ entries_of nd h2 = (h2, Ok p)
                 ∧ ∃ b, nbytes nd h2 = (h2, Ok b) ∧ b ≤ BTREE_PAGE_SIZE)
        (take (Z.to_nat nsplit) split) parts
    ∧ concat parts = old_es.
Proof.
  intros es' Ht Hok Hfuel Hsize.
  destruct (build_node_holds h t es Ht Hok)
    as (h1 & old & E1 & H1 & Bo & L1 & Lo & _);
    [unfold BTREE_PAGE_SIZE, es' in *; lia|].
  fold es' in H1.
  assert (length es' = length es) as Les by (subst es'; apply length_fmap).
  rewrite <- Les in H1, Hsize, Hfuel.
  destruct (nodeSplit3_entries fuel h1 old t es' H1)
    as (h2 & nsplit & split & parts & E2 & Hrest);
    [unfold BTREE_PAGE_SIZE in *; lia|exact Hsize|exact Hfuel|].
  exists h1, old, h2, nsplit, split, parts.
  split; [exact E1|]. split; [exact E2|]. exact Hrest.
Qed.

Lemma nodeSplit3_keeps_entries_witness :
  let old_es := entry_of sample_heap <$> sample_items in
  0 ≤ BNODE_LEAF < 65536 ∧ Forall (item_ok sample_heap) sample_items ∧
  (length sample_items ≤ 2)%nat ∧
  Z.of_nat (node_size (length sample_items) old_es)
    ≤ 2 * BTREE_PAGE_SIZE - 3 ∧
  ∃ h1 old h2 nsplit split parts,
    build_node BNODE_LEAF sample_items sample_heap = (h1, Ok old)
    ∧ nodeSplit3 2 old h1 = (h2, Ok (nsplit, split))
    ∧ 1 ≤ nsplit ≤ 3 ∧ length split = 3%nat
    ∧ Forall2 (λ nd p,
                 btype nd h2 = (h2, Ok BNODE_LEAF)
                 ∧ entries_of nd h2 = (h2, Ok p)
                 ∧ ∃ b, nbytes nd h2 = (h2, Ok b) ∧ b ≤ BTREE_PAGE_SIZE)
        (take (Z.to_nat nsplit) split) parts
    ∧ concat parts = old_es.
Proof.
  assert (0 ≤ BNODE_LEAF < 65536) as H1 by (unfold BNODE_LEAF; lia).
  assert (length sample_items ≤ 2)%nat as H2 by (cbn; lia).
  assert (Z.of_nat (node_size (length sample_items)
            (entry_of sample_heap <$> sample_items))
          ≤ 2 * BTREE_PAGE_SIZE - 3)
    as H3 by (cbn; unfold BTREE_PAGE_SIZE; lia).
  exact (conj H1 (conj sample_items_ok (conj H2 (conj H3
    (nodeSplit3_keeps_entries 2 sample_heap BNODE_LEAF sample_items
       H1 sample_items_ok H2 H3))))).
Defined.

(** The lengths of the slices that [nodeSplit3] returns, whenever it
    returns. *)
Lemma nodeSplit3_lens fuel old h h2 nsplit split :
  nodeSplit3 fuel old h = (h2, Ok (nsplit, split)) →
  (nsplit = 1
   ∧ go_len <$> take (Z.to_nat nsplit) split = [BTREE_PAGE_SIZE])
  ∨ (nsplit = 2
     ∧ go_len <$> take (Z.to_nat nsplit) split
       = [BTREE_PAGE_SIZE; 2 * BTREE_PAGE_SIZE])
  ∨ (nsplit = 3
     ∧ go_len <$> take (Z.to_nat nsplit) split
       = [BTREE_PAGE_SIZE; BTREE_PAGE_SIZE; 2 * BTREE_PAGE_SIZE]).
Proof.
  assert (Z.of_nat (Z.to_nat BTREE_PAGE_SIZE) = BTREE_PAGE_SIZE) as HP
    by (unfold BTREE_PAGE_SIZE; lia).
  assert (Z.of_nat (Z.to_nat (2 * BTREE_PAGE_SIZE)) = 2 * BTREE_PAGE_SIZE)
    as HP2 by (unfold BTREE_PAGE_SIZE; lia).
  intros E. unfold nodeSplit3, sl_to in E. revert HP HP2 E.
  generalize (Z.to_nat BTREE_PAGE_SIZE) as N1.
  generalize (Z.to_nat (2 * BTREE_PAGE_SIZE)) as N2.
  intros N2 N1 HP HP2 E.
  rewrite bind_unfold in E. destruct (nbytes old h) as [h' [nb|s|s|]];
    try discriminate E.
  destruct (bool_decide (nb ≤ BTREE_PAGE_SIZE)).
  - destruct (bool_decide _); [|discriminate E].
    rewrite bind_unfold in E. unfold ret in E. cbv beta iota in E.
    apply (f_equal snd) in E. cbn [snd] in E.
    injection E as <- <-. left. split; [reflexivity|]. change (Z.to_nat 1) with 1%nat.
    cbn [take fmap list_fmap]. unfold go_len. cbn [len].
    by rewrite HP.
  - rewrite (bind_ok _ _ _ _ _ (make_unfold _ _)) in E.
    rewrite (bind_ok _ _ _ _ _ (make_unfold _ _)) in E.
    rewrite bind_unfold in E.
    destruct (nodeSplit2 _ _ _ _ _) as [h3 [[]|s|s|]]; try discriminate E.
    rewrite bind_unfold in E.
    destruct (nbytes _ h3) as [h4 [lb|s|s|]]; try discriminate E.
    destruct (bool_decide (lb ≤ BTREE_PAGE_SIZE)).
    + cbn [cap] in E.
      destruct (bool_decide _); [|discriminate E].
      rewrite bind_unfold in E. unfold ret in E. cbv beta iota in E.
      apply (f_equal snd) in E. cbn [snd] in E.
      injection E as <- <-. right. left. split; [reflexivity|]. change (Z.to_nat 2) with 2%nat.
      cbn [take fmap list_fmap]. unfold go_len. cbn [len].
      by rewrite HP, HP2.
    + rewrite (bind_ok _ _ _ _ _ (make_unfold _ _)) in E.
      rewrite (bind_ok _ _ _ _ _ (make_unfold _ _)) in E.
      rewrite bind_unfold in E.
      destruct (nodeSplit2 _ _ _ _ _) as [h5 [[]|s|s|]]; try discriminate E.
      rewrite bind_unfold in E.
      destruct (nbytes _ h5) as [h6 [llb|s|s|]]; try discriminate E.
      unfold require in E.
      destruct (bool_decide (llb ≤ BTREE_PAGE_SIZE)); [|discriminate E].
      apply (f_equal snd) in E. cbn [snd] in E.
      injection E as <- <-. right. right. split; [reflexivity|]. change (Z.to_nat 3) with 3%nat.
      cbn [take fmap list_fmap]. unfold go_len. cbn [len].
      by rewrite HP, HP2.
Qed.

(** X13: The slices [nodeSplit3] returns: a node that fits a page comes
    back cut to the page size; of the two or three nodes of a split the
    last one is the whole working buffer of two pages, uncut, though its
    entries take at most a page, and the ones before it are cut to, or
    made with, the page size. *)
Theorem nodeSplit3_slice_lengths fuel h t es :
  let size := Z.of_nat (node_size (length es) (entry_of h <$> es)) in
  0 ≤ t < 65536 → Forall (item_ok h) es → (length es ≤ fuel)%nat →
  size ≤ 2 * BTREE_PAGE_SIZE - 3 →
  ∃ h1 old h2 nsplit split,
    build_node t es h = (h1, Ok old)
    ∧ nodeSplit3 fuel old h1 = (h2, Ok (nsplit, split))
    ∧ (size ≤ BTREE_PAGE_SIZE →
       go_len <$> take (Z.to_nat nsplit) split = [BTREE_PAGE_SIZE])
    ∧ (BTREE_PAGE_SIZE < size →
       go_len <$> take (Z.to_nat nsplit) split
       = [BTREE_PAGE_SIZE; 2 * BTREE_PAGE_SIZE]
       ∨ go_len <$> take (Z.to_nat nsplit) split
         = [BTREE_PAGE_SIZE; BTREE_PAGE_SIZE; 2 * BTREE_PAGE_SIZE]).
Proof.
  intros size Ht Hok Hfuel Hsize.
  destruct (build_node_holds h t es Ht Hok)
    as (h1 & old & E1 & H1 & Bo & L1 & Lo & _);
    [unfold BTREE_PAGE_SIZE, size in *; lia|].
  set (es' := entry_of h <$> es) in *.
  assert (length es' = length es) as Les by (subst es'; apply length_fmap).
  rewrite <- Les in H1, Hfuel. unfold size in *. rewrite <- Les in *.
  destruct (nodeSplit3_img fuel h1 old t es' H1)
    as (h2 & nsplit & split & parts & E2 & _ & _ & Hone & Hmore);
    [unfold BTREE_PAGE_SIZE in *; lia|exact Hsize|exact Hfuel|].
  exists h1, old, h2, (Z.of_nat nsplit), split.
  split; [exact E1|]. split; [exact E2|].
  pose proof (nodeSplit3_lens _ _ _ _ _ _ E2) as Hl.
  split.
  - intros Hs. destruct (Hone Hs) as (-> & _).
    destruct Hl as [[_ Hl]|[[Hn _]|[Hn _]]]; [exact Hl|lia|lia].
  - intros Hs.
    destruct Hl as [[Hn _]|[[_ Hl]|[_ Hl]]]; [|by left|by right].
    destruct Hmore as [->| ->]; lia.
Qed.

(** Three entries of 5190 bytes: more than a page. *)
Lemma nodeSplit3_slice_lengths_witness :
  let size := Z.of_nat (node_size (length (take 3 wide_items))
                          (entry_of wide_heap <$> take 3 wide_items)) in
  0 ≤ BNODE_LEAF < 65536 ∧ Forall (item_ok wide_heap) (take 3 wide_items) ∧
  (length (take 3 wide_items) ≤ 3)%nat ∧
  size ≤ 2 * BTREE_PAGE_SIZE - 3 ∧
  BTREE_PAGE_SIZE < size ∧
  ∃ h1 old h2 nsplit split,
    build_node BNODE_LEAF (take 3 wide_items) wide_heap = (h1, Ok old)
    ∧ nodeSplit3 3 old h1 = (h2, Ok (nsplit, split))
    ∧ (size ≤ BTREE_PAGE_SIZE →
       go_len <$> take (Z.to_nat nsplit) split = [BTREE_PAGE_SIZE])
    ∧ (BTREE_PAGE_SIZE < size →
       go_len <$> take (Z.to_nat nsplit) split
       = [BTREE_PAGE_SIZE; 2 * BTREE_PAGE_SIZE]
       ∨ go_len <$> take (Z.to_nat nsplit) split
         = [BTREE_PAGE_SIZE; BTREE_PAGE_SIZE; 2 * BTREE_PAGE_SIZE]).
Proof.
  intros size.
  assert (0 ≤ BNODE_LEAF < 65536) as H1 by (unfold BNODE_LEAF; lia).
  assert (Forall (item_ok wide_heap) (take 3 wide_items)) as H2
    by (apply Forall_take, wide_items_ok).
  assert (length (take 3 wide_items) ≤ 3)%nat as H3 by (cbn; lia).
  assert (size ≤ 2 * BTREE_PAGE_SIZE - 3) as H4
    by (vm_compute; discriminate).
  assert (BTREE_PAGE_SIZE < size) as H5 by (vm_compute; reflexivity).
  exact (conj H1 (conj H2 (conj H3 (conj H4 (conj H5
    (nodeSplit3_slice_lengths 3 wide_heap BNODE_LEAF (take 3 wide_items)
       H1 H2 H3 H4)))))).
Defined.

(** ** Insert, then split *)

(** X14: The way of an entry into a full leaf: [leafInsert] of a key and a value
    within the limits into a leaf that fits a page, then [nodeSplit3] on
    the result.  Both return; the split gives one to three leaves, each
    of at most a page, and their entries, one leaf after the other, are
    the entries of the old leaf with the new one at [idx]. *)
Theorem leafInsert_then_split fuel h t es idx key val :
  let old_es := entry_of h <$> es in
  let e := entry_of h (0, key, val) in
  0 ≤ t < 65536 → Forall (item_ok h) es → item_ok h (0, key, val) →
  (idx ≤ length es)%nat →
  Z.of_nat (node_size (length es) old_es) ≤ BTREE_PAGE_SIZE →
  (S (length es) ≤ fuel)%nat →
  ∃ h1 old h2 new h3 h4 nsplit split parts,
    build_node t es h = (h1, Ok old)
    ∧ make (Z.to_nat (2 * BTREE_PAGE_SIZE)) h1 = (h2, Ok new)
    ∧ leafInsert new old (Z.of_nat idx) key val h2 = (h3, Ok tt)
    ∧ nodeSplit3 fuel new h3 = (h4, Ok (nsplit, split))
    ∧ 1 ≤ nsplit ≤ 3 ∧ length split = 3%nat
    ∧ Forall2 (λ nd p,
                 btype nd h4 = (h4, Ok BNODE_LEAF)
                 ∧ entries_of nd h4 = (h4, Ok p)
                 ∧ ∃ b, nbytes nd h4 = (h4, Ok b) ∧ b ≤ BTREE_PAGE_SIZE)
        (take (Z.to_nat nsplit) split) parts
    ∧ concat parts = take idx old_es ++ e :: drop idx old_es.
Proof.
  intros old_es e Ht Hok Hkv Hidx Hfit Hfuel.
  assert (kv_size e ≤ 4004)%nat as Hke by (apply entry_ok_size, Hkv).
  assert (Z.of_nat (node_size (S (length es)) (e :: old_es))
          ≤ 2 * BTREE_PAGE_SIZE - 3) as Hsz.
  { unfold node_size in *. rewrite kv_total_cons.
    unfold BTREE_PAGE_SIZE in *. lia. }
  destruct (leafInsert_built h t es idx key val Ht Hok Hkv Hidx)
    as (h1 & old & h2 & new & h3 & E1 & E2 & E3 & H3 & _ & _).
  { fold old_es e. lia. }
  fold old_es e in H3.
  set (new_es := take idx old_es ++ e :: drop idx old_es) in *.
  assert (length old_es = length es) as Lo by apply length_fmap.
  assert (length new_es = S (length es)) as Ll.
  { unfold new_es. rewrite length_app, length_take. cbn [length].
    rewrite length_drop. lia. }
  assert (kv_total new_es = kv_total (e :: old_es)) as Etot.
  { unfold new_es. rewrite kv_total_app, !kv_total_cons.
    rewrite (kv_total_take_drop old_es idx). lia. }
  rewrite <- Ll in H3.
  assert (len new = Z.to_nat (2 * BTREE_PAGE_SIZE)) as Ln.
  { rewrite make_unfold in E2. apply (f_equal snd) in E2. cbn [snd] in E2.
    injection E2 as <-. reflexivity. }
  destruct (nodeSplit3_entries fuel h3 new BNODE_LEAF new_es H3)
    as (h4 & nsplit & split & parts & E4 & Hrest).
  { rewrite Ln. unfold BTREE_PAGE_SIZE. lia. }
  { unfold node_size in *. rewrite Etot, Ll. exact Hsz. }
  { lia. }
  exists h1, old, h2, new, h3, h4, nsplit, split, parts.
  split; [exact E1|]. split; [exact E2|]. split; [exact E3|].
  split; [exact E4|]. exact Hrest.
Qed.

Lemma leafInsert_then_split_witness :
  let old_es := entry_of sample_heap <$> sample_items in
  let e := entry_of sample_heap (0, key_b, val_2) in
  0 ≤ BNODE_LEAF < 65536 ∧ Forall (item_ok sample_heap) sample_items ∧
  item_ok sample_heap (0, key_b, val_2) ∧
  (1 ≤ length sample_items)%nat ∧
  Z.of_nat (node_size (length sample_items) old_es) ≤ BTREE_PAGE_SIZE ∧
  (S (length sample_items) ≤ 3)%nat ∧
  ∃ h1 old h2 new h3 h4 nsplit split parts,
    build_node BNODE_LEAF sample_items sample_heap = (h1, Ok old)
    ∧ make (Z.to_nat (2 * BTREE_PAGE_SIZE)) h1 = (h2, Ok new)
    ∧ leafInsert new old (Z.of_nat 1) key_b val_2 h2 = (h3, Ok tt)
    ∧ nodeSplit3 3 new h3 = (h4, Ok (nsplit, split))
    ∧ 1 ≤ nsplit ≤ 3 ∧ length split = 3%nat
    ∧ Forall2 (λ nd p,
                 btype nd h4 = (h4, Ok BNODE_LEAF)
                 ∧ entries_of nd h4 = (h4, Ok p)
                 ∧ ∃ b, nbytes nd h4 = (h4, Ok b) ∧ b ≤ BTREE_PAGE_SIZE)
        (take (Z.to_nat nsplit) split) parts
    ∧ concat parts = take 1 old_es ++ e :: drop 1 old_es.
Proof.
  assert (0 ≤ BNODE_LEAF < 65536) as H1 by (unfold BNODE_LEAF; lia).
  assert (item_ok sample_heap (0, key_b, val_2)) as H2.
  { eapply item_ok_intro; try reflexivity; cbn;
      unfold BTREE_MAX_KEY_SIZE, BTREE_MAX_VAL_SIZE; lia. }
  assert (1 ≤ length sample_items)%nat as H3 by (cbn; lia).
  assert (Z.of_nat (node_size (length sample_items)
            (entry_of sample_heap <$> sample_items)) ≤ BTREE_PAGE_SIZE)
    as H4 by (cbn; unfold BTREE_PAGE_SIZE; lia).
  assert (S (length sample_items) ≤ 3)%nat as H5 by (cbn; lia).
  exact (conj H1 (conj sample_items_ok (conj H2 (conj H3 (conj H4 (conj H5
    (leafInsert_then_split 3 sample_heap BNODE_LEAF sample_items 1
       key_b val_2 H1 sample_items_ok H2 H3 H4 H5))))))).
Defined.

(** ** Replacing a child pointer *)

Lemma view_nil h : view h nil_slice = [].
Proof.
  unfold view, rd, nil_slice. cbn [base off len].
  destruct (h !! 0%nat); reflexivity.
Qed.

Lemma valid_nil h s : valid h s → base s ≠ 0%nat → valid h nil_slice.
Proof.
  intros Hs Hb. apply valid_base in Hs.
  destruct (lookup_lt_is_Some_2 h 0) as [arr Ha]; [lia|].
  exists arr. split; [exact Ha|]. cbn. lia.
Qed.

(** The size of key-values does not depend on the pointers. *)
Lemma kv_total_added (alloc : Slice → Z) (kids : list Slice) kes :
  length kids = length kes →
  kv_total (zip_with (λ kid ke, mkEntry (alloc kid) (first_key ke) [])
              kids kes)
  = kv_total ((λ ke, mkEntry 0 (first_key ke) []) <$> kes).
Proof.
  revert kes. induction kids as [|a kids IH]; intros [|ke kes] Hl;
    try discriminate Hl; [reflexivity|].
  cbn [zip_with fmap list_fmap]. rewrite !kv_total_cons.
  rewrite IH by (cbn in Hl; lia). reflexivity.
Qed.

Section replace_kid.
Context (tree : BTree) (alloc : Slice → Z).
Hypothesis Hnew : ∀ s h, BTree_new tree s h = (h, Ok (alloc s)).
Hypothesis Halloc : ∀ s, 0 ≤ alloc s < 18446744073709551616.

(** What the loop over the kids adds to the new node. *)
Lemma nodeReplaceKidN_kids_img new t n idx kids :
  base new ≠ 0%nat →
  ∀ kes done i h,
  holds h new t n done → length done = (idx + i)%nat →
  Forall2 (λ kid ke, ∃ tk, holds h kid tk (length ke) ke ∧ ke ≠ []
                            ∧ base kid ≠ base new) kids kes →
  (length done + length kids ≤ n)%nat →
  (node_size n
     (done ++ zip_with (λ kid ke, mkEntry (alloc kid) (first_key ke) [])
                kids kes) ≤ len new)%nat →
  ∃ h', nodeReplaceKidN_kids tree new (Z.of_nat idx) (Z.of_nat i) kids h
        = (h', Ok tt)
    ∧ holds h' new t n
        (done ++ zip_with (λ kid ke, mkEntry (alloc kid) (first_key ke) [])
                   kids kes)
    ∧ same_but (base new) h h'.
Proof.
  intros Hb0. induction kids as [|kid kids IH];
    intros kes done i h H Hl Hkids Hslots Hfit.
  - apply Forall2_nil_inv_l in Hkids as ->. cbn [zip_with] in *.
    rewrite app_nil_r. exists h. split; [reflexivity|].
    split; [exact H|apply same_but_refl].
  - apply Forall2_cons_inv_l in Hkids
      as (ke & kes' & (tk & Hkid & Hne & Hbk) & Hrest & ->).
    destruct ke as [|e0 ke]; [by destruct Hne|].
    cbn [zip_with first_key length] in Hfit, Hslots |- *.
    set (added := zip_with (λ kid ke, mkEntry (alloc kid) (first_key ke) [])
                    kids kes') in Hfit |- *.
    pose proof (holds_size _ _ _ _ _ H) as Hsz.
    pose proof H as (Hvn & Hln & _).
    unfold node_size in Hsz, Hfit.
    rewrite kv_total_app, kv_total_cons in Hfit.
    cbn [nodeReplaceKidN_kids]. rewrite (bind_ok _ _ _ _ _ (Hnew kid h)).
    destruct (getKey_img _ _ _ _ _ Hkid 0 e0 eq_refl)
      as (k & Ek & Vk & Hvk & Bk & Lk).
    change (Z.of_nat 0) with 0 in Ek. rewrite (bind_ok _ _ _ _ _ Ek).
    rewrite (u16_small (Z.of_nat i)) by lia.
    rewrite u16_small by lia.
    replace (Z.of_nat idx + Z.of_nat i) with (Z.of_nat (length done)) by lia.
    assert (Forall entry_ok (e0 :: ke)) as Hes by apply Hkid.
    apply Forall_cons in Hes as [He0 _].
    assert (mkEntry (alloc kid) (view h k) (view h nil_slice)
            = mkEntry (alloc kid) (e_key e0) []) as Ee
      by (rewrite Vk, view_nil; reflexivity).
    destruct (nodeAppendKV_img h new t n done (alloc kid) k nil_slice H)
      as (h1 & E1 & H1 & S1).
    { lia. }
    { exact Hvk. }
    { exact (valid_nil _ _ Hvn Hb0). }
    { rewrite Bk. exact Hbk. }
    { cbn [base nil_slice]. exact (not_eq_sym Hb0). }
    { rewrite Ee. split; [apply Halloc|]. split; [apply He0|].
      cbn. unfold BTREE_MAX_VAL_SIZE. lia. }
    { rewrite Ee. unfold node_size. lia. }
    rewrite Ee in H1. rewrite (bind_ok _ _ _ _ _ E1).
    replace (Z.of_nat i + 1) with (Z.of_nat (S i)) by lia.
    destruct (IH kes' (done ++ [mkEntry (alloc kid) (e_key e0) []]) (S i) h1)
      as (h2 & E2 & H2 & S2).
    + exact H1.
    + rewrite length_app. cbn [length]. lia.
    + eapply Forall2_impl; [exact Hrest|].
      intros kd ke' (tk' & Hk' & Hne' & Hb'). exists tk'.
      split; [|split; [exact Hne'|exact Hb']].
      exact (holds_same_but _ _ _ _ _ _ _ S1 Hb' Hk').
    + rewrite length_app. cbn [length]. lia.
    + rewrite <- app_assoc. cbn [app]. unfold node_size.
      rewrite kv_total_app, kv_total_cons. fold added. lia.
    + rewrite <- app_assoc in H2. cbn [app] in H2.
      exists h2. split; [exact E2|]. split; [exact H2|].
      exact (same_but_trans _ _ _ _ S1 S2).
Qed.

Lemma nodeReplaceKidN_img h new old t' eo idx kids kes :
  let added := zip_with (λ kid ke, mkEntry (alloc kid) (first_key ke) [])
                 kids kes in
  let n := (length eo + length kids - 1)%nat in
  holds h old t' (length eo) eo → (idx < length eo)%nat →
  valid h new → Z.of_nat (len new) < 65536 →
  base new ≠ base old → base new ≠ 0%nat →
  Forall2 (λ kid ke, ∃ tk, holds h kid tk (length ke) ke ∧ ke ≠ []
                            ∧ base kid ≠ base new) kids kes →
  (node_size n (take idx eo ++ added ++ drop (S idx) eo) ≤ len new)%nat →
  ∃ h', nodeReplaceKidN tree new old (Z.of_nat idx) kids h = (h', Ok tt)
    ∧ holds h' new BNODE_NODE n (take idx eo ++ added ++ drop (S idx) eo)
    ∧ same_but (base new) h h'.
Proof.
  intros added n Hold Hidx Hv Hlen Hb Hb0 Hkids Hfit.
  assert (length added = length kids) as La
    by (eapply length_zip_with_same_l; exact Hkids).
  assert (length (take idx eo) = idx) as Lt by (rewrite length_take; lia).
  unfold node_size in Hfit. rewrite !kv_total_app in Hfit.
  unfold nodeReplaceKidN. cbv zeta. unfold BNode in *.
  rewrite (bind_ok _ _ _ _ _ (nkeys_img _ _ _ _ _ Hold)).
  rewrite (u16_small (Z.of_nat (length kids))) by lia.
  rewrite (u16_small (Z.of_nat (length eo) + Z.of_nat (length kids) - 1))
    by lia.
  replace (Z.of_nat (length eo) + Z.of_nat (length kids) - 1)
    with (Z.of_nat n) by lia.
  destruct (setHeader_img h new BNODE_NODE n Hv Hlen) as (h1 & E1 & H1 & S1);
    [unfold BNODE_NODE; lia|unfold node_size; cbn [kv_total sum_list_with]; lia|].
  rewrite (bind_ok _ _ _ _ _ E1).
  assert (holds h1 old t' (length eo) eo) as Hold1
    by exact (holds_same_but _ _ _ _ _ _ _ S1 (not_eq_sym Hb) Hold).
  destruct (nodeAppendRange_img new old BNODE_NODE t' n (length eo) eo [] 0 idx
              Hb) with (h := h1) as (h2 & E2 & H2 & S2);
    [| | |exact Hold1|exact H1|].
  { cbn [length]. lia. }
  { cbn. lia. }
  { rewrite drop_0. cbn [app]. unfold node_size. lia. }
  cbn [length app] in E2, H2. rewrite drop_0 in H2.
  change (Z.of_nat 0) with 0 in E2. rewrite (bind_ok _ _ _ _ _ E2).
  assert (same_but (base new) h h2) as S02
    by exact (same_but_trans _ _ _ _ S1 S2).
  destruct (nodeReplaceKidN_kids_img new BNODE_NODE n idx kids Hb0 kes
              (take idx eo) 0 h2 H2) as (h3 & E3 & H3 & S3).
  { lia. }
  { eapply Forall2_impl; [exact Hkids|].
    intros kd ke' (tk' & Hk' & Hne' & Hb'). exists tk'.
    split; [|split; [exact Hne'|exact Hb']].
    exact (holds_same_but _ _ _ _ _ _ _ S02 Hb' Hk'). }
  { unfold BNode. lia. }
  { fold added. unfold node_size. rewrite kv_total_app. lia. }
  fold added in H3. change (Z.of_nat 0) with 0 in E3.
  rewrite (bind_ok _ _ _ _ _ E3).
  assert (holds h3 old t' (length eo) eo) as Hold3.
  { eapply holds_same_but; [exact S3|exact (not_eq_sym Hb)|].
    eapply holds_same_but; [exact S2|exact (not_eq_sym Hb)|exact Hold1]. }
  rewrite (bind_ok _ _ _ _ _ (nkeys_img _ _ _ _ _ Hold3)).
  pose proof (holds_size _ _ _ _ _ Hold) as Hso. unfold node_size in Hso.
  destruct Hold as (_ & Hlo & _).
  rewrite !u16_small by lia.
  destruct (nodeAppendRange_img new old BNODE_NODE t' n (length eo) eo
              (take idx eo ++ added) (S idx) (length eo - S idx) Hb)
    with (h := h3) as (h4 & E4 & H4 & S4); [| | |exact Hold3|exact H3|].
  { rewrite length_app, Lt, La. lia. }
  { lia. }
  { rewrite (take_ge (drop (S idx) eo)) by (rewrite length_drop; lia).
    rewrite <- app_assoc. unfold node_size. rewrite !kv_total_app. lia. }
  rewrite length_app, Lt, La in E4.
  replace (Z.of_nat (idx + length kids))
    with (Z.of_nat idx + Z.of_nat (length kids)) in E4 by lia.
  replace (Z.of_nat (S idx)) with (Z.of_nat idx + 1) in E4 by lia.
  replace (Z.of_nat (length eo - S idx))
    with (Z.of_nat (length eo) - (Z.of_nat idx + 1)) in E4 by lia.
  rewrite (take_ge (drop (S idx) eo)) in H4 by (rewrite length_drop; lia).
  rewrite <- app_assoc in H4.
  exists h4. split; [exact E4|]. split; [exact H4|].
  eapply same_but_trans; [exact S02|].
  eapply same_but_trans; [exact S3|exact S4].
Qed.

End replace_kid.

(** Items that are in order in a heap are so in every heap that keeps its
    buffers, and stand for the same entries. *)
Lemma item_ok_ext h h' x :
  (∀ b, (b < length h)%nat → h' !! b = h !! b) →
  item_ok h x → item_ok h' x ∧ entry_of h' x = entry_of h x.
Proof.
  intros F (Hk & Hv & He).
  pose proof (F _ (valid_base _ _ Hk)) as Ek.
  pose proof (F _ (valid_base _ _ Hv)) as Ev.
  assert (entry_of h' x = entry_of h x) as Ee.
  { unfold entry_of. by rewrite (view_frame _ _ _ Ek), (view_frame _ _ _ Ev). }
  split; [|exact Ee]. unfold item_ok. rewrite Ee.
  split; [|split; [|exact He]].
  - destruct Hk as (arr & Ea & Hr). exists arr. rewrite Ek. split; assumption.
  - destruct Hv as (arr & Ea & Hr). exists arr. rewrite Ev. split; assumption.
Qed.

Lemma items_ok_ext h h' es :
  (∀ b, (b < length h)%nat → h' !! b = h !! b) →
  Forall (item_ok h) es →
  Forall (item_ok h') es ∧ entry_of h' <$> es = entry_of h <$> es.
Proof.
  intros F Hes. split.
  - eapply Forall_impl; [exact Hes|]. intros x Hx.
    exact (proj1 (item_ok_ext _ _ _ F Hx)).
  - apply Forall_fmap_ext_1. eapply Forall_impl; [exact Hes|]. intros x Hx.
    exact (proj2 (item_ok_ext _ _ _ F Hx)).
Qed.

Lemma Forall2_Forall_impl {A B} (P Q : A → B → Prop) (R : B → Prop) l k :
  Forall2 P l k → Forall R k → (∀ a b, P a b → R b → Q a b) →
  Forall2 Q l k.
Proof.
  intros HP HR Himp. induction HP as [|a b l k Hab HP IH]; [constructor|].
  apply Forall_cons in HR as [Hb HR].
  constructor; [exact (Himp _ _ Hab Hb)|exact (IH HR)].
Qed.

Lemma build_nodes_holds t ess :
  0 ≤ t < 65536 →
  ∀ h,
  Forall (Forall (item_ok h)) ess →
  Forall (λ es, Z.of_nat (node_size (length es) (entry_of h <$> es))
                ≤ 2 * BTREE_PAGE_SIZE) ess →
  ∃ h' nds,
    build_nodes t ess h = (h', Ok nds)
    ∧ Forall2 (λ nd es, holds h' nd t (length es) (entry_of h <$> es)
                        ∧ (length h ≤ base nd < length h')%nat) nds ess
    ∧ (length h ≤ length h')%nat
    ∧ (∀ b, (b < length h)%nat → h' !! b = h !! b).
Proof.
  intros Ht. induction ess as [|es rest IH]; intros h Hok Hfit.
  - exists h, []. split; [reflexivity|]. split; [constructor|].
    split; [lia|]. intros; reflexivity.
  - apply Forall_cons in Hok as [Hes Hrest].
    apply Forall_cons in Hfit as [Hf Hfrest].
    destruct (build_node_holds h t es Ht Hes Hf)
      as (h1 & nd & E & H & Bo & L & Lo & F).
    assert (∀ b, (b < length h)%nat → h1 !! b = h !! b) as F1
      by (intros b Hb; apply F; lia).
    destruct (IH h1) as (h2 & nds & E2 & Hall & L2 & F2).
    + eapply Forall_impl; [exact Hrest|]. intros es' Hes'.
      exact (proj1 (items_ok_ext _ _ _ F1 Hes')).
    + apply Forall_forall. intros es' Hin.
      rewrite Forall_forall in Hrest, Hfrest.
      rewrite (proj2 (items_ok_ext _ _ _ F1 (Hrest _ Hin))).
      exact (Hfrest _ Hin).
    + exists h2, (nd :: nds). cbn [build_nodes].
      rewrite (bind_ok _ _ _ _ _ E), (bind_ok _ _ _ _ _ E2).
      split; [reflexivity|]. split; [|split; [lia|]].
      * constructor.
        -- split; [|lia]. eapply holds_frame; [|exact H]. apply F2. lia.
        -- eapply Forall2_Forall_impl; [exact Hall|exact Hrest|].
           intros nd' es' [Hh Hb] Hes'.
           rewrite (proj2 (items_ok_ext _ _ _ F1 Hes')) in Hh.
           split; [exact Hh|lia].
      * intros b Hb. rewrite F2 by lia. apply F1, Hb.
Qed.

(** X15: [nodeReplaceKidN] with a page store whose allocator gives the page
    number [alloc kid] for a node and leaves the buffers alone: the new
    node is an internal node holding the entries of the old node with the
    one at [idx] replaced by one entry for each kid, in order, made of the
    page number the allocator gave, the first key of the kid and an empty
    value; its key count is that of the old node plus the number of kids
    less one, and the old node reads as before. *)
Theorem nodeReplaceKidN_replaces_kid tree alloc h t es idx tk kis :
  let old_es := entry_of h <$> es in
  let kes := fmap (M:=list) (entry_of h) <$> kis in
  (∀ s h, BTree_new tree s h = (h, Ok (alloc s))) →
  (∀ s, 0 ≤ alloc s < 18446744073709551616) →
  0 ≤ t < 65536 → 0 ≤ tk < 65536 →
  Forall (item_ok h) es → Forall (Forall (item_ok h)) kis →
  Forall (λ ki, ki ≠ []) kis →
  Z.of_nat (node_size (length es) old_es) ≤ 2 * BTREE_PAGE_SIZE →
  Forall (λ ki, Z.of_nat (node_size (length ki) (entry_of h <$> ki))
                ≤ 2 * BTREE_PAGE_SIZE) kis →
  (idx < length es)%nat →
  Z.of_nat (node_size (length es + length kis - 1)
              (take idx old_es
               ++ ((λ ke, mkEntry 0 (first_key ke) []) <$> kes)
               ++ drop (S idx) old_es)) ≤ 2 * BTREE_PAGE_SIZE →
  ∃ h1 old h2 kids h3 new h4,
    build_node t es h = (h1, Ok old)
    ∧ build_nodes tk kis h1 = (h2, Ok kids)
    ∧ make (Z.to_nat (2 * BTREE_PAGE_SIZE)) h2 = (h3, Ok new)
    ∧ nodeReplaceKidN tree new old (Z.of_nat idx) kids h3 = (h4, Ok tt)
    ∧ btype new h4 = (h4, Ok BNODE_NODE)
    ∧ nkeys new h4 = (h4, Ok (Z.of_nat (length es + length kis - 1)))
    ∧ entries_of new h4
      = (h4, Ok (take idx old_es
                 ++ zip_with (λ kid ke, mkEntry (alloc kid) (first_key ke) [])
                      kids kes
                 ++ drop (S idx) old_es))
    ∧ entries_of old h4 = (h4, Ok old_es).
Proof.
  intros old_es kes Hnew Halloc Ht Htk Hok Hkok Hkne Hfit Hkfit Hidx Hsize.
  destruct (build_node_holds h t es Ht Hok Hfit)
    as (h1 & old & E1 & H1 & Bo & L1 & Lo & F).
  fold old_es in H1.
  assert (∀ b, (b < length h)%nat → h1 !! b = h !! b) as F1
    by (intros b Hb; apply F; lia).
  destruct (build_nodes_holds tk kis Htk h1) as (h2 & kids & E2 & Hall & L2 & F2).
  { eapply Forall_impl; [exact Hkok|]. intros ki Hki.
    exact (proj1 (items_ok_ext _ _ _ F1 Hki)). }
  { apply Forall_forall. intros ki Hin.
    rewrite Forall_forall in Hkok, Hkfit.
    rewrite (proj2 (items_ok_ext _ _ _ F1 (Hkok _ Hin))).
    exact (Hkfit _ Hin). }
  assert (Z.of_nat (Z.to_nat (2 * BTREE_PAGE_SIZE)) = 8192) as HN
    by (unfold BTREE_PAGE_SIZE; lia).
  unfold BTREE_PAGE_SIZE in Hsize at 1.
  revert HN Lo. generalize (Z.to_nat (2 * BTREE_PAGE_SIZE)) as N. intros N HN Lo.
  set (h3 := h2 ++ [replicate N 0]).
  set (new := mkSlice (length h2) 0 N N).
  assert (length old_es = length es) as Les by apply length_fmap.
  assert (length kes = length kis) as Lk by apply length_fmap.
  assert (holds h3 old t (length old_es) old_es) as Hold3.
  { rewrite Les. apply holds_app_l. eapply holds_frame; [|exact H1].
    apply F2. lia. }
  assert (Forall2 (λ kid ke, ∃ tk0, holds h3 kid tk0 (length ke) ke ∧ ke ≠ []
                              ∧ base kid ≠ base new) kids kes) as Hkids.
  { unfold kes. apply Forall2_fmap_r.
    assert (Forall (λ ki, Forall (item_ok h) ki ∧ ki ≠ []) kis) as Hboth.
    { apply Forall_forall. intros ki Hin. rewrite Forall_forall in Hkok, Hkne.
      split; [exact (Hkok _ Hin)|exact (Hkne _ Hin)]. }
    eapply Forall2_Forall_impl; [exact Hall|exact Hboth|].
    intros kid ki [Hh Hb] [Hki Hne]. cbn. exists tk.
    rewrite (proj2 (items_ok_ext _ _ _ F1 Hki)) in Hh.
    rewrite length_fmap.
    split; [exact (holds_app_l _ _ _ _ _ _ Hh)|]. split.
    - intros Hnil. apply fmap_nil_inv in Hnil. exact (Hne Hnil).
    - cbn [base new]. lia. }
  assert (length kids = length kes) as Lkk
    by exact (Forall2_length _ _ _ Hkids).
  destruct (nodeReplaceKidN_img tree alloc Hnew Halloc h3 new old t old_es idx
              kids kes Hold3) as (h4 & E4 & H4 & S4).
  { lia. }
  { apply valid_fresh. }
  { cbn [len new]. lia. }
  { cbn [base new]. lia. }
  { cbn [base new]. lia. }
  { exact Hkids. }
  { cbn [len new]. unfold node_size in *.
    rewrite !kv_total_app in *. rewrite kv_total_added by exact Lkk.
    unfold BNode in *. lia. }
  unfold BNode in *.
  assert (holds h4 old t (length old_es) old_es) as Hold4.
  { eapply holds_same_but; [exact S4| |exact Hold3]. cbn [base new]. lia. }
  set (res := take idx old_es
              ++ zip_with (λ kid ke, mkEntry (alloc kid) (first_key ke) [])
                   kids kes
              ++ drop (S idx) old_es) in *.
  assert (length res = (length old_es + length kids - 1)%nat) as Lr.
  { unfold res. rewrite !length_app, length_take, length_drop.
    rewrite length_zip_with_l_eq by exact Lkk. unfold BNode in *. lia. }
  rewrite <- Lr in H4.
  exists h1, old, h2, kids, h3, new, h4.
  split; [exact E1|]. split; [exact E2|]. split; [apply make_unfold|].
  split; [exact E4|]. split; [exact (btype_img _ _ _ _ _ H4)|].
  split.
  { rewrite (nkeys_img _ _ _ _ _ H4), Lr. do 3 f_equal.
    unfold BNode in *. lia. }
  split; [exact (entries_of_img _ _ _ _ H4)|].
  exact (entries_of_img _ _ _ _ Hold4).
Qed.

(** The internal node with the keys "a" and "b", its first child replaced
    by two nodes whose first keys are "a" and "b". *)
Lemma nodeReplaceKidN_replaces_kid_witness :
  let kis := [[(5, key_a, val_1)]; [(7, key_b, val_2)]] in
  let old_es := entry_of sample_heap <$> sample_items in
  let kes := fmap (M:=list) (entry_of sample_heap) <$> kis in
  (∀ s h, BTree_new const_store s h = (h, Ok 9)) ∧
  (∀ s : Slice, 0 ≤ 9 < 18446744073709551616) ∧
  0 ≤ BNODE_NODE < 65536 ∧ 0 ≤ BNODE_LEAF < 65536 ∧
  Forall (item_ok sample_heap) sample_items ∧
  Forall (Forall (item_ok sample_heap)) kis ∧
  Forall (λ ki, ki ≠ []) kis ∧
  Z.of_nat (node_size (length sample_items) old_es) ≤ 2 * BTREE_PAGE_SIZE ∧
  Forall (λ ki, Z.of_nat (node_size (length ki) (entry_of sample_heap <$> ki))
                ≤ 2 * BTREE_PAGE_SIZE) kis ∧
  (0 < length sample_items)%nat ∧
  Z.of_nat (node_size (length sample_items + length kis - 1)
              (take 0 old_es
               ++ ((λ ke, mkEntry 0 (first_key ke) []) <$> kes)
               ++ drop 1 old_es)) ≤ 2 * BTREE_PAGE_SIZE ∧
  ∃ h1 old h2 kids h3 new h4,
    build_node BNODE_NODE sample_items sample_heap = (h1, Ok old)
    ∧ build_nodes BNODE_LEAF kis h1 = (h2, Ok kids)
    ∧ make (Z.to_nat (2 * BTREE_PAGE_SIZE)) h2 = (h3, Ok new)
    ∧ nodeReplaceKidN const_store new old (Z.of_nat 0) kids h3 = (h4, Ok tt)
    ∧ btype new h4 = (h4, Ok BNODE_NODE)
    ∧ nkeys new h4
      = (h4, Ok (Z.of_nat (length sample_items + length kis - 1)))
    ∧ entries_of new h4
      = (h4, Ok (take 0 old_es
                 ++ zip_with (λ kid ke, mkEntry 9 (first_key ke) []) kids kes
                 ++ drop 1 old_es))
    ∧ entries_of old h4 = (h4, Ok old_es).
Proof.
  intros kis old_es kes.
  assert (∀ s h, BTree_new const_store s h = (h, Ok 9)) as H1
    by (intros; reflexivity).
  assert (∀ s : Slice, 0 ≤ 9 < 18446744073709551616) as H2 by (intros; lia).
  assert (0 ≤ BNODE_NODE < 65536) as H3 by (unfold BNODE_NODE; lia).
  assert (0 ≤ BNODE_LEAF < 65536) as H4 by (unfold BNODE_LEAF; lia).
  pose proof sample_items_ok as H5.
  assert (Forall (Forall (item_ok sample_heap)) kis) as H6.
  { unfold sample_items in H5. apply Forall_cons in H5 as [Ha Hb].
    apply Forall_cons in Hb as [Hb _].
    repeat (apply Forall_cons; split); try apply Forall_nil_2; assumption. }
  assert (Forall (λ ki : list item, ki ≠ []) kis) as H7.
  { repeat (apply Forall_cons; split); try apply Forall_nil_2; discriminate. }
  assert (Z.of_nat (node_size (length sample_items) old_es)
          ≤ 2 * BTREE_PAGE_SIZE) as H8
    by (cbn; unfold BTREE_PAGE_SIZE; lia).
  assert (Forall (λ ki, Z.of_nat (node_size (length ki)
                                    (entry_of sample_heap <$> ki))
                        ≤ 2 * BTREE_PAGE_SIZE) kis) as H9.
  { repeat (apply Forall_cons; split); try apply Forall_nil_2;
      cbn; unfold BTREE_PAGE_SIZE; lia. }
  assert (0 < length sample_items)%nat as H10 by (cbn; lia).
  assert (Z.of_nat (node_size (length sample_items + length kis - 1)
            (take 0 old_es
             ++ ((λ ke, mkEntry 0 (first_key ke) []) <$> kes)
             ++ drop 1 old_es)) ≤ 2 * BTREE_PAGE_SIZE) as H11
    by (cbn; unfold BTREE_PAGE_SIZE; lia).
  exact (conj H1 (conj H2 (conj H3 (conj H4 (conj H5 (conj H6 (conj H7
    (conj H8 (conj H9 (conj H10 (conj H11
    (nodeReplaceKidN_replaces_kid const_store (λ _, 9) sample_heap BNODE_NODE
       sample_items 0 BNODE_LEAF kis H1 H2 H3 H4 H5 H6 H7 H8 H9 H10
       H11)))))))))))).
Defined.

(** ** The insert as a whole *)

(** With an index of 65535 no pointer of a node can be read. *)
Lemma getPtr_max_fails node h :
  bytes_ok h →
  getPtr node 65535 h = (h, Panic "slice bounds out of range")
  ∨ getPtr node 65535 h = (h, Fatal "fatal error").
Proof.
  intros Hh. unfold getPtr. rewrite bind_unfold.
  destruct (nkeys node h) as [h2 r] eqn:En.
  apply nkeys_range in En as [-> [[-> ?]|(n & -> & Hn)]]; [by left| |done].
  right. unfold require. rewrite bool_decide_eq_false_2 by lia. reflexivity.
Qed.

(** X16: [treeInsert] never returns a node, whatever the node, the key and the
    value are, and it never calls the page store: the call ends in the same
    way, with the same heap, when every callback of the store is replaced
    by another one. *)
Theorem treeInsert_never_returns fuel tree tree' node key val h :
  bytes_ok h →
  (∀ h' r, treeInsert fuel tree node key val h ≠ (h', Ok r))
  ∧ treeInsert fuel tree node key val h = treeInsert fuel tree' node key val h.
Proof.
  intros Hh. split.
  - intros h' r E. destruct fuel as [|fuel]; [discriminate E|].
    destruct (treeInsert_stops fuel tree node key val h Hh) as (r' & E' & Hr).
    apply (f_equal snd) in E. rewrite E' in E. cbn [snd] in E.
    destruct Hr as [[Hr _]|[[Hr _]|[[Hr _]|[Hr _]]]];
      rewrite Hr in E; discriminate E.
  - destruct fuel as [|fuel]; [reflexivity|]. cbn [treeInsert].
    assert (4 ≤ Z.to_nat (2 * BTREE_PAGE_SIZE))%nat as HN
      by (unfold BTREE_PAGE_SIZE; lia).
    revert HN. generalize (Z.to_nat (2 * BTREE_PAGE_SIZE)) as N. intros N HN.
    rewrite !(bind_ok _ _ _ _ _ (make_unfold _ _)).
    set (h1 := h ++ [replicate N 0]).
    assert (bytes_ok h1) as Hh1.
    { apply Forall_app; split; [exact Hh|]. repeat constructor.
      apply Forall_replicate. unfold is_byte; lia. }
    assert (nodeLookupLE (mkSlice (length h) 0 N N) key h1 = (h1, Ok 65535))
      as El by (apply nodeLookupLE_fresh; [reflexivity|exact HN]).
    rewrite !(bind_ok _ _ _ _ _ El).
    rewrite !(bind_unfold (btype node)), btype_unfold.
    destruct (bool_decide (2 ≤ cap node)%nat); [|reflexivity].
    destruct (bool_decide (_ = BNODE_LEAF)); [reflexivity|].
    destruct (bool_decide (_ = BNODE_NODE)); [|reflexivity].
    destruct (getPtr_max_fails node h1 Hh1) as [E|E];
      rewrite !(bind_unfold (getPtr node 65535)), E; reflexivity.
Qed.

Lemma treeInsert_never_returns_witness :
  bytes_ok sample_heap ∧
  (∀ h' r, treeInsert 2 no_store inner_node key_b val_2 sample_heap
           ≠ (h', Ok r))
  ∧ treeInsert 2 no_store inner_node key_b val_2 sample_heap
    = treeInsert 2 const_store inner_node key_b val_2 sample_heap.
Proof.
  exact (conj sample_heap_bytes
    (treeInsert_never_returns 2 no_store const_store inner_node key_b val_2
       sample_heap sample_heap_bytes)).
Defined.

(** ** The start-up check and the node of one entry *)

(** X17: [init] lets the program start, and a node of one entry within the
    limits of key and value takes at most a page, the value counted in,
    which the sum that [init] looks at leaves out. *)
Theorem one_entry_fits_a_page h t x :
  0 ≤ t < 65536 → item_ok h x →
  init h = (h, Ok tt)
  ∧ ∃ h1 node b,
      build_node t [x] h = (h1, Ok node)
      ∧ nbytes node h1 = (h1, Ok b)
      ∧ HEADER + 8 + 2 + 4 ≤ b ≤ BTREE_PAGE_SIZE.
Proof.
  intros Ht Hx. split; [reflexivity|].
  assert (Forall (item_ok h) [x]) as Hok
    by (apply Forall_cons; split; [exact Hx|apply Forall_nil_2]).
  assert (Forall entry_ok (entry_of h <$> [x])) as Hes.
  { apply Forall_cons. split; [apply Hx|apply Forall_nil_2]. }
  pose proof (node_size_small _ Hes) as Hs.
  assert (length (entry_of h <$> [x]) = 1%nat) as L1 by reflexivity.
  rewrite L1 in Hs. specialize (Hs (le_n 1)).
  destruct (build_node_holds h t [x] Ht Hok) as (h1 & nd & E & H & _).
  { cbn [length]. unfold BTREE_PAGE_SIZE. clear -Hs. lia. }
  exists h1, nd, (Z.of_nat (node_size 1 (entry_of h <$> [x]))).
  split; [exact E|]. split; [exact (nbytes_img _ _ _ _ _ H eq_refl)|].
  change (entry_of h <$> [x]) with [entry_of h x] in *.
  unfold HEADER, BTREE_PAGE_SIZE. unfold node_size in *.
  rewrite kv_total_one in *. unfold kv_size in *. clear -Hs. lia.
Qed.

Lemma one_entry_fits_a_page_witness :
  0 ≤ BNODE_LEAF < 65536 ∧ item_ok sample_heap (5, key_a, val_1) ∧
  init sample_heap = (sample_heap, Ok tt)
  ∧ ∃ h1 node b,
      build_node BNODE_LEAF [(5, key_a, val_1)] sample_heap = (h1, Ok node)
      ∧ nbytes node h1 = (h1, Ok b)
      ∧ HEADER + 8 + 2 + 4 ≤ b ≤ BTREE_PAGE_SIZE.
Proof.
  assert (0 ≤ BNODE_LEAF < 65536) as H1 by (unfold BNODE_LEAF; lia).
  assert (item_ok sample_heap (5, key_a, val_1)) as H2.
  { eapply item_ok_intro; try reflexivity; cbn;
      unfold BTREE_MAX_KEY_SIZE, BTREE_MAX_VAL_SIZE; lia. }
  exact (conj H1 (conj H2
    (one_entry_fits_a_page sample_heap BNODE_LEAF (5, key_a, val_1) H1 H2))).
Defined.

(** ** The writer in place *)

(** How a run of [SaveData1] ends, case by case. *)
Lemma SaveData1_cases env path data d :
  let r := SaveData1 env path data d in
  (open_fails env = true ∧ snd r = Some ErrOpen
     ∧ files (fst r) = files d ∧ new_calls d (fst r) = [SysOpen path])
  ∨ (open_fails env = false ∧ (∃ n, write_fails env = Some n
       ∧ files (fst r) = <[path := take n data]> (files d))
     ∧ snd r = Some ErrWrite
     ∧ new_calls d (fst r) = [SysClose path; SysWrite path; SysOpen path])
  ∨ (open_fails env = false ∧ write_fails env = None
     ∧ files (fst r) = <[path := data]> (files d)
     ∧ snd r = (if sync_fails env then Some ErrSync else None)
     ∧ new_calls d (fst r)
       = [SysClose path; SysSync path; SysWrite path; SysOpen path]).
Proof.
  intros r. subst r. unfold SaveData1, os_OpenFile_trunc. cbn [files calls].
  destruct (open_fails env).
  { left. cbn. repeat split. by apply (new_calls_app _ _ [_]). }
  right. unfold File_Write. cbn [files calls].
  destruct (write_fails env) as [n|].
  { left. cbn. split; [done|]. split; [|split; [done|]].
    - exists n. split; [done|]. by rewrite insert_insert_eq.
    - by apply (new_calls_app _ _ [_; _; _]). }
  right. unfold File_Sync. cbn [files calls].
  destruct (sync_fails env); cbn; (split; [done|]); (split; [done|]);
    (split; [by rewrite insert_insert_eq|]); (split; [done|]);
    by apply (new_calls_app _ _ [_; _; _; _]).
Qed.

(** X18: [SaveData1] returns no error exactly when the open, the write and the
    sync succeed, and the file system is then the old one with the data
    at the path; in every run the files at other paths are as before, no
    file is removed or renamed, and the file is closed if and only if it
    was opened. *)
Theorem SaveData1_writes_in_place env path data d :
  let r := SaveData1 env path data d in
  (snd r = None ↔
     open_fails env = false ∧ write_fails env = None ∧ sync_fails env = false)
  ∧ (snd r = None → files (fst r) = <[path := data]> (files d))
  ∧ (∀ p, p ≠ path → files (fst r) !! p = files d !! p)
  ∧ (∀ c, c ∈ new_calls d (fst r) →
       c = SysOpen path ∨ c = SysWrite path ∨ c = SysSync path
       ∨ c = SysClose path)
  ∧ (SysClose path ∈ new_calls d (fst r) ↔ open_fails env = false).
Proof.
  intros r. pose proof (SaveData1_cases env path data d) as H. cbv zeta in H.
  fold r in H.
  destruct H as [(Ho & Hr & Hf & Hc)|[(Ho & (n & Hw & Hf) & Hr & Hc)
                                      |(Ho & Hw & Hf & Hr & Hc)]];
    rewrite Hr, Hf, Hc.
  - split; [split; [discriminate|intros (E & _); congruence]|].
    split; [discriminate|]. split; [done|]. split.
    + intros c Hin. apply list_elem_of_singleton in Hin. by left.
    + split; [|congruence]. intros Hin. apply list_elem_of_singleton in Hin.
      discriminate Hin.
  - split; [split; [discriminate|intros (_ & E & _); congruence]|].
    split; [discriminate|].
    split; [intros p Hp; by rewrite lookup_insert_ne|]. split.
    + intros c Hin. rewrite !elem_of_cons, elem_of_nil in Hin. tauto.
    + split; [done|]. intros _. apply elem_of_cons. by left.
  - split.
    { destruct (sync_fails env); split; try discriminate; try done.
      intros (_ & _ & E). discriminate E. }
    split; [done|].
    split; [intros p Hp; by rewrite lookup_insert_ne|]. split.
    + intros c Hin. rewrite !elem_of_cons, elem_of_nil in Hin. tauto.
    + split; [done|]. intros _. apply elem_of_cons. by left.
Qed.

(** X19: [SaveData1] is not atomic: when the write fails after [n] bytes, the
    call returns the error and the file at the path holds these [n] bytes
    of the new data; what it held before is lost, though the call
    failed. *)
Theorem SaveData1_failed_write_truncates env path data d n :
  open_fails env = false → write_fails env = Some n →
  snd (SaveData1 env path data d) = Some ErrWrite
  ∧ files (fst (SaveData1 env path data d)) !! path = Some (take n data).
Proof.
  intros Ho Hw.
  pose proof (SaveData1_cases env path data d) as H. cbv zeta in H.
  destruct H as [(Ho' & _)|[(_ & (n' & Hw' & Hf) & Hr & _)|(_ & Hw' & _)]];
    [congruence| |congruence].
  rewrite Hw in Hw'. injection Hw' as <-.
  split; [exact Hr|]. rewrite Hf. apply lookup_insert_eq.
Qed.

(** The target "db" holds 1, 2, 3; the write of 4, 5 fails after one
    byte, and "db" holds 4. *)
Lemma SaveData1_failed_write_truncates_witness :
  open_fails write_fail_env = false ∧
  write_fails write_fail_env = Some 1%nat ∧
  files plain_disk !! "db" = Some [1; 2; 3] ∧
  snd (SaveData1 write_fail_env "db" [4; 5] plain_disk) = Some ErrWrite
  ∧ files (fst (SaveData1 write_fail_env "db" [4; 5] plain_disk)) !! "db"
    = Some (take 1 [4; 5]).
Proof.
  assert (files plain_disk !! "db" = Some [1; 2; 3]) as H
    by (vm_compute; reflexivity).
  exact (conj eq_refl (conj eq_refl (conj H
    (SaveData1_failed_write_truncates write_fail_env "db" [4; 5] plain_disk 1
       eq_refl eq_refl)))).
Defined.

(** ** More on the durable writer *)

(** X20: [SaveData2] changes no file but the one at the path and the temporary
    one; when it returns no error, the file system is the old one with the
    data at the path, and no temporary file is left. *)
Theorem SaveData2_touches_two_paths env path data d :
  let tmp := tmp_name env path in
  let r := SaveData2 env path data d in
  (∀ p, p ≠ path → p ≠ tmp → files (fst r) !! p = files d !! p)
  ∧ (snd r = None →
     files (fst r) = <[path := data]> (files d)
     ∧ files (fst r) !! tmp = None).
Proof.
  intros tmp r.
  pose proof (SaveData2_cases env path data d) as H. cbv zeta in H.
  pose proof (tmp_name_fresh env path) as Hne.
  fold tmp r in H. fold tmp in Hne.
  destruct H as [H|[H|[H|[H|[H|H]]]]].
  - destruct H as (_ & -> & -> & _). split; [done|discriminate].
  - destruct H as (_ & _ & -> & -> & _). split; [done|discriminate].
  - destruct H as (_ & _ & _ & -> & (n & _ & ->) & _).
    split; [|discriminate]. intros p _ Hp.
    destruct (remove_fails env); [by rewrite lookup_insert_ne|done].
  - destruct H as (_ & _ & _ & _ & -> & -> & _).
    split; [|discriminate]. intros p _ Hp.
    destruct (remove_fails env); [by rewrite lookup_insert_ne|done].
  - destruct H as (_ & _ & _ & _ & _ & -> & -> & _).
    split; [|discriminate]. intros p _ Hp. by rewrite lookup_insert_ne.
  - destruct H as (Hc & _ & _ & _ & _ & _ & -> & _). split.
    + intros p Hp _. by rewrite lookup_insert_ne.
    + intros _. split; [done|]. by rewrite lookup_insert_ne.
Qed.

(** X21: The order of the calls: [SaveData2] tries the rename only after the
    write and the sync of the temporary file have succeeded, and it is
    the rename of the temporary file to the path; a file that was opened
    is closed, and the close is the last call or, when the temporary file
    is removed, the one before the last. *)
Theorem SaveData2_syncs_before_rename env path data d :
  let tmp := tmp_name env path in
  let cs := new_calls d (fst (SaveData2 env path data d)) in
  (∀ src dst, SysRename src dst ∈ cs →
     src = tmp ∧ dst = path
     ∧ write_fails env = None ∧ sync_fails env = false
     ∧ cs = [SysClose tmp; SysRename tmp path; SysSync tmp; SysWrite tmp;
             SysOpen tmp])
  ∧ (SysWrite tmp ∈ cs →
     ∃ rest, cs = SysClose tmp :: rest ∨ cs = SysRemove tmp :: SysClose tmp :: rest).
Proof.
  intros tmp cs.
  pose proof (SaveData2_cases env path data d) as H. cbv zeta in H.
  fold tmp in H. fold cs in H.
  destruct H as [H|[H|[H|[H|[H|H]]]]].
  - destruct H as (_ & _ & _ & ->).
    split; intros; repeat (rewrite !elem_of_cons, ?elem_of_nil in *);
      intuition discriminate.
  - destruct H as (_ & _ & _ & _ & ->).
    split; intros; repeat (rewrite !elem_of_cons, ?elem_of_nil in *);
      intuition discriminate.
  - destruct H as (_ & _ & _ & _ & _ & ->). split.
    + intros src dst Hin. rewrite !elem_of_cons, elem_of_nil in Hin.
      intuition discriminate.
    + intros _. eexists. right. reflexivity.
  - destruct H as (_ & _ & _ & _ & _ & _ & ->). split.
    + intros src dst Hin. rewrite !elem_of_cons, elem_of_nil in Hin.
      intuition discriminate.
    + intros _. eexists. right. reflexivity.
  - destruct H as (_ & _ & Hw & Hs & _ & _ & _ & ->). split.
    + intros src dst Hin. rewrite !elem_of_cons, elem_of_nil in Hin.
      destruct Hin as [Hin|[Hin|[Hin|[Hin|[Hin|[]]]]]]; try discriminate Hin.
      injection Hin as -> ->. done.
    + intros _. eexists. left. reflexivity.
  - destruct H as (_ & _ & Hw & Hs & _ & _ & _ & ->). split.
    + intros src dst Hin. rewrite !elem_of_cons, elem_of_nil in Hin.
      destruct Hin as [Hin|[Hin|[Hin|[Hin|[Hin|[]]]]]]; try discriminate Hin.
      injection Hin as -> ->. done.
    + intros _. eexists. left. reflexivity.
Qed.

(** The two writers on a disk with the target "db", no call failing. *)
Lemma SaveData1_writes_in_place_witness :
  snd (SaveData1 calm_env "db" [4; 5] plain_disk) = None
  ∧ files (fst (SaveData1 calm_env "db" [4; 5] plain_disk))
    = <["db" := [4; 5]]> (files plain_disk).
Proof.
  assert (snd (SaveData1 calm_env "db" [4; 5] plain_disk) = None) as H
    by (vm_compute; reflexivity).
  exact (conj H
    (proj1 (proj2 (SaveData1_writes_in_place calm_env "db" [4; 5] plain_disk))
       H)).
Defined.

Lemma SaveData2_touches_two_paths_witness :
  snd (SaveData2 calm_env "db" [4; 5] plain_disk) = None
  ∧ files (fst (SaveData2 calm_env "db" [4; 5] plain_disk))
    = <["db" := [4; 5]]> (files plain_disk)
  ∧ files (fst (SaveData2 calm_env "db" [4; 5] plain_disk))
      !! tmp_name calm_env "db" = None.
Proof.
  assert (snd (SaveData2 calm_env "db" [4; 5] plain_disk) = None) as H
    by (vm_compute; reflexivity).
  exact (conj H
    (proj2 (SaveData2_touches_two_paths calm_env "db" [4; 5] plain_disk) H)).
Defined.

Lemma SaveData2_syncs_before_rename_witness :
  let tmp := tmp_name calm_env "db" in
  let cs := new_calls plain_disk (fst (SaveData2 calm_env "db" [4; 5] plain_disk)) in
  SysRename tmp "db" ∈ cs
  ∧ tmp = tmp ∧ "db" = "db"
  ∧ write_fails calm_env = None ∧ sync_fails calm_env = false
  ∧ cs = [SysClose tmp; SysRename tmp "db"; SysSync tmp; SysWrite tmp;
          SysOpen tmp].
Proof.
  intros tmp cs.
  assert (SysRename tmp "db" ∈ cs) as H.
  { assert (cs = [SysClose tmp; SysRename tmp "db"; SysSync tmp; SysWrite tmp;
                  SysOpen tmp]) as -> by (vm_compute; reflexivity).
    apply elem_of_cons. right. apply elem_of_cons. left. reflexivity. }
  exact (conj H
    (proj1 (SaveData2_syncs_before_rename calm_env "db" [4; 5] plain_disk)
       tmp "db" H)).
Defined.
